(** * Kingdom SaaS: AI request orchestration and subscription gating

    A shallow embedding of the request pipeline of the repository:

    - [Tenant]        : api-gateway [middleware/tenant.js], the quota guard
                        [checkSubscriptionLimits];
    - [OpenAIProvider]: ai-orchestrator [providers/OpenAIProvider.js];
    - [Hardware]      : ai-orchestrator [utils/HardwareDetector.js];
    - [Orchestrator]  : ai-orchestrator [server.js], model registration and
                        hardware based assignment;
    - [Routes]        : ai-orchestrator [routes/ai.js], the [/process] and
                        [/stream] handlers;
    - [Database], [Registration] : the constraints and column types of
                        [ai_models] in api-gateway [utils/database.js], and
                        [registerModels] run against them.

    JavaScript numbers that the code only counts with are integers ([Z]);
    money amounts are IEEE binary64 values ([float]); strings are [string],
    one character standing for one UTF-16 code unit.  PostgreSQL and Redis
    are modelled by the tables and keys the code touches.  The statements of
    the request handlers take effect as written; the statement of
    [registerModels] is also held against the schema, in [Registration]; the
    Redis wrapper swallows its own failures, see [utils/redis.js]. *)

From Stdlib Require Import ZArith Ascii String DecimalString List Bool Lia.
From Stdlib Require Import QArith Qround Qabs Lqa.
From Stdlib Require Import Floats Uint63.
Import ListNotations.

#[local] Set Warnings "-inexact-float".
#[local] Open Scope string_scope.
#[local] Open Scope Z_scope.

(* ================================================================== *)
(** ** JavaScript objects used as tables *)

Module JS.

(** What [o[k]] evaluates to for an object literal [o]: an own property,
    a member inherited from [Object.prototype] (a function or the prototype
    itself, truthy and without the keys of the tables below), or
    [undefined]. *)
Inductive property (A : Type) : Type :=
| Own (a : A)
| Inherited
| Undefined.
Arguments Own {A} a.
Arguments Inherited {A}.
Arguments Undefined {A}.

Definition object_prototype_keys : list string :=
  [ "constructor"; "__proto__"; "hasOwnProperty"; "isPrototypeOf";
    "propertyIsEnumerable"; "toString"; "toLocaleString"; "valueOf";
    "__defineGetter__"; "__defineSetter__";
    "__lookupGetter__"; "__lookupSetter__" ].

Fixpoint own {A : Type} (o : list (string * A)) (k : string) : option A :=
  match o with
  | [] => None
  | (k', a) :: o' => if String.eqb k' k then Some a else own o' k
  end.

Definition get {A : Type} (o : list (string * A)) (k : string) : property A :=
  match own o k with
  | Some a => Own a
  | None =>
      if existsb (String.eqb k) object_prototype_keys
      then Inherited else Undefined
  end.

(** A property key computed from a nullable column: [o[null]] reads the
    key ["null"]. *)
Definition key (s : option string) : string :=
  match s with Some k => k | None => "null" end.

(** [Math.ceil(a / b)] for an integer [a] and a positive integer [b]. *)
Definition ceil_div (a b : Z) : Z := - ((- a) / b).

End JS.

(* ================================================================== *)
(** ** middleware/tenant.js: the quota guard *)

Module Tenant.

Inductive feature : Type :=
| ai_requests_per_month
| storage_gb
| team_members
| webhooks.

Definition feature_name (f : feature) : string :=
  match f with
  | ai_requests_per_month => "ai_requests_per_month"
  | storage_gb => "storage_gb"
  | team_members => "team_members"
  | webhooks => "webhooks"
  end.

(** [feature.replace('_', ' ')]: only the first underscore is replaced. *)
Definition feature_label (f : feature) : string :=
  match f with
  | ai_requests_per_month => "ai requests_per_month"
  | storage_gb => "storage gb"
  | team_members => "team members"
  | webhooks => "webhooks"
  end.

Record plan_limits : Type := {
  lim_ai_requests_per_month : Z;
  lim_storage_gb : Z;
  lim_team_members : Z;
  lim_webhooks : Z
}.

Definition free : plan_limits := {|
  lim_ai_requests_per_month := 100; lim_storage_gb := 1;
  lim_team_members := 3; lim_webhooks := 1 |}.
Definition basic : plan_limits := {|
  lim_ai_requests_per_month := 1000; lim_storage_gb := 10;
  lim_team_members := 10; lim_webhooks := 5 |}.
Definition pro : plan_limits := {|
  lim_ai_requests_per_month := 10000; lim_storage_gb := 100;
  lim_team_members := 50; lim_webhooks := 25 |}.
Definition enterprise : plan_limits := {|
  lim_ai_requests_per_month := -1; lim_storage_gb := -1;
  lim_team_members := -1; lim_webhooks := -1 |}.

(** The object literal [limits]. *)
Definition limits : list (string * plan_limits) :=
  [ ("free", free); ("basic", basic); ("pro", pro);
    ("enterprise", enterprise) ].

(** The value of [limits[subscriptionPlan] || limits.free]. *)
Inductive plan_object : Type :=
| LimitsRow (r : plan_limits)
| PrototypeMember.

Definition planLimits (subscriptionPlan : option string) : plan_object :=
  match JS.get limits (JS.key subscriptionPlan) with
  | JS.Own r => LimitsRow r
  | JS.Inherited => PrototypeMember
  | JS.Undefined => LimitsRow free
  end.

Definition row_limit (r : plan_limits) (f : feature) : Z :=
  match f with
  | ai_requests_per_month => lim_ai_requests_per_month r
  | storage_gb => lim_storage_gb r
  | team_members => lim_team_members r
  | webhooks => lim_webhooks r
  end.

(** [planLimits[feature]]; [None] is [undefined]. *)
Definition limit_of (p : plan_object) (f : feature) : option Z :=
  match p with
  | LimitsRow r => Some (row_limit r f)
  | PrototypeMember => None
  end.

(** The figures the four usage queries return for the tenant. *)
Record usage_rows : Type := {
  ai_jobs_this_month : Z;
  team_member_count : Z;
  active_webhooks : Z;
  files_total_size : Z
}.

Definition GB : Z := 1024 * 1024 * 1024.

(** The [switch (feature)] that fills [currentUsage]. *)
Definition currentUsage (f : feature) (db : usage_rows) : Z :=
  match f with
  | ai_requests_per_month => ai_jobs_this_month db
  | team_members => team_member_count db
  | webhooks => active_webhooks db
  | storage_gb => JS.ceil_div (files_total_size db) GB
  end.

Record limit_exceeded : Type := {
  le_error : string;
  le_message : string;
  le_current_usage : Z;
  le_limit : Z;
  le_upgrade_url : string
}.

(** [req.usageInfo]; an [undefined] limit leaves [remaining] at [NaN]. *)
Record usage_info : Type := {
  ui_feature : feature;
  ui_current_usage : Z;
  ui_limit : option Z;
  ui_remaining : option Z
}.

Inductive outcome : Type :=
| Next (info : option usage_info)
| Forbidden403 (body : limit_exceeded).

Definition decimal (z : Z) : string :=
  DecimalString.NilZero.string_of_int (Z.to_int z).

Definition exceeded_message
    (subscriptionPlan : option string) (limit : Z) (f : feature) : string :=
  "Your " ++ JS.key subscriptionPlan ++ " plan allows " ++ decimal limit
    ++ " " ++ feature_label f ++ ", but you have reached this limit.".

(** [currentUsage >= limit]; a comparison with [undefined] is false. *)
Definition reached (usage : Z) (limit : option Z) : bool :=
  match limit with
  | Some l => l <=? usage
  | None => false
  end.

Definition checkSubscriptionLimits
    (f : feature) (subscriptionPlan : option string) (db : usage_rows)
  : outcome :=
  let limit := limit_of (planLimits subscriptionPlan) f in
  match limit with
  | Some (-1) => Next None
  | _ =>
      let usage := currentUsage f db in
      match limit with
      | Some l =>
          if reached usage limit then
            Forbidden403 {|
              le_error := "Subscription limit exceeded";
              le_message := exceeded_message subscriptionPlan l f;
              le_current_usage := usage;
              le_limit := l;
              le_upgrade_url := "/api/payments/upgrade" |}
          else
            Next (Some {| ui_feature := f; ui_current_usage := usage;
                          ui_limit := limit; ui_remaining := Some (l - usage) |})
      | None =>
          Next (Some {| ui_feature := f; ui_current_usage := usage;
                        ui_limit := None; ui_remaining := None |})
      end
  end.

Definition allowed (o : outcome) : bool :=
  match o with Next _ => true | Forbidden403 _ => false end.

End Tenant.

(* ================================================================== *)
(** ** providers/OpenAIProvider.js *)

Module OpenAIProvider.

(** An [Error] object: its [name] and its [message]. *)
Record js_error : Type := { err_name : string; err_message : string }.

Inductive outcome (A : Type) : Type :=
| Ok (a : A)
| Throw (e : js_error).
Arguments Ok {A} a.
Arguments Throw {A} e.

(** The [options] object of a request, as far as the code reads it. *)
Record options : Type := {
  opt_model : option string;
  opt_maxTokens : option Z
}.

Definition no_options : options :=
  {| opt_model := None; opt_maxTokens := None |}.

Record usage : Type := {
  prompt_tokens : option Z;
  completion_tokens : option Z;
  total_tokens : Z
}.

Record generation : Type := {
  gen_provider : string;
  gen_model : string;
  gen_response : string;
  gen_usage : usage;
  gen_cost : float
}.

(** The argument of [onChunk]. *)
Record chunk_note : Type := {
  chunk : string;
  fullResponse : string;
  tokenCount : Z
}.

Definition provider : string := "openai".

Definition pricing : list (string * float) :=
  [ ("gpt-4", 0.00003%float); ("gpt-4-turbo", 0.00001%float);
    ("gpt-3.5-turbo", 0.000002%float);
    ("gpt-3.5-turbo-16k", 0.000004%float) ].

(** A JavaScript number that holds an integer count, for counts below
    2^63 in size. *)
Definition number (z : Z) : float :=
  if z <? 0 then PrimFloat.opp (PrimFloat.of_uint63 (Uint63.of_Z (- z)))
  else PrimFloat.of_uint63 (Uint63.of_Z z).

(** Truthiness of a number: neither zero nor [NaN]. *)
Definition truthy (x : float) : bool :=
  negb (PrimFloat.eqb x 0%float) && PrimFloat.eqb x x.

(** [pricing[model] || pricing['gpt-3.5-turbo']]; [None] when the value
    found is an inherited member, which is no number. *)
Definition costPerToken (model : string) : option float :=
  let fallback := JS.own pricing "gpt-3.5-turbo" in
  match JS.get pricing model with
  | JS.Own rate => if truthy rate then Some rate else fallback
  | JS.Inherited => None
  | JS.Undefined => fallback
  end.

Definition calculateCost (model : string) (tokens : float) : float :=
  match costPerToken model with
  | Some rate => PrimFloat.mul tokens rate
  | None => PrimFloat.nan
  end.

(** [Math.ceil(text.length / 4)]. *)
Definition estimateTokens (text : string) : Z :=
  JS.ceil_div (Z.of_nat (String.length text)) 4.

(** What the chat-completions endpoint is asked. *)
Record chat_request : Type := {
  rq_model : string;
  rq_content : string;
  rq_max_tokens : Z;
  rq_stream : bool
}.

(** A blocking completion: the text and the counts the backend reports. *)
Record completion : Type := {
  content : string;
  c_prompt_tokens : Z;
  c_completion_tokens : Z;
  c_total_tokens : Z
}.

(** A streamed completion: the [delta.content] of each item in arrival
    order ([None] when the item has none), and the error the iteration
    ends with, if it does not end normally. *)
Record stream_source : Type := {
  items : list (option string);
  failure : option js_error
}.

(** The remote service: how long a call takes and what it gives. *)
Record client : Type := {
  create : chat_request -> Z * outcome completion;
  create_stream : chat_request -> Z * stream_source
}.

Definition default_model : string := "gpt-3.5-turbo".

Definition model_of (o : options) : string :=
  match opt_model o with Some m => m | None => default_model end.

Definition maxTokens_of (o : options) : Z :=
  match opt_maxTokens o with Some n => n | None => 1000 end.

Definition generateText (c : client) (prompt : string) (o : options)
  : Z * outcome generation :=
  let model := model_of o in
  let '(latency, r) :=
    create c {| rq_model := model; rq_content := prompt;
                rq_max_tokens := maxTokens_of o; rq_stream := false |} in
  match r with
  | Ok response =>
      (latency,
       Ok {| gen_provider := provider;
             gen_model := model;
             gen_response := content response;
             gen_usage := {| prompt_tokens := Some (c_prompt_tokens response);
                             completion_tokens := Some (c_completion_tokens response);
                             total_tokens := c_total_tokens response |};
             gen_cost := calculateCost model (number (c_total_tokens response)) |})
  | Throw error => (latency, Throw error)
  end.

(** The [for await] loop: the response and the estimate accumulated so far,
    and the [onChunk] calls made, oldest first. *)
Fixpoint consume (its : list (option string)) (fullResponse : string)
    (tokenCount : Z) : list chunk_note * (string * Z) :=
  match its with
  | [] => ([], (fullResponse, tokenCount))
  | it :: rest =>
      let content := match it with Some s => s | None => "" end in
      if String.eqb content "" then consume rest fullResponse tokenCount
      else
        let fullResponse' := fullResponse ++ content in
        let tokenCount' := tokenCount + estimateTokens content in
        let '(notes, final) := consume rest fullResponse' tokenCount' in
        ({| chunk := content; fullResponse := fullResponse';
            tokenCount := tokenCount' |} :: notes, final)
  end.

Definition generateTextStream (c : client) (prompt : string) (o : options)
  : Z * list chunk_note * outcome generation :=
  let model := model_of o in
  let '(latency, stream) :=
    create_stream c {| rq_model := model; rq_content := prompt;
                       rq_max_tokens := maxTokens_of o; rq_stream := true |} in
  let '(notes, (fullResponse, tokenCount)) := consume (items stream) "" 0 in
  match failure stream with
  | Some error => (latency, notes, Throw error)
  | None =>
      (latency, notes,
       Ok {| gen_provider := provider;
             gen_model := model;
             gen_response := fullResponse;
             gen_usage := {| prompt_tokens := None; completion_tokens := None;
                             total_tokens := tokenCount |};
             gen_cost := calculateCost model (number tokenCount) |})
  end.

End OpenAIProvider.

(* ================================================================== *)
(** ** utils/HardwareDetector.js *)

Module Hardware.

(** [hardwareInfo.gpu]; [memory] is in GB. *)
Record gpu_info : Type := {
  vendor : string;
  model : string;
  memory : Q;
  cores : option Z
}.

(** [hardwareInfo], with the parts the model assignment reads. *)
Record hardware_info : Type := {
  cpu_cores : option Z;
  memory_total : option Q;
  gpu : option gpu_info
}.

(** [Math.round]: halves go up. *)
Definition round (x : Q) : Z := Qfloor (x + (1 # 2))%Q.

(** [gpu.vram ? Math.round(gpu.vram / 1024) : 0], [vram] in MB and [None]
    when the controller reports none. *)
Definition memory_of_vram (vram : option Q) : Q :=
  match vram with
  | Some v => if Qeq_bool v 0 then 0%Q else inject_Z (round (v / 1024)%Q)
  | None => 0%Q
  end.

Definition hasGPU (hw : hardware_info) : bool :=
  match gpu hw with
  | Some g => negb (Qle_bool (memory g) 0)
  | None => false
  end.

Definition getGPUMemory (hw : hardware_info) : Q :=
  match gpu hw with
  | Some g => if hasGPU hw then memory g else 0%Q
  | None => 0%Q
  end.

End Hardware.

(* ================================================================== *)
(** ** utils/redis.js: the one key the orchestrator reads back *)

Module Redis.

Record entry : Type := {
  value : list string;
  expires_at : option Z
}.

Definition store : Type := list (string * entry).

Fixpoint del (s : store) (k : string) : store :=
  match s with
  | [] => []
  | (k', e) :: s' => if String.eqb k' k then del s' k else (k', e) :: del s' k
  end.

(** [set(key, value, expiration)], [expiration] in seconds, at time [now]
    (milliseconds). *)
Definition set (s : store) (k : string) (v : list string)
    (expiration : option Z) (now : Z) : store :=
  let expiry :=
    match expiration with
    | Some secs => if secs =? 0 then None else Some (now + secs * 1000)
    | None => None
    end in
  (k, {| value := v; expires_at := expiry |}) :: del s k.

(** [get(key)]: the parsed value, or [null] when the key is absent or has
    expired. *)
Definition get (s : store) (k : string) (now : Z) : option (list string) :=
  match JS.own s k with
  | Some e =>
      match expires_at e with
      | Some t => if t <=? now then None else Some (value e)
      | None => Some (value e)
      end
  | None => None
  end.

End Redis.

(* ================================================================== *)
(** ** server.js: the orchestrator *)

Module Orchestrator.

(** One entry of [modelConfig.models.openai] or [modelConfig.models.local]. *)
Record model_config : Type := {
  cfg_provider : string;
  cfg_performance_tier : option string;
  cfg_cost_per_token : option Q;
  cfg_max_tokens : option Z;
  cfg_other : string
}.

Record auto_assignment : Type := {
  cpu_only : option (list string);
  gpu_4gb : option (list string);
  gpu_8gb : option (list string);
  gpu_16gb : option (list string)
}.

Record modelConfig : Type := {
  models_openai : option (list (string * model_config));
  models_local : option (list (string * model_config));
  assignment : auto_assignment
}.

(** A row of [ai_models]. *)
Record model_row : Type := {
  m_id : nat;
  m_name : string;
  m_provider : string;
  m_model_type : string;
  m_configuration : model_config;
  m_performance_tier : option string;
  m_cost_per_token : option Q;
  m_max_tokens : option Z;
  m_is_active : bool;
  m_updated_at : Z
}.

(** [getDefaultModelConfig]. *)
Definition getDefaultModelConfig : modelConfig :=
  {| models_openai := Some
       [ ("gpt-4",
          {| cfg_provider := "openai";
             cfg_performance_tier := Some "high";
             cfg_cost_per_token := Some (3 # 100000)%Q;
             cfg_max_tokens := Some 4096;
             cfg_other := "endpoint: https://api.openai.com/v1" |});
         ("gpt-3.5-turbo",
          {| cfg_provider := "openai";
             cfg_performance_tier := Some "medium";
             cfg_cost_per_token := Some (2 # 1000000)%Q;
             cfg_max_tokens := Some 4096;
             cfg_other := "endpoint: https://api.openai.com/v1" |}) ];
     models_local := Some
       [ ("llama2-7b",
          {| cfg_provider := "local";
             cfg_performance_tier := Some "medium";
             cfg_cost_per_token := None;
             cfg_max_tokens := None;
             cfg_other := "model_path: /models/llama2-7b, memory_requirement: 8GB, gpu_requirement: true" |});
         ("llama2-13b",
          {| cfg_provider := "local";
             cfg_performance_tier := Some "high";
             cfg_cost_per_token := None;
             cfg_max_tokens := None;
             cfg_other := "model_path: /models/llama2-13b, memory_requirement: 16GB, gpu_requirement: true" |}) ];
     assignment :=
       {| cpu_only := Some ["gpt-3.5-turbo"];
          gpu_4gb := Some ["llama2-7b"; "gpt-3.5-turbo"];
          gpu_8gb := Some ["llama2-7b"; "llama2-13b"; "gpt-4"];
          gpu_16gb := Some ["llama2-7b"; "llama2-13b"; "gpt-4"] |} |}.

(** An element of the [models] array built by [registerModels]. *)
Record model_spec : Type := {
  name : string;
  provider : string;
  model_type : string;
  configuration : model_config;
  performance_tier : option string;
  cost_per_token : option Q;
  max_tokens : option Z
}.

Definition openai_spec (entry : string * model_config) : model_spec :=
  let '(name, config) := entry in
  {| name := name;
     provider := cfg_provider config;
     model_type := "text-generation";
     configuration := config;
     performance_tier := cfg_performance_tier config;
     cost_per_token := cfg_cost_per_token config;
     max_tokens := cfg_max_tokens config |}.

(** [config.max_tokens || 2048]. *)
Definition local_max_tokens (config : model_config) : Z :=
  match cfg_max_tokens config with
  | Some n => if n =? 0 then 2048 else n
  | None => 2048
  end.

Definition local_spec (entry : string * model_config) : model_spec :=
  let '(name, config) := entry in
  {| name := name;
     provider := cfg_provider config;
     model_type := "text-generation";
     configuration := config;
     performance_tier := cfg_performance_tier config;
     cost_per_token := Some 0%Q;
     max_tokens := Some (local_max_tokens config) |}.

Definition section_specs (f : string * model_config -> model_spec)
    (section : option (list (string * model_config))) : list model_spec :=
  match section with
  | Some entries => map f entries
  | None => []
  end.

Definition collect (cfg : modelConfig) : list model_spec :=
  section_specs openai_spec (models_openai cfg)
    ++ section_specs local_spec (models_local cfg).

Definition has_name (n : string) (r : model_row) : bool :=
  String.eqb (m_name r) n.

(** [DO UPDATE SET configuration, performance_tier, cost_per_token,
    max_tokens, updated_at] on the conflicting row. *)
Definition refresh (m : model_spec) (now : Z) (r : model_row) : model_row :=
  {| m_id := m_id r;
     m_name := m_name r;
     m_provider := m_provider r;
     m_model_type := m_model_type r;
     m_configuration := configuration m;
     m_performance_tier := performance_tier m;
     m_cost_per_token := cost_per_token m;
     m_max_tokens := max_tokens m;
     m_is_active := m_is_active r;
     m_updated_at := now |}.

(** The row an [INSERT] without conflict creates: [is_active] takes the
    column default. Ids are opaque; the k-th row gets the k-th one. *)
Definition fresh_row (m : model_spec) (now : Z) (id : nat) : model_row :=
  {| m_id := id;
     m_name := name m;
     m_provider := provider m;
     m_model_type := model_type m;
     m_configuration := configuration m;
     m_performance_tier := performance_tier m;
     m_cost_per_token := cost_per_token m;
     m_max_tokens := max_tokens m;
     m_is_active := true;
     m_updated_at := now |}.

(** The effect of [INSERT INTO ai_models ... ON CONFLICT (name) DO UPDATE
    SET ...] on the rows, once PostgreSQL has accepted the statement and with
    the values as the columns took them; whether it is accepted is decided in
    [Registration.query]. *)
Definition upsert (now : Z) (table : list model_row) (m : model_spec)
  : list model_row :=
  if existsb (has_name (name m)) table
  then map (fun r => if has_name (name m) r then refresh m now r else r) table
  else table ++ [fresh_row m now (List.length table)].

(** The loop of [registerModels] where every statement is accepted. *)
Definition registerModels (now : Z) (table : list model_row)
    (cfg : modelConfig) : list model_row :=
  fold_left (upsert now) (collect cfg) table.

(** The rows stored under a name, active or not. *)
Definition lookup (table : list model_row) (n : string) : list model_row :=
  filter (has_name n) table.

(** [SELECT * FROM ai_models WHERE name = $1 AND is_active = true]; the
    parameter is [None] when the handler passes [undefined]. *)
Definition lookup_active (table : list model_row) (n : option string)
  : list model_row :=
  match n with
  | Some n => filter (fun r => has_name n r && m_is_active r) table
  | None => []
  end.

Inductive category : Type :=
| cat_cpu_only
| cat_gpu_4gb
| cat_gpu_8gb
| cat_gpu_16gb.

(** The [if] chain of [autoAssignModels]. *)
Definition categorize (hardware : Hardware.hardware_info) : category :=
  match Hardware.gpu hardware with
  | None => cat_cpu_only
  | Some g =>
      let gpuMemory := Hardware.memory g in
      if Qeq_bool gpuMemory 0 then cat_cpu_only
      else if Qle_bool gpuMemory 4 then cat_gpu_4gb
      else if Qle_bool gpuMemory 8 then cat_gpu_8gb
      else cat_gpu_16gb
  end.

Definition assignment_for (a : auto_assignment) (c : category)
  : option (list string) :=
  match c with
  | cat_cpu_only => cpu_only a
  | cat_gpu_4gb => gpu_4gb a
  | cat_gpu_8gb => gpu_8gb a
  | cat_gpu_16gb => gpu_16gb a
  end.

(** [modelConfig.auto_assignment[category] ||
    modelConfig.auto_assignment.cpu_only]. *)
Definition assignedModels (cfg : modelConfig)
    (hardware : Hardware.hardware_info) : option (list string) :=
  match assignment_for (assignment cfg) (categorize hardware) with
  | Some l => Some l
  | None => cpu_only (assignment cfg)
  end.

(** [autoAssignModels]: the Redis store afterwards, or [None] when neither
    list exists and [assignedModels.join] throws. *)
Definition autoAssignModels (cfg : modelConfig)
    (hardware : Hardware.hardware_info) (now : Z) (redis : Redis.store)
  : option Redis.store :=
  match assignedModels cfg hardware with
  | Some l => Some (Redis.set redis "assigned_models" l (Some 3600) now)
  | None => None
  end.

End Orchestrator.

(* ================================================================== *)
(** ** routes/ai.js: the [/process] and [/stream] handlers *)

Module Routes.

Import OpenAIProvider.

Inductive job_status : Type :=
| pending
| processing
| streaming
| completed
| failed.

Definition terminal (s : job_status) : bool :=
  match s with
  | completed | failed => true
  | _ => false
  end.

(** The [metadata] column: [{ requestedModel, options }], with
    [streaming: true] added by [/stream]. *)
Record metadata : Type := {
  md_requestedModel : option string;
  md_options : options;
  md_streaming : bool
}.

(** A row of [ai_jobs], each field as the handlers hand it to their
    statements.  [j_cost] is the number passed for [cost]; the column is
    [DECIMAL(10, 6)] and keeps it rounded to six decimals. *)
Record job_row : Type := {
  j_id : string;
  j_tenant_id : option string;
  j_user_id : option string;
  j_model_id : option nat;
  j_prompt : string;
  j_response : option string;
  j_status : job_status;
  j_error_message : option string;
  j_tokens_used : option Z;
  j_cost : option float;
  j_processing_time : option Z;
  j_metadata : metadata;
  j_completed_at : option Z
}.

(** A message on the [ai_job_updates] channel. *)
Inductive job_update : Type :=
| JobCompleted (jobId result : string) (u : usage) (processingTime : Z)
| JobFailed (jobId error : string).

(** One [res.write] of the event stream. *)
Inductive sse_event : Type :=
| Started (jobId : string)
| Chunk (jobId content : string) (count : Z)
| Complete (jobId : string) (u : usage) (cost : float) (processingTime : Z)
| ErrorEvent (jobId error : string)
| Failure (error : string).

(** A provider method actually invoked. *)
Inductive provider_call : Type :=
| GenerateText (prompt : string) (o : options)
| GenerateTextStream (prompt : string) (o : options).

(** What a handler call changes: the [ai_jobs] table, the messages
    published, the response written so far and whether it was ended, the
    provider calls made, the clock (milliseconds), how many uuids were drawn,
    and the declarations of the blocks being executed, innermost first. *)
Record state : Type := {
  ai_jobs : list job_row;
  published : list (string * job_update);
  written : list sse_event;
  ended : bool;
  calls : list provider_call;
  clock : Z;
  drawn : nat;
  frames : list (list (string * Z))
}.

(** The common capability surface of a provider object; a method the
    object lacks is [None]. *)
Record provider_object : Type := {
  p_generateText : option (string -> options -> Z * outcome generation);
  p_generateTextStream :
    option (string -> options -> Z * list chunk_note * outcome generation)
}.

Definition openai (c : client) : provider_object :=
  {| p_generateText := Some (generateText c);
     p_generateTextStream := Some (generateTextStream c) |}.

(** What the handlers reach through [req.app.locals], [database] and
    [redis] without changing it. *)
Record app : Type := {
  initialized : bool;
  providers : list (string * provider_object);
  ai_models : list Orchestrator.model_row;
  redis : Redis.store;
  uuidv4 : nat -> string
}.

(** [req.body] and the two identity headers. The prompt is present;
    [body_model] and [body_options] are [None] when the body omits them. *)
Record request : Type := {
  body_prompt : string;
  body_model : option string;
  body_options : option options;
  x_tenant_id : option string;
  x_user_id : option string
}.

(** *** Statements in sequence, exceptions and blocks *)

Definition M (A : Type) : Type := state -> outcome A * state.

Definition ret {A : Type} (a : A) : M A := fun s => (Ok a, s).

Definition throw {A : Type} (e : js_error) : M A := fun s => (Throw e, s).

Definition bind {A B : Type} (m : M A) (k : A -> M B) : M B :=
  fun s =>
    match m s with
    | (Ok a, s') => k a s'
    | (Throw e, s') => (Throw e, s')
    end.

Notation "x <- m ;; k" := (bind m (fun x => k))
  (at level 61, m at next level, right associativity).
Notation "m ;;; k" := (bind m (fun _ => k))
  (at level 61, right associativity).

Definition with_frames (fs : list (list (string * Z))) (s : state) : state :=
  {| ai_jobs := ai_jobs s; published := published s; written := written s;
     ended := ended s; calls := calls s; clock := clock s; drawn := drawn s;
     frames := fs |}.

(** A pair of braces: the [const]s declared inside live in a frame of
    their own, dropped when control leaves the block either way. *)
Definition block {A : Type} (m : M A) : M A :=
  fun s =>
    let '(r, s') := m (with_frames ([] :: frames s) s) in
    (r, with_frames (tl (frames s')) s').

(** [const x = v]. *)
Definition declare (x : string) (v : Z) : M unit :=
  fun s =>
    match frames s with
    | f :: fs => (Ok tt, with_frames (((x, v) :: f) :: fs) s)
    | [] => (Ok tt, with_frames [[(x, v)]] s)
    end.

Fixpoint resolve (fs : list (list (string * Z))) (x : string) : option Z :=
  match fs with
  | [] => None
  | f :: fs' =>
      match JS.own f x with
      | Some v => Some v
      | None => resolve fs' x
      end
  end.

Definition ReferenceError (x : string) : js_error :=
  {| err_name := "ReferenceError"; err_message := x ++ " is not defined" |}.

Definition TypeError (what : string) : js_error :=
  {| err_name := "TypeError"; err_message := what ++ " is not a function" |}.

(** Reading the identifier [x]: innermost enclosing declaration, or a
    [ReferenceError]. *)
Definition read (x : string) : M Z :=
  fun s =>
    match resolve (frames s) x with
    | Some v => (Ok v, s)
    | None => (Throw (ReferenceError x), s)
    end.

(** [try { body } catch (error) { handler }]. *)
Definition try_catch {A : Type} (body : M A) (handler : js_error -> M A)
  : M A :=
  fun s =>
    match block body s with
    | (Ok a, s') => (Ok a, s')
    | (Throw e, s') => block (handler e) s'
    end.

(** *** The services the handlers call *)

Definition Date_now : M Z := fun s => (Ok (clock s), s).

Definition draw_uuid (a : app) : M string :=
  fun s =>
    (Ok (uuidv4 a (drawn s)),
     {| ai_jobs := ai_jobs s; published := published s; written := written s;
        ended := ended s; calls := calls s; clock := clock s;
        drawn := S (drawn s); frames := frames s |}).

Definition with_jobs (js : list job_row) (s : state) : state :=
  {| ai_jobs := js; published := published s; written := written s;
     ended := ended s; calls := calls s; clock := clock s; drawn := drawn s;
     frames := frames s |}.

(** [INSERT INTO ai_jobs]. *)
Definition insert_job (j : job_row) : M unit :=
  fun s => (Ok tt, with_jobs (ai_jobs s ++ [j]) s).

(** [UPDATE ai_jobs SET ... WHERE id = $n]. *)
Definition update_job (id : string) (f : job_row -> job_row) : M unit :=
  fun s =>
    (Ok tt,
     with_jobs (map (fun j => if String.eqb (j_id j) id then f j else j)
                    (ai_jobs s)) s).

(** [redis.publish(channel, message)]. *)
Definition publish (channel : string) (m : job_update) : M unit :=
  fun s =>
    (Ok tt,
     {| ai_jobs := ai_jobs s; published := published s ++ [(channel, m)];
        written := written s; ended := ended s; calls := calls s;
        clock := clock s; drawn := drawn s; frames := frames s |}).

(** [res.write]. *)
Definition write (e : sse_event) : M unit :=
  fun s =>
    (Ok tt,
     {| ai_jobs := ai_jobs s; published := published s;
        written := written s ++ [e]; ended := ended s; calls := calls s;
        clock := clock s; drawn := drawn s; frames := frames s |}).

(** [res.end()]. *)
Definition end_response : M unit :=
  fun s =>
    (Ok tt,
     {| ai_jobs := ai_jobs s; published := published s; written := written s;
        ended := true; calls := calls s; clock := clock s; drawn := drawn s;
        frames := frames s |}).

(** The time a provider call takes passes, and the call is on record. *)
Definition invoked (c : provider_call) (latency : Z) (s : state) : state :=
  {| ai_jobs := ai_jobs s; published := published s; written := written s;
     ended := ended s; calls := calls s ++ [c]; clock := clock s + latency;
     drawn := drawn s; frames := frames s |}.

(** [await provider.generateText(prompt, o)]. *)
Definition call_generateText (p : provider_object) (prompt : string)
    (o : options) : M generation :=
  fun s =>
    match p_generateText p with
    | Some f =>
        let '(latency, r) := f prompt o in
        (r, invoked (GenerateText prompt o) latency s)
    | None => (Throw (TypeError "provider.generateText"), s)
    end.

Fixpoint deliver (onChunk : chunk_note -> M unit) (notes : list chunk_note)
  : M unit :=
  match notes with
  | [] => ret tt
  | n :: rest => onChunk n ;;; deliver onChunk rest
  end.

(** [await provider.generateTextStream(prompt, o, onChunk)]: the callback
    runs once per fragment, in order, before the call settles. *)
Definition call_generateTextStream
    (f : string -> options -> Z * list chunk_note * outcome generation)
    (prompt : string) (o : options) (onChunk : chunk_note -> M unit)
  : M generation :=
  fun s =>
    let '(latency, notes, r) := f prompt o in
    match deliver onChunk notes
            (invoked (GenerateTextStream prompt o) latency s) with
    | (Ok _, s') => (r, s')
    | (Throw e, s') => (Throw e, s')
    end.

(** [orchestrator.getProvider(name)], that is [this.providers[name]]. An
    inherited member is an object with neither method. *)
Definition getProvider (a : app) (name : string) : option provider_object :=
  match JS.get (providers a) name with
  | JS.Own p => Some p
  | JS.Inherited =>
      Some {| p_generateText := None; p_generateTextStream := None |}
  | JS.Undefined => None
  end.

(** *** Pieces shared by the two handlers *)

(** [body('prompt').isLength({ min: 1, max: 10000 })]. *)
Definition isLength (min max : Z) (s : string) : bool :=
  (min <=? Z.of_nat (String.length s))
    && (Z.of_nat (String.length s) <=? max).

(** [validationResult(req).array()]: the fields that failed. The other two
    chains, [model] an optional string and [options] an optional object,
    hold of every [request]. *)
Definition validationErrors (req : request) : list string :=
  if isLength 1 10000 (body_prompt req) then [] else ["prompt"].

(** [v || null], and what the test [!v] sees: an empty string counts as
    absent. *)
Definition or_null (h : option string) : option string :=
  match h with
  | Some v => if String.eqb v "" then None else Some v
  | None => None
  end.

Definition options_of (req : request) : options :=
  match body_options req with Some o => o | None => no_options end.

(** [await redis.get('assigned_models') || ['gpt-3.5-turbo']]. *)
Definition availableModels (a : app) (now : Z) : list string :=
  match Redis.get (redis a) "assigned_models" now with
  | Some l => l
  | None => ["gpt-3.5-turbo"]
  end.

(** [selectedModel] after the "select best model" step; [None] is
    [undefined]. *)
Definition selectModel (a : app) (now : Z) (requestedModel : option string)
  : option string :=
  match or_null requestedModel with
  | Some m => Some m
  | None => nth_error (availableModels a now) 0
  end.

Definition shown (m : option string) : string :=
  match m with Some n => n | None => "undefined" end.

(** [{ model: selectedModel, ...options }]. *)
Definition provider_options (selectedModel : option string) (o : options)
  : options :=
  {| opt_model := match opt_model o with
                  | Some m => Some m
                  | None => selectedModel
                  end;
     opt_maxTokens := opt_maxTokens o |}.

Definition set_failed (message : string) (j : job_row) : job_row :=
  {| j_id := j_id j; j_tenant_id := j_tenant_id j; j_user_id := j_user_id j;
     j_model_id := j_model_id j; j_prompt := j_prompt j;
     j_response := j_response j; j_status := failed;
     j_error_message := Some message; j_tokens_used := j_tokens_used j;
     j_cost := j_cost j; j_processing_time := j_processing_time j;
     j_metadata := j_metadata j; j_completed_at := j_completed_at j |}.

Definition set_processing (model_id : nat) (j : job_row) : job_row :=
  {| j_id := j_id j; j_tenant_id := j_tenant_id j; j_user_id := j_user_id j;
     j_model_id := Some model_id; j_prompt := j_prompt j;
     j_response := j_response j; j_status := processing;
     j_error_message := j_error_message j; j_tokens_used := j_tokens_used j;
     j_cost := j_cost j; j_processing_time := j_processing_time j;
     j_metadata := j_metadata j; j_completed_at := j_completed_at j |}.

Definition set_completed (result : generation) (processingTime now : Z)
    (j : job_row) : job_row :=
  {| j_id := j_id j; j_tenant_id := j_tenant_id j; j_user_id := j_user_id j;
     j_model_id := j_model_id j; j_prompt := j_prompt j;
     j_response := Some (gen_response result); j_status := completed;
     j_error_message := j_error_message j;
     j_tokens_used := Some (total_tokens (gen_usage result));
     j_cost := Some (gen_cost result);
     j_processing_time := Some processingTime;
     j_metadata := j_metadata j; j_completed_at := Some now |}.

Definition set_failed_timed (message : string) (processingTime now : Z)
    (j : job_row) : job_row :=
  {| j_id := j_id j; j_tenant_id := j_tenant_id j; j_user_id := j_user_id j;
     j_model_id := j_model_id j; j_prompt := j_prompt j;
     j_response := j_response j; j_status := failed;
     j_error_message := Some message; j_tokens_used := j_tokens_used j;
     j_cost := j_cost j; j_processing_time := Some processingTime;
     j_metadata := j_metadata j; j_completed_at := Some now |}.

(** *** [router.post('/process')] *)

Inductive process_body : Type :=
| ValidationFailed (details : list string)
| ServiceUnavailable
| ModelNotAvailable (message : string)
| ProviderUnavailable (message : string)
| Success (jobId response : string) (model : option string)
    (provider : string) (u : usage) (cost : float) (processingTime : Z)
| ProcessingFailed (message : string).

Record response : Type := { status : Z; json : process_body }.

Definition pending_job (jobId : string) (req : request) : job_row :=
  {| j_id := jobId;
     j_tenant_id := or_null (x_tenant_id req);
     j_user_id := or_null (x_user_id req);
     j_model_id := None;
     j_prompt := body_prompt req;
     j_response := None;
     j_status := pending;
     j_error_message := None;
     j_tokens_used := None;
     j_cost := None;
     j_processing_time := None;
     j_metadata := {| md_requestedModel := body_model req;
                      md_options := options_of req;
                      md_streaming := false |};
     j_completed_at := None |}.

(** The inner [try] of [/process]: [startTime] is a [const] of this
    block. *)
Definition process_attempt (jobId : string) (req : request)
    (selectedModel : option string) (modelInfo : Orchestrator.model_row)
    (provider : provider_object) : M response :=
  update_job jobId (set_processing (Orchestrator.m_id modelInfo)) ;;;
  t0 <- Date_now ;;
  declare "startTime" t0 ;;;
  result <- call_generateText provider (body_prompt req)
              (provider_options selectedModel (options_of req)) ;;
  t1 <- Date_now ;;
  startTime <- read "startTime" ;;
  let processingTime := t1 - startTime in
  now <- Date_now ;;
  update_job jobId (set_completed result processingTime now) ;;;
  publish "ai_job_updates"
    (JobCompleted jobId (gen_response result) (gen_usage result)
       processingTime) ;;;
  ret {| status := 200;
         json := Success jobId (gen_response result) selectedModel
                   (gen_provider result) (gen_usage result)
                   (gen_cost result) processingTime |}.

(** The inner [catch (error)] of [/process]. *)
Definition process_recover (jobId : string) (error : js_error) : M response :=
  t1 <- Date_now ;;
  startTime <- read "startTime" ;;
  let processingTime := t1 - startTime in
  now <- Date_now ;;
  update_job jobId (set_failed_timed (err_message error) processingTime now) ;;;
  publish "ai_job_updates" (JobFailed jobId (err_message error)) ;;;
  throw error.

Definition process (a : app) (req : request) : M response :=
  try_catch
    (let errors := validationErrors req in
     match errors with
     | _ :: _ => ret {| status := 400; json := ValidationFailed errors |}
     | [] =>
         if negb (initialized a)
         then ret {| status := 503; json := ServiceUnavailable |}
         else
           jobId <- draw_uuid a ;;
           insert_job (pending_job jobId req) ;;;
           now <- Date_now ;;
           let selectedModel := selectModel a now (body_model req) in
           match Orchestrator.lookup_active (ai_models a) selectedModel with
           | [] =>
               update_job jobId
                 (set_failed ("Model " ++ shown selectedModel
                                ++ " not found or inactive")) ;;;
               ret {| status := 400;
                      json := ModelNotAvailable
                                ("Model " ++ shown selectedModel
                                   ++ " is not available") |}
           | modelInfo :: _ =>
               match getProvider a (Orchestrator.m_provider modelInfo) with
               | None =>
                   update_job jobId
                     (set_failed ("Provider "
                                    ++ Orchestrator.m_provider modelInfo
                                    ++ " not available")) ;;;
                   ret {| status := 503;
                          json := ProviderUnavailable
                                    ("Provider "
                                       ++ Orchestrator.m_provider modelInfo
                                       ++ " is not available") |}
               | Some provider =>
                   try_catch
                     (process_attempt jobId req selectedModel modelInfo
                        provider)
                     (process_recover jobId)
               end
           end
     end)
    (fun error =>
       ret {| status := 500; json := ProcessingFailed (err_message error) |}).

(** *** [router.post('/stream')] *)

Inductive stream_reply : Type :=
| NotReady
| EventStream.

Definition streaming_job (jobId : string) (req : request)
    (modelInfo : Orchestrator.model_row) : job_row :=
  {| j_id := jobId;
     j_tenant_id := or_null (x_tenant_id req);
     j_user_id := or_null (x_user_id req);
     j_model_id := Some (Orchestrator.m_id modelInfo);
     j_prompt := body_prompt req;
     j_response := None;
     j_status := streaming;
     j_error_message := None;
     j_tokens_used := None;
     j_cost := None;
     j_processing_time := None;
     j_metadata := {| md_requestedModel := body_model req;
                      md_options := options_of req;
                      md_streaming := true |};
     j_completed_at := None |}.

(** The inner [try] of [/stream]. *)
Definition stream_attempt (jobId : string) (req : request)
    (selectedModel : option string)
    (generate : string -> options -> Z * list chunk_note * outcome generation)
  : M unit :=
  result <- call_generateTextStream generate (body_prompt req)
              (provider_options selectedModel (options_of req))
              (fun c => write (Chunk jobId (chunk c) (tokenCount c))) ;;
  t1 <- Date_now ;;
  startTime <- read "startTime" ;;
  let processingTime := t1 - startTime in
  now <- Date_now ;;
  update_job jobId (set_completed result processingTime now) ;;;
  write (Complete jobId (gen_usage result) (gen_cost result) processingTime).

(** The inner [catch (error)] of [/stream]. *)
Definition stream_recover (jobId : string) (error : js_error) : M unit :=
  t1 <- Date_now ;;
  startTime <- read "startTime" ;;
  let processingTime := t1 - startTime in
  now <- Date_now ;;
  update_job jobId (set_failed_timed (err_message error) processingTime now) ;;;
  write (ErrorEvent jobId (err_message error)).

(** The route lists the same three validation chains as [/process]; they
    record their findings on the request, and this handler never reads
    [validationResult(req)]. *)
Definition stream (a : app) (req : request) : M stream_reply :=
  try_catch
    (if negb (initialized a) then ret NotReady
     else
       jobId <- draw_uuid a ;;
       now <- Date_now ;;
       let selectedModel := selectModel a now (body_model req) in
       match Orchestrator.lookup_active (ai_models a) selectedModel with
       | [] =>
           write (Failure "Model not available") ;;;
           end_response ;;;
           ret EventStream
       | modelInfo :: _ =>
           let provider := getProvider a (Orchestrator.m_provider modelInfo) in
           match match provider with
                 | Some p => p_generateTextStream p
                 | None => None
                 end with
           | None =>
               write (Failure "Streaming not supported for this provider") ;;;
               end_response ;;;
               ret EventStream
           | Some generate =>
               insert_job (streaming_job jobId req modelInfo) ;;;
               write (Started jobId) ;;;
               t0 <- Date_now ;;
               declare "startTime" t0 ;;;
               try_catch
                 (stream_attempt jobId req selectedModel generate)
                 (stream_recover jobId) ;;;
               end_response ;;;
               ret EventStream
           end
       end)
    (fun error =>
       write (Failure "Streaming failed") ;;;
       end_response ;;;
       ret EventStream).

(** A handler call is a function body: a block of its own. *)
Definition run {A : Type} (handler : M A) (s : state) : outcome A * state :=
  block handler s.

End Routes.

(* ================================================================== *)
(** ** A deployment to run the handlers on *)

Module Scenario.

Import OpenAIProvider Routes.

(** A host without GPU. *)
Definition cpu_host : Hardware.hardware_info :=
  {| Hardware.cpu_cores := Some 8;
     Hardware.memory_total := Some 16%Q;
     Hardware.gpu := None |}.

Definition boot_time : Z := 1000.

(** [ai_models] and Redis as the statements of [loadModels] leave them on a
    first start with the default configuration, on a database that accepts
    them. *)
Definition registry : list Orchestrator.model_row :=
  Orchestrator.registerModels boot_time [] Orchestrator.getDefaultModelConfig.

Definition assigned : Redis.store :=
  match Orchestrator.autoAssignModels Orchestrator.getDefaultModelConfig
          cpu_host boot_time [] with
  | Some r => r
  | None => []
  end.

Definition upstream_timeout : js_error :=
  {| err_name := "Error"; err_message := "upstream timeout" |}.

(** A backend that fails every blocking call after 250 ms and streams two
    fragments after 40 ms. *)
Definition backend : client :=
  {| create := fun _ => (250, Throw upstream_timeout);
     create_stream := fun _ =>
       (40, {| items := [Some "Hello"; None; Some ", world"];
               failure := None |}) |}.

Definition deployment : app :=
  {| initialized := true;
     providers := [("openai", openai backend)];
     ai_models := registry;
     redis := assigned;
     uuidv4 := fun n => "job-" ++ Tenant.decimal (Z.of_nat n) |}.

Definition idle : state :=
  {| ai_jobs := []; published := []; written := []; ended := false;
     calls := []; clock := 5000; drawn := 0; frames := [] |}.

Definition ask (prompt : string) (model : option string) : request :=
  {| body_prompt := prompt; body_model := model; body_options := None;
     x_tenant_id := Some "tenant-1"; x_user_id := Some "user-1" |}.

(** A model registered under the local provider, and the entry a later
    configuration file gives the same name under [models.openai]. *)
Definition stored_mixtral : Orchestrator.model_row :=
  {| Orchestrator.m_id := 0;
     Orchestrator.m_name := "mixtral-8x7b";
     Orchestrator.m_provider := "local";
     Orchestrator.m_model_type := "text-generation";
     Orchestrator.m_configuration :=
       {| Orchestrator.cfg_provider := "local";
          Orchestrator.cfg_performance_tier := Some "very_high";
          Orchestrator.cfg_cost_per_token := None;
          Orchestrator.cfg_max_tokens := Some 4096;
          Orchestrator.cfg_other := "model_path: /models/mixtral-8x7b" |};
     Orchestrator.m_performance_tier := Some "very_high";
     Orchestrator.m_cost_per_token := Some 0%Q;
     Orchestrator.m_max_tokens := Some 4096;
     Orchestrator.m_is_active := true;
     Orchestrator.m_updated_at := 0 |}.

Definition hosted_mixtral : Orchestrator.model_spec :=
  Orchestrator.openai_spec
    ("mixtral-8x7b",
     {| Orchestrator.cfg_provider := "openai";
        Orchestrator.cfg_performance_tier := Some "high";
        Orchestrator.cfg_cost_per_token := Some (1 # 100000)%Q;
        Orchestrator.cfg_max_tokens := Some 8192;
        Orchestrator.cfg_other := "endpoint: https://api.openai.com/v1" |}).

(** The same deployment after gpt-4 was deactivated. *)
Definition retire (n : string) (r : Orchestrator.model_row)
  : Orchestrator.model_row :=
  {| Orchestrator.m_id := Orchestrator.m_id r;
     Orchestrator.m_name := Orchestrator.m_name r;
     Orchestrator.m_provider := Orchestrator.m_provider r;
     Orchestrator.m_model_type := Orchestrator.m_model_type r;
     Orchestrator.m_configuration := Orchestrator.m_configuration r;
     Orchestrator.m_performance_tier := Orchestrator.m_performance_tier r;
     Orchestrator.m_cost_per_token := Orchestrator.m_cost_per_token r;
     Orchestrator.m_max_tokens := Orchestrator.m_max_tokens r;
     Orchestrator.m_is_active :=
       Orchestrator.m_is_active r && negb (Orchestrator.has_name n r);
     Orchestrator.m_updated_at := Orchestrator.m_updated_at r |}.

Definition without_gpt4 : app :=
  {| initialized := true;
     providers := providers deployment;
     ai_models := map (retire "gpt-4") registry;
     redis := assigned;
     uuidv4 := uuidv4 deployment |}.

(** The registered row of gpt-3.5-turbo. *)
Definition turbo_row : Orchestrator.model_row :=
  hd stored_mixtral (Orchestrator.lookup registry "gpt-3.5-turbo").

(** A prompt of 10001 characters. *)
Definition long_prompt : string :=
  string_of_list_ascii (repeat "a"%char (Z.to_nat 10001)).

End Scenario.

(* ================================================================== *)
(** ** Vocabulary of the statements below *)

Module Spec.

(** A detected GPU never reports negative memory. *)
Definition plausible (hw : Hardware.hardware_info) : Prop :=
  match Hardware.gpu hw with
  | Some g => (0 <= Hardware.memory g)%Q
  | None => True
  end.

(** A host with a GPU of [gb] GB. *)
Definition host_with_gpu (gb : Q) : Hardware.hardware_info :=
  {| Hardware.cpu_cores := Some 8;
     Hardware.memory_total := Some 32%Q;
     Hardware.gpu := Some {| Hardware.vendor := "NVIDIA";
                             Hardware.model := "GPU";
                             Hardware.memory := gb;
                             Hardware.cores := None |} |}.

(** [ai_models] holds at most one row per name, as [ON CONFLICT (name)]
    takes for granted. *)
Definition unique_names (table : list Orchestrator.model_row) : Prop :=
  NoDup (map Orchestrator.m_name table).

(** The text fragments a stream delivers: the non-empty [delta.content]s,
    in arrival order. *)
Definition fragments (items : list (option string)) : list string :=
  filter (fun t => negb (String.eqb t ""))
    (map (fun it => match it with Some t => t | None => "" end) items).

(** The sum of the per-fragment estimates. *)
Definition estimate_sum (texts : list string) : Z :=
  fold_right (fun t n => OpenAIProvider.estimateTokens t + n) 0 texts.

(** The chunk events for [texts], each carrying the estimate accumulated up
    to and including its fragment, counting from [sofar]. *)
Fixpoint chunk_events (jobId : string) (sofar : Z) (texts : list string)
  : list Routes.sse_event :=
  match texts with
  | [] => []
  | t :: rest =>
      let n := sofar + OpenAIProvider.estimateTokens t in
      Routes.Chunk jobId t n :: chunk_events jobId n rest
  end.

Definition is_chunk (e : Routes.sse_event) : bool :=
  match e with Routes.Chunk _ _ _ => true | _ => false end.

Definition is_terminal (e : Routes.sse_event) : bool :=
  match e with
  | Routes.Complete _ _ _ _ | Routes.ErrorEvent _ _ => true
  | _ => false
  end.

(** The text a chunk event carries. *)
Definition carried (e : Routes.sse_event) : option string :=
  match e with Routes.Chunk _ t _ => Some t | _ => None end.

(** The model and provider a request resolves to in a given application
    state, when both exist. *)
Definition resolves (a : Routes.app) (now : Z) (req : Routes.request)
    (modelInfo : Orchestrator.model_row) (p : Routes.provider_object) : Prop :=
  Routes.initialized a = true
  /\ (exists rest,
        Orchestrator.lookup_active (Routes.ai_models a)
          (Routes.selectModel a now (Routes.body_model req))
        = modelInfo :: rest)
  /\ Routes.getProvider a (Orchestrator.m_provider modelInfo) = Some p.

(** The options the handlers pass to the provider for a request. *)
Definition passed_options (a : Routes.app) (now : Z) (req : Routes.request)
  : OpenAIProvider.options :=
  Routes.provider_options
    (Routes.selectModel a now (Routes.body_model req))
    (Routes.options_of req).

(** No [startTime] is declared around the handlers. *)
Definition no_outer_startTime (s : Routes.state) : Prop :=
  Routes.resolve (Routes.frames s) "startTime" = None.

(** The decision rule of the quota guard as the specification words it, on
    the value of [planLimits[feature]]: unlimited at the sentinel, otherwise
    [currentUsage < limit]; no number is below a limit that is not there. *)
Definition quota_rule (limit : option Z) (usage : Z) : bool :=
  match limit with
  | Some l => (l =? -1) || (usage <? l)
  | None => false
  end.

(** The estimate of the specification for one fragment: one token per four
    characters, rounded up. *)
Definition quarter_tokens (t : string) : Z :=
  (Z.of_nat (String.length t) + 3) / 4.

Definition quarter_sum (texts : list string) : Z :=
  fold_right (fun t n => quarter_tokens t + n) 0 texts.

(** The running totals of that estimate over [texts], counting from
    [sofar]. *)
Fixpoint running_quarters (sofar : Z) (texts : list string) : list Z :=
  match texts with
  | [] => []
  | t :: rest =>
      (sofar + quarter_tokens t) :: running_quarters (sofar + quarter_tokens t) rest
  end.

(** The token count a chunk event carries. *)
Definition counted (e : Routes.sse_event) : option Z :=
  match e with Routes.Chunk _ _ n => Some n | _ => None end.

End Spec.

(* ================================================================== *)
(** ** utils/HardwareDetector.js: what the host can run *)

Module Capacity.

Inductive model_size : Type :=
| small
| medium
| large.

Definition size_rank (s : model_size) : Z :=
  match s with small => 0 | medium => 1 | large => 2 end.

Record optimal_config : Type := {
  canRunLocalModels : bool;
  maxModelSize : model_size;
  recommendedProvider : string;
  parallelJobs : Z;
  gpuAcceleration : bool
}.

Definition getTotalMemory (hw : Hardware.hardware_info) : Q :=
  match Hardware.memory_total hw with Some t => t | None => 0%Q end.

Definition getCPUCores (hw : Hardware.hardware_info) : Z :=
  match Hardware.cpu_cores hw with Some c => c | None => 1 end.

(** [x >= k]. *)
Definition at_least (x k : Q) : bool := Qle_bool k x.

(** [Math.min]. *)
Definition qmin (a b : Q) : Q := if Qle_bool a b then a else b.

Definition getOptimalModelConfiguration (hw : Hardware.hardware_info)
  : optimal_config :=
  let totalMemory := getTotalMemory hw in
  let gpuMemory := Hardware.getGPUMemory hw in
  let cpuCores := getCPUCores hw in
  {| canRunLocalModels := at_least totalMemory 8;
     maxModelSize :=
       if at_least gpuMemory 16 || at_least totalMemory 32 then large
       else if at_least gpuMemory 8 || at_least totalMemory 16 then medium
       else small;
     recommendedProvider :=
       if at_least totalMemory 8 then "local" else "openai";
     parallelJobs := Z.max 1 (cpuCores / 2);
     gpuAcceleration := Hardware.hasGPU hw && at_least gpuMemory 4 |}.

Definition getHardwareScore (hw : Hardware.hardware_info) : Q :=
  (qmin 30 (inject_Z (getCPUCores hw) * 3)
   + qmin 40 (getTotalMemory hw * 2)
   + (if Hardware.hasGPU hw
      then qmin 30 (Hardware.getGPUMemory hw * 2) else 0))%Q.

(** [modelRequirements]; a field the object lacks is [None]. *)
Record requirements : Type := {
  minMemory : option Q;
  minGPUMemory : option Q;
  requiresGPU : option bool;
  minCPUCores : option Z
}.

(** [x || 0] on a number. *)
Definition or_zero (x : option Q) : Q :=
  match x with Some v => v | None => 0%Q end.

(** [modelRequirements.minCPUCores || 1]. *)
Definition cores_required (r : requirements) : Z :=
  match minCPUCores r with
  | Some c => if c =? 0 then 1 else c
  | None => 1
  end.

(** [x < y]. *)
Definition below (x y : Q) : bool := negb (Qle_bool y x).

Definition meetsRequirements (hw : Hardware.hardware_info) (r : requirements)
  : bool :=
  let totalMemory := getTotalMemory hw in
  let gpuMemory := Hardware.getGPUMemory hw in
  let cpuCores := getCPUCores hw in
  let hasGPU := Hardware.hasGPU hw in
  if below totalMemory (or_zero (minMemory r)) then false
  else if match requiresGPU r with Some b => b | None => false end
          && negb hasGPU then false
  else if below 0 (or_zero (minGPUMemory r))
          && below gpuMemory (or_zero (minGPUMemory r)) then false
  else if cpuCores <? cores_required r then false
  else true.

(** One host is at least as capable as another. *)
Definition no_less (hw hw' : Hardware.hardware_info) : Prop :=
  (getTotalMemory hw <= getTotalMemory hw')%Q
  /\ (Hardware.getGPUMemory hw <= Hardware.getGPUMemory hw')%Q
  /\ getCPUCores hw <= getCPUCores hw'.

End Capacity.

(* ================================================================== *)
(** ** server.js and routes: housekeeping and job look-up *)

Module Housekeeping.

(** [INTERVAL '30 days'], in milliseconds. *)
Definition retention : Z := 30 * 24 * 60 * 60 * 1000.

(** The [WHERE] clause of [cleanupOldJobs]; a [NULL] completion time never
    compares. *)
Definition purged (now : Z) (j : Routes.job_row) : bool :=
  Routes.terminal (Routes.j_status j)
  && match Routes.j_completed_at j with
     | Some t => t <? now - retention
     | None => false
     end.

(** [cleanupOldJobs]: the table afterwards and [result.rowCount]. *)
Definition cleanupOldJobs (now : Z) (jobs : list Routes.job_row)
  : list Routes.job_row * Z :=
  (filter (fun j => negb (purged now j)) jobs,
   Z.of_nat (List.length (filter (purged now) jobs))).

(** [GET /jobs/:jobId]. *)
Inductive job_reply : Type :=
| JobData (j : Routes.job_row)
| JobNotFound.

Definition get_job (jobs : list Routes.job_row) (jobId : string) : job_reply :=
  match filter (fun j => String.eqb (Routes.j_id j) jobId) jobs with
  | j :: _ => JobData j
  | [] => JobNotFound
  end.

(** The hash [model_availability]: [hSet] and [hGet]. *)
Definition availability : Type := list (string * bool).

Fixpoint hDel (h : availability) (field : string) : availability :=
  match h with
  | [] => []
  | (k, v) :: h' =>
      if String.eqb k field then hDel h' field else (k, v) :: hDel h' field
  end.

Definition hSet (h : availability) (field : string) (v : bool)
  : availability :=
  (field, v) :: hDel h field.

Definition hGet (h : availability) (field : string) : option bool :=
  JS.own h field.

(** [updateModelAvailability] over the rows the query returned, with the
    [checkAvailability] of each registered provider: the hash afterwards,
    and whether the loop ran to its end. It does not when [this.providers]
    answers with an inherited member, which has no [checkAvailability]. *)
Fixpoint updateModelAvailability
    (probes : list (string * (string -> bool)))
    (rows : list Orchestrator.model_row) (h : availability)
  : availability * bool :=
  match rows with
  | [] => (h, true)
  | model :: rest =>
      match JS.get probes (Orchestrator.m_provider model) with
      | JS.Own checkAvailability =>
          updateModelAvailability probes rest
            (hSet h (Orchestrator.m_name model)
               (checkAvailability (Orchestrator.m_name model)))
      | JS.Inherited => (h, false)
      | JS.Undefined => updateModelAvailability probes rest h
      end
  end.

(** [SELECT * FROM ai_models WHERE is_active = true]. *)
Definition active_models (table : list Orchestrator.model_row)
  : list Orchestrator.model_row :=
  filter Orchestrator.m_is_active table.

(** The [available] field [GET /health/models] reports for a model. *)
Definition reported_available (h : availability) (name : string) : bool :=
  match hGet h name with
  | Some isAvailable => isAvailable
  | None => true
  end.

End Housekeeping.

(* ================================================================== *)
(** ** middleware/tenant.js: [tenantMiddleware]; routes/tenants.js: [/usage] *)

Module Tenancy.

(** A row of [tenants], as the middleware selects it. *)
Record tenant : Type := {
  t_id : string;
  t_name : string;
  t_domain : option string;
  t_settings : string;
  t_subscription_plan : option string;
  t_subscription_status : option string
}.

(** The tenant entries of Redis: the value and when it expires. *)
Record cached : Type := {
  c_value : tenant;
  c_expires_at : option Z
}.

Definition cache : Type := list (string * cached).

Definition cache_key (tenantId : string) : string := "tenant:" ++ tenantId.

(** [redis.getCachedTenant(tenantId)] at time [now]. *)
Definition getCachedTenant (c : cache) (tenantId : string) (now : Z)
  : option tenant :=
  match JS.own c (cache_key tenantId) with
  | Some e =>
      match c_expires_at e with
      | Some t => if t <=? now then None else Some (c_value e)
      | None => Some (c_value e)
      end
  | None => None
  end.

(** [redis.cacheTenant(tenantId, tenant, expiration)], in seconds. *)
Definition cacheTenant (c : cache) (tenantId : string) (t : tenant)
    (expiration now : Z) : cache :=
  (cache_key tenantId,
   {| c_value := t;
      c_expires_at := if expiration =? 0 then None
                      else Some (now + expiration * 1000) |})
  :: filter (fun e => negb (String.eqb (fst e) (cache_key tenantId))) c.

(** [redis.invalidateTenantCache(tenantId)]. *)
Definition invalidateTenantCache (c : cache) (tenantId : string) : cache :=
  filter (fun e => negb (String.eqb (fst e) (cache_key tenantId))) c.

(** [SELECT ... FROM tenants WHERE id = $1]. *)
Definition select_tenant (table : list tenant) (tenantId : string)
  : list tenant :=
  filter (fun t => String.eqb (t_id t) tenantId) table.

Inductive reply : Type :=
| BadRequest400
| NotFound404
| AccessDenied403
| Next (t : tenant).

(** What one run of the middleware gives: the response or [next()] with
    [req.tenant], the cache afterwards, and whether [tenants] was read. *)
Record result : Type := {
  answer : reply;
  cache_after : cache;
  queried : bool
}.

(** The subscription check on the tenant found. *)
Definition subscription_check (t : tenant) : reply :=
  match t_subscription_status t with
  | Some status => if String.eqb status "active" then Next t else AccessDenied403
  | None => AccessDenied403
  end.

Definition tenantMiddleware (table : list tenant) (c : cache) (now : Z)
    (tenantId : option string) : result :=
  match Routes.or_null tenantId with
  | None => {| answer := BadRequest400; cache_after := c; queried := false |}
  | Some id =>
      match getCachedTenant c id now with
      | Some t => {| answer := subscription_check t; cache_after := c; queried := false |}
      | None =>
          match select_tenant table id with
          | [] => {| answer := NotFound404; cache_after := c; queried := true |}
          | t :: _ =>
              {| answer := subscription_check t;
                 cache_after := cacheTenant c id t 3600 now;
                 queried := true |}
          end
      end
  end.

(** One entry of the [usage] object of [GET /usage], without its
    [percentage], a rounded floating-point ratio. An absent [limit] or
    [remaining] is [None]. *)
Record usage_entry : Type := {
  current : Z;
  limit : option Z;
  unlimited : bool;
  remaining : option Z
}.

Definition usage_of (f : Tenant.feature) (subscriptionPlan : option string)
    (db : Tenant.usage_rows) : usage_entry :=
  let limit := Tenant.limit_of (Tenant.planLimits subscriptionPlan) f in
  let current := Tenant.currentUsage f db in
  let unlimited := match limit with Some l => l =? -1 | None => false end in
  {| current := current;
     limit := limit;
     unlimited := unlimited;
     remaining :=
       match limit with
       | Some l =>
           if negb unlimited && (0 <? l) then Some (Z.max 0 (l - current))
           else if unlimited then Some (-1) else None
       | None => None
       end |}.

End Tenancy.

(* ================================================================== *)
(** ** Further deployments and vocabulary *)

Module Cases.

Import OpenAIProvider Routes.

(** A backend that answers every blocking call after 120 ms. *)
Definition answering : client :=
  {| create := fun _ =>
       (120, Ok {| content := "Paris"; c_prompt_tokens := 9;
                   c_completion_tokens := 3; c_total_tokens := 12 |});
     create_stream := create_stream Scenario.backend |}.

Definition serving : app :=
  {| initialized := true;
     providers := [("openai", openai answering)];
     ai_models := Scenario.registry;
     redis := Scenario.assigned;
     uuidv4 := uuidv4 Scenario.deployment |}.

(** The orchestrator before [initialize] has finished. *)
Definition starting : app :=
  {| initialized := false;
     providers := [];
     ai_models := [];
     redis := [];
     uuidv4 := uuidv4 Scenario.deployment |}.

(** A request whose [options] name a model of their own. *)
Definition ask_with (prompt : string) (model : option string) (o : options)
  : request :=
  {| body_prompt := prompt; body_model := model; body_options := Some o;
     x_tenant_id := Some "tenant-1"; x_user_id := Some "user-1" |}.

(** The deployment on a host with a 6 GB GPU: the same registry, and the
    assignment [autoAssignModels] stores for that host. *)
Definition gpu_host : Hardware.hardware_info := Spec.host_with_gpu 6.

Definition accelerated : app :=
  {| initialized := true;
     providers := providers Scenario.deployment;
     ai_models := Scenario.registry;
     redis :=
       match Orchestrator.autoAssignModels Orchestrator.getDefaultModelConfig
               gpu_host Scenario.boot_time [] with
       | Some r => r
       | None => []
       end;
     uuidv4 := uuidv4 Scenario.deployment |}.

(** A backend whose stream carries fragments of 2 and 13 characters, an
    empty one and an item without content. *)
Definition chatty : client :=
  {| create := create Scenario.backend;
     create_stream := fun _ =>
       (40, {| items := [Some "Hi"; Some ""; None; Some "Hello, world!"];
               failure := None |}) |}.

Definition chatting : app :=
  {| initialized := true;
     providers := [("openai", openai chatty)];
     ai_models := Scenario.registry;
     redis := Scenario.assigned;
     uuidv4 := uuidv4 Scenario.deployment |}.

(** The values [fullResponse] takes while [texts] are appended to [sofar]. *)
Fixpoint running (sofar : string) (texts : list string) : list string :=
  match texts with
  | [] => []
  | t :: rest => (sofar ++ t) :: running (sofar ++ t) rest
  end.

Definition acme : Tenancy.tenant :=
  {| Tenancy.t_id := "tenant-1";
     Tenancy.t_name := "Acme";
     Tenancy.t_domain := Some "acme.example";
     Tenancy.t_settings := "{}";
     Tenancy.t_subscription_plan := Some "basic";
     Tenancy.t_subscription_status := Some "active" |}.

(** The same tenant once its subscription was suspended. *)
Definition acme_suspended : Tenancy.tenant :=
  {| Tenancy.t_id := "tenant-1";
     Tenancy.t_name := "Acme";
     Tenancy.t_domain := Some "acme.example";
     Tenancy.t_settings := "{}";
     Tenancy.t_subscription_plan := Some "basic";
     Tenancy.t_subscription_status := Some "suspended" |}.

End Cases.

(* ================================================================== *)
(** ** utils/HardwareDetector.js: [detectHardware] *)

Module Detection.

(** One element of [graphics.controllers]; [vram] is in MB and [None] when
    the controller reports none. *)
Record controller : Type := {
  ctl_vendor : string;
  ctl_model : string;
  vram : option Q;
  ctl_cores : option Z
}.

(** What [systeminformation] answers: [cpu.cores], [mem.total] in bytes, and
    [graphics.controllers], [None] when [si.graphics()] fails or answers
    without the list. *)
Record probe : Type := {
  si_cpu_cores : Z;
  si_mem_total : Q;
  si_controllers : option (list controller)
}.

(** [gpu.cores || null]. *)
Definition cores_or_null (c : option Z) : option Z :=
  match c with
  | Some n => if n =? 0 then None else Some n
  | None => None
  end.

Definition detectHardware (p : probe) : Hardware.hardware_info :=
  {| Hardware.cpu_cores := Some (si_cpu_cores p);
     Hardware.memory_total :=
       Some (inject_Z (Hardware.round
                         (si_mem_total p / (1024 * 1024 * 1024))%Q));
     Hardware.gpu :=
       match si_controllers p with
       | Some (gpu :: _) =>
           Some {| Hardware.vendor := ctl_vendor gpu;
                   Hardware.model := ctl_model gpu;
                   Hardware.memory := Hardware.memory_of_vram (vram gpu);
                   Hardware.cores := cores_or_null (ctl_cores gpu) |}
       | _ => None
       end |}.

End Detection.

(* ================================================================== *)
(** ** api-gateway utils/database.js: the schema [initializeSchema] creates *)

Module Database.

(** The key constraints of a [CREATE TABLE]: the primary key and the
    [UNIQUE] lists. *)
Record constraints : Type := {
  primary_key : list string;
  unique : list (list string)
}.

(** [ai_models]: [id UUID PRIMARY KEY], and no [UNIQUE]. *)
Definition ai_models : constraints :=
  {| primary_key := ["id"]; unique := [] |}.

(** [team_members], the one table of the schema with a [UNIQUE] list. *)
Definition team_members : constraints :=
  {| primary_key := ["id"]; unique := [["team_id"; "user_id"]] |}.

Fixpoint same_columns (a b : list string) : bool :=
  match a, b with
  | [], [] => true
  | x :: a', y :: b' => String.eqb x y && same_columns a' b'
  | _, _ => false
  end.

(** Whether [ON CONFLICT (target)] finds its arbiter: a unique index on
    exactly the columns named. *)
Definition infers_arbiter (c : constraints) (target : list string) : bool :=
  same_columns (primary_key c) target
  || existsb (fun u => same_columns u target) (unique c).

(** The errors PostgreSQL answers the statements below with. *)
Inductive sqlstate : Type :=
| string_data_right_truncation   (* 22001 *)
| numeric_value_out_of_range     (* 22003 *)
| invalid_column_reference.      (* 42P10 *)

Fixpoint blank (s : string) : bool :=
  match s with
  | EmptyString => true
  | String c s' => Ascii.eqb c " "%char && blank s'
  end.

(** Storing into [VARCHAR(n)]: a longer value is refused unless the excess
    is spaces, which are cut. *)
Definition varchar (n : nat) (s : string) : sqlstate + string :=
  if (String.length s <=? n)%nat then inr s
  else if blank (substring n (String.length s - n) s)
       then inr (substring 0 n s)
       else inl string_data_right_truncation.

(** Storing into [DECIMAL(precision, scale)]: rounded to [scale] decimals,
    halves away from zero, and refused when the rounded value needs more than
    [precision] digits. *)
Definition decimal (precision scale : Z) (q : Q) : sqlstate + Q :=
  let unit := 10 ^ scale in
  let n := Qfloor (Qabs q * inject_Z unit + (1 # 2))%Q in
  if 10 ^ precision <=? n then inl numeric_value_out_of_range
  else inr (Qred ((if Qle_bool 0 q then inject_Z n else - inject_Z n)
                  / inject_Z unit))%Q.

(** A parameter bound to an [INTEGER] column. *)
Definition integer (z : Z) : sqlstate + Z :=
  if (- 2 ^ 31 <=? z) && (z <? 2 ^ 31) then inr z
  else inl numeric_value_out_of_range.

End Database.

(* ================================================================== *)
(** ** server.js: [registerModels] against the database *)

Module Registration.

Import Orchestrator.

(** The values of a model as the columns of [ai_models] take them:
    [name VARCHAR(255)], [provider VARCHAR(100)], [model_type VARCHAR(100)],
    [performance_tier VARCHAR(50)], [cost_per_token DECIMAL(10, 8)]; a
    [null] stays [NULL]. *)
Definition columns (m : model_spec) (max_tokens : option Z)
  : Database.sqlstate + model_spec :=
  match Database.varchar 255 (name m) with
  | inl e => inl e
  | inr name =>
  match Database.varchar 100 (provider m) with
  | inl e => inl e
  | inr provider =>
  match Database.varchar 100 (model_type m) with
  | inl e => inl e
  | inr model_type =>
  match match performance_tier m with
        | Some t =>
            match Database.varchar 50 t with
            | inl e => inl e
            | inr t' => inr (Some t')
            end
        | None => inr None
        end with
  | inl e => inl e
  | inr performance_tier =>
  match match cost_per_token m with
        | Some c =>
            match Database.decimal 10 8 c with
            | inl e => inl e
            | inr c' => inr (Some c')
            end
        | None => inr None
        end with
  | inl e => inl e
  | inr cost_per_token =>
      inr {| name := name;
             provider := provider;
             model_type := model_type;
             configuration := configuration m;
             performance_tier := performance_tier;
             cost_per_token := cost_per_token;
             max_tokens := max_tokens |}
  end end end end end.

(** One [database.query] of the loop: [INSERT INTO ai_models ... ON CONFLICT
    (name) DO UPDATE SET ...] on a table with the constraints [c]. The
    parameter of the [INTEGER] column is read first; then the conflict target
    needs its unique index; then the row is built column by column and
    [Orchestrator.upsert] takes effect. A statement that fails changes
    nothing. *)
Definition query (c : Database.constraints) (now : Z)
    (table : list model_row) (m : model_spec)
  : Database.sqlstate + list model_row :=
  match match max_tokens m with
        | Some z =>
            match Database.integer z with
            | inl e => inl e
            | inr z' => inr (Some z')
            end
        | None => inr None
        end with
  | inl e => inl e
  | inr max_tokens =>
      if Database.infers_arbiter c ["name"] then
        match columns m max_tokens with
        | inl e => inl e
        | inr stored => inr (upsert now table stored)
        end
      else inl Database.invalid_column_reference
  end.

(** The [for (const model of models)] loop: the first statement that fails
    ends it, and the rows written before stay. *)
Fixpoint queries (c : Database.constraints) (now : Z)
    (table : list model_row) (models : list model_spec)
  : option Database.sqlstate * list model_row :=
  match models with
  | [] => (None, table)
  | m :: rest =>
      match query c now table m with
      | inl e => (Some e, table)
      | inr table' => queries c now table' rest
      end
  end.

(** [registerModels(modelConfig)]: the error it rejects with, if any, and
    [ai_models] afterwards. *)
Definition registerModels (c : Database.constraints) (now : Z)
    (table : list model_row) (cfg : modelConfig)
  : option Database.sqlstate * list model_row :=
  queries c now table (collect cfg).

End Registration.

(* ================================================================== *)
(** * Properties *)

(** ** Quota guard *)

Lemma planLimits_known :
  Tenant.planLimits (Some "free") = Tenant.LimitsRow Tenant.free
  /\ Tenant.planLimits (Some "basic") = Tenant.LimitsRow Tenant.basic
  /\ Tenant.planLimits (Some "pro") = Tenant.LimitsRow Tenant.pro
  /\ Tenant.planLimits (Some "enterprise") = Tenant.LimitsRow Tenant.enterprise.
Proof. repeat split; reflexivity. Qed.

(** The guard, once the plan's limit is a number. *)
Lemma guard_with_limit (f : Tenant.feature) (plan : option string)
    (db : Tenant.usage_rows) (l : Z) :
  Tenant.limit_of (Tenant.planLimits plan) f = Some l ->
  Tenant.allowed (Tenant.checkSubscriptionLimits f plan db)
  = (l =? -1) || (Tenant.currentUsage f db <? l).
Proof.
  intros Hl. unfold Tenant.checkSubscriptionLimits. rewrite Hl.
  destruct (Z.eqb_spec l (-1)) as [-> | Hne].
  - reflexivity.
  - assert (Hshape :
      forall (A : Type) (x y : A),
        match l with
        | Z.neg 1 => x
        | _ => y
        end = y).
    { intros A x y. destruct l as [| p | p]; try reflexivity.
      destruct p; try reflexivity. contradiction. }
    rewrite Hshape. unfold Tenant.reached.
    rewrite Z.leb_antisym.
    destruct (Tenant.currentUsage f db <? l); reflexivity.
Qed.

(** Every plan name gives every feature a limit, the twelve names that
    [Object.prototype] answers to apart. *)
Lemma limit_defined_unless_inherited (plan : option string)
    (f : Tenant.feature) :
  existsb (String.eqb (JS.key plan)) JS.object_prototype_keys = false ->
  exists l, Tenant.limit_of (Tenant.planLimits plan) f = Some l.
Proof.
  intros H. unfold Tenant.planLimits, JS.get. rewrite H.
  destruct (JS.own Tenant.limits (JS.key plan)); eexists; reflexivity.
Qed.

(** A plan name that [Object.prototype] answers to gives no feature a
    limit, and the guard lets every request through. *)
Lemma inherited_plan_has_no_limit (plan : option string)
    (f : Tenant.feature) (db : Tenant.usage_rows) :
  In (JS.key plan) JS.object_prototype_keys ->
  Tenant.limit_of (Tenant.planLimits plan) f = None
  /\ Tenant.checkSubscriptionLimits f plan db
     = Tenant.Next
         (Some {| Tenant.ui_feature := f;
                  Tenant.ui_current_usage := Tenant.currentUsage f db;
                  Tenant.ui_limit := None;
                  Tenant.ui_remaining := None |}).
Proof.
  intros Hin.
  assert (Hp : Tenant.planLimits plan = Tenant.PrototypeMember).
  { unfold Tenant.planLimits. simpl in Hin.
    repeat (destruct Hin as [<- | Hin]; [reflexivity |]). destruct Hin. }
  unfold Tenant.checkSubscriptionLimits. rewrite Hp. split; reflexivity.
Qed.

(** C2. Whenever the tenant's plan gives the metered feature a limit, the
    guard decides as specified: it lets the request through without looking
    at usage if that limit is the sentinel -1, and otherwise exactly when
    currentUsage < limit; usage 99 passes on the free plan (100 AI requests
    per month), usage 100 is answered with current_usage, limit and the
    upgrade path, and enterprise passes every usage.  But a tenant whose
    subscription_plan is one of the names [Object.prototype] answers to has
    no limit at all, neither the sentinel nor a number the usage is below, and
    the guard lets every request through: with subscription_plan "toString"
    and 1000 team members the request passes, which the rule refuses and
    which the free plan, meant for unknown plan names, refuses from 3 on. *)
Theorem quota_guard_admits_inherited_plan_names :
  (forall (f : Tenant.feature) (plan : option string)
          (db : Tenant.usage_rows) (l : Z),
      Tenant.limit_of (Tenant.planLimits plan) f = Some l ->
      (l = -1 ->
       Tenant.checkSubscriptionLimits f plan db = Tenant.Next None)
      /\ (l <> -1 ->
          (Tenant.allowed (Tenant.checkSubscriptionLimits f plan db) = true
           <-> Tenant.currentUsage f db < l)))
  /\ (forall db,
        Tenant.ai_jobs_this_month db = 99 ->
        Tenant.allowed
          (Tenant.checkSubscriptionLimits Tenant.ai_requests_per_month
             (Some "free") db) = true)
  /\ (forall db,
        Tenant.ai_jobs_this_month db = 100 ->
        exists body,
          Tenant.checkSubscriptionLimits Tenant.ai_requests_per_month
            (Some "free") db = Tenant.Forbidden403 body
          /\ Tenant.le_current_usage body = 100
          /\ Tenant.le_limit body = 100
          /\ Tenant.le_upgrade_url body = "/api/payments/upgrade")
  /\ (forall f db,
        Tenant.checkSubscriptionLimits f (Some "enterprise") db
        = Tenant.Next None)
  /\ (forall (f : Tenant.feature) (plan : option string)
             (db : Tenant.usage_rows),
        Tenant.allowed (Tenant.checkSubscriptionLimits f plan db)
        = Spec.quota_rule (Tenant.limit_of (Tenant.planLimits plan) f)
            (Tenant.currentUsage f db)
        \/ In (JS.key plan) JS.object_prototype_keys)
  /\ (forall (f : Tenant.feature) (plan : option string)
             (db : Tenant.usage_rows),
        In (JS.key plan) JS.object_prototype_keys ->
        Tenant.limit_of (Tenant.planLimits plan) f = None
        /\ Tenant.allowed (Tenant.checkSubscriptionLimits f plan db) = true
        /\ Spec.quota_rule (Tenant.limit_of (Tenant.planLimits plan) f)
             (Tenant.currentUsage f db) = false)
  /\ (let db := {| Tenant.ai_jobs_this_month := 0;
                   Tenant.team_member_count := 1000;
                   Tenant.active_webhooks := 0;
                   Tenant.files_total_size := 0 |} in
      Tenant.checkSubscriptionLimits Tenant.team_members (Some "toString") db
      = Tenant.Next
          (Some {| Tenant.ui_feature := Tenant.team_members;
                   Tenant.ui_current_usage := 1000;
                   Tenant.ui_limit := None;
                   Tenant.ui_remaining := None |})
      /\ Spec.quota_rule
           (Tenant.limit_of (Tenant.planLimits (Some "toString"))
              Tenant.team_members) 1000 = false
      /\ Tenant.allowed
           (Tenant.checkSubscriptionLimits Tenant.team_members (Some "free") db)
         = false
      /\ Tenant.allowed
           (Tenant.checkSubscriptionLimits Tenant.team_members
              (Some "premium") db) = false).
Proof.
  split; [| split; [| split; [| split; [| split; [| split]]]]].
  - intros f plan db l Hl. split.
    + intros ->. unfold Tenant.checkSubscriptionLimits. rewrite Hl. reflexivity.
    + intros Hne. rewrite (guard_with_limit f plan db l Hl).
      destruct (Z.eqb_spec l (-1)) as [E | _]; [contradiction |].
      simpl. apply Z.ltb_lt.
  - intros db H.
    rewrite (guard_with_limit Tenant.ai_requests_per_month (Some "free") db 100 eq_refl).
    simpl. rewrite H. reflexivity.
  - intros db H. unfold Tenant.checkSubscriptionLimits. simpl.
    rewrite H. simpl. eexists. split; [reflexivity |]. simpl. auto.
  - intros f db. destruct f; reflexivity.
  - intros f plan db.
    destruct (existsb (String.eqb (JS.key plan)) JS.object_prototype_keys)
      eqn:E.
    + right. apply existsb_exists in E. destruct E as [k [Hin Hk]].
      apply String.eqb_eq in Hk. rewrite Hk. exact Hin.
    + left. destruct (limit_defined_unless_inherited plan f E) as [l Hl].
      rewrite (guard_with_limit f plan db l Hl), Hl. reflexivity.
  - intros f plan db Hin.
    destruct (inherited_plan_has_no_limit plan f db Hin) as [Hl Hc].
    rewrite Hc, Hl. repeat split.
  - repeat split.
Qed.

(** A plan name that [limits] does not hold and [Object.prototype] does not
    either is served the free row. *)
Lemma unknown_plan_gets_free_limits (plan : option string) :
  JS.own Tenant.limits (JS.key plan) = None ->
  existsb (String.eqb (JS.key plan)) JS.object_prototype_keys = false ->
  Tenant.planLimits plan = Tenant.LimitsRow Tenant.free
  /\ forall f db,
       Tenant.checkSubscriptionLimits f plan db
       = match Tenant.checkSubscriptionLimits f (Some "free") db with
         | Tenant.Forbidden403 body =>
             Tenant.Forbidden403
               {| Tenant.le_error := Tenant.le_error body;
                  Tenant.le_message :=
                    Tenant.exceeded_message plan (Tenant.le_limit body) f;
                  Tenant.le_current_usage := Tenant.le_current_usage body;
                  Tenant.le_limit := Tenant.le_limit body;
                  Tenant.le_upgrade_url := Tenant.le_upgrade_url body |}
         | o => o
         end.
Proof.
  intros Hown Hproto.
  assert (Hp : Tenant.planLimits plan = Tenant.LimitsRow Tenant.free).
  { unfold Tenant.planLimits, JS.get. rewrite Hown, Hproto. reflexivity. }
  split; [exact Hp |].
  intros f db. unfold Tenant.checkSubscriptionLimits.
  rewrite Hp. destruct planLimits_known as [-> _].
  generalize (Tenant.currentUsage f db). intros u.
  destruct f; cbn -[Z.sub Z.leb Tenant.exceeded_message];
    match goal with
    | |- context [?l <=? u] => destruct (l <=? u)
    end; reflexivity.
Qed.

(** C10. A tenant whose subscription_plan is "constructor", a name outside
    free, basic, pro and enterprise, is not held to the free limits: with
    5000 AI requests counted this month the guard calls next() with an
    undefined limit, where any plan served the free row is refused at 100. *)
Theorem inherited_plan_name_escapes_free_limits :
  let db := {| Tenant.ai_jobs_this_month := 5000;
               Tenant.team_member_count := 0;
               Tenant.active_webhooks := 0;
               Tenant.files_total_size := 0 |} in
  Tenant.planLimits (Some "constructor") = Tenant.PrototypeMember
  /\ Tenant.checkSubscriptionLimits Tenant.ai_requests_per_month
       (Some "constructor") db
     = Tenant.Next
         (Some {| Tenant.ui_feature := Tenant.ai_requests_per_month;
                  Tenant.ui_current_usage := 5000;
                  Tenant.ui_limit := None;
                  Tenant.ui_remaining := None |})
  /\ Tenant.allowed
       (Tenant.checkSubscriptionLimits Tenant.ai_requests_per_month
          (Some "premium") db) = false
  /\ Tenant.allowed
       (Tenant.checkSubscriptionLimits Tenant.ai_requests_per_month
          None db) = false.
Proof. repeat split. Qed.

(** ** Hosted-provider cost *)

Lemma pricing_rates_truthy (model : string) (rate : float) :
  JS.own OpenAIProvider.pricing model = Some rate ->
  OpenAIProvider.truthy rate = true.
Proof.
  unfold OpenAIProvider.pricing. cbn [JS.own].
  repeat (destruct (String.eqb _ model); [intros [= <-]; reflexivity |]).
  discriminate.
Qed.

(** C9. The cost of a hosted call is the token count times the rate the
    pricing table holds for the model, computed in binary64; for
    gpt-3.5-turbo, rate 0.000002, and 500 tokens it is 0.001, within 1e-15
    (the product is in fact the double nearest to 0.001). *)
Theorem hosted_cost_is_tokens_times_rate :
  (forall (model : string) (rate tokens : float),
      JS.own OpenAIProvider.pricing model = Some rate ->
      OpenAIProvider.calculateCost model tokens = PrimFloat.mul tokens rate)
  /\ JS.own OpenAIProvider.pricing "gpt-3.5-turbo" = Some 0.000002%float
  /\ PrimFloat.leb
       (PrimFloat.abs
          (PrimFloat.sub
             (OpenAIProvider.calculateCost "gpt-3.5-turbo"
                (OpenAIProvider.number 500))
             0.001%float))
       1e-15%float = true
  /\ OpenAIProvider.calculateCost "gpt-3.5-turbo" (OpenAIProvider.number 500)
     = 0.001%float.
Proof.
  split; [| repeat split].
  intros model rate tokens Hown.
  unfold OpenAIProvider.calculateCost, OpenAIProvider.costPerToken, JS.get.
  rewrite Hown, (pricing_rates_truthy model rate Hown). reflexivity.
Qed.

Lemma hosted_cost_is_tokens_times_rate_witness :
  JS.own OpenAIProvider.pricing "gpt-4" = Some 0.00003%float
  /\ OpenAIProvider.calculateCost "gpt-4" (OpenAIProvider.number 1000)
     = PrimFloat.mul (OpenAIProvider.number 1000) 0.00003%float.
Proof.
  split; [reflexivity |].
  apply (proj1 hosted_cost_is_tokens_times_rate "gpt-4" 0.00003%float).
  reflexivity.
Defined.

(** A model the table does not list is charged the gpt-3.5-turbo rate. *)
Lemma unlisted_model_cost (model : string) (tokens : float) :
  JS.get OpenAIProvider.pricing model = JS.Undefined ->
  OpenAIProvider.calculateCost model tokens
  = PrimFloat.mul tokens 0.000002%float.
Proof.
  intros H. unfold OpenAIProvider.calculateCost, OpenAIProvider.costPerToken.
  rewrite H. reflexivity.
Qed.

(** ** Hardware classification *)

Lemma memory_of_vram_nonneg (vram : option Q) :
  match vram with Some v => (0 <= v)%Q | None => True end ->
  (0 <= Hardware.memory_of_vram vram)%Q.
Proof.
  unfold Hardware.memory_of_vram.
  destruct vram as [v |]; [| intros _; apply Qle_refl].
  intros Hv. destruct (Qeq_bool v 0); [apply Qle_refl |].
  unfold Hardware.round.
  assert (H : (0 <= Qfloor (v / 1024 + (1 # 2)))%Z).
  { change 0%Z with (Qfloor 0). apply Qfloor_resp_le.
    assert (0 <= v / 1024)%Q.
    { apply Qle_shift_div_l; [reflexivity |]. rewrite Qmult_0_l. exact Hv. }
    lra. }
  change 0%Q with (inject_Z 0). rewrite <- Zle_Qle. exact H.
Qed.

(** C5. The category the assignment uses is determined by what
    [hasGPU()] and [getGPUMemory()] report: no GPU or zero memory gives
    cpu_only; memory in (0, 4] gives gpu_4gb, so exactly 4 GB is small; in
    (4, 8] gives gpu_8gb, so exactly 8 GB is medium; above 8 gives
    gpu_16gb. *)
Theorem hardware_classification (hw : Hardware.hardware_info) :
  Spec.plausible hw ->
  (Hardware.hasGPU hw = false \/ (Hardware.getGPUMemory hw == 0)%Q ->
   Orchestrator.categorize hw = Orchestrator.cat_cpu_only)
  /\ (Hardware.hasGPU hw = true ->
      (0 < Hardware.getGPUMemory hw <= 4)%Q ->
      Orchestrator.categorize hw = Orchestrator.cat_gpu_4gb)
  /\ (Hardware.hasGPU hw = true ->
      (4 < Hardware.getGPUMemory hw <= 8)%Q ->
      Orchestrator.categorize hw = Orchestrator.cat_gpu_8gb)
  /\ (Hardware.hasGPU hw = true ->
      (8 < Hardware.getGPUMemory hw)%Q ->
      Orchestrator.categorize hw = Orchestrator.cat_gpu_16gb)
  /\ (forall hw',
        Spec.plausible hw' ->
        Hardware.hasGPU hw' = Hardware.hasGPU hw ->
        (Hardware.getGPUMemory hw' == Hardware.getGPUMemory hw)%Q ->
        Orchestrator.categorize hw' = Orchestrator.categorize hw).
Proof.
  assert (shape : forall h,
    Spec.plausible h ->
    Orchestrator.categorize h
    = if negb (Hardware.hasGPU h) then Orchestrator.cat_cpu_only
      else if Qle_bool (Hardware.getGPUMemory h) 4 then Orchestrator.cat_gpu_4gb
      else if Qle_bool (Hardware.getGPUMemory h) 8 then Orchestrator.cat_gpu_8gb
      else Orchestrator.cat_gpu_16gb).
  { intros h. unfold Spec.plausible, Orchestrator.categorize,
      Hardware.getGPUMemory, Hardware.hasGPU.
    destruct (Hardware.gpu h) as [g |]; [| reflexivity].
    intros Hpos.
    destruct (Qeq_bool (Hardware.memory g) 0) eqn:E0.
    - apply Qeq_bool_iff in E0.
      assert (L : Qle_bool (Hardware.memory g) 0 = true)
        by (apply Qle_bool_iff; lra).
      rewrite L. reflexivity.
    - assert (L : Qle_bool (Hardware.memory g) 0 = false).
      { destruct (Qle_bool (Hardware.memory g) 0) eqn:L; [| reflexivity].
        apply Qle_bool_iff in L.
        assert (E : (Hardware.memory g == 0)%Q) by lra.
        apply Qeq_bool_iff in E. congruence. }
      rewrite L. reflexivity. }
  assert (stable : forall x y k, (x == y)%Q -> Qle_bool x k = Qle_bool y k).
  { intros x y k E.
    destruct (Qle_bool x k) eqn:X, (Qle_bool y k) eqn:Y; try reflexivity.
    - apply Qle_bool_iff in X.
      assert (Y' : Qle_bool y k = true) by (apply Qle_bool_iff; lra).
      congruence.
    - apply Qle_bool_iff in Y.
      assert (X' : Qle_bool x k = true) by (apply Qle_bool_iff; lra).
      congruence. }
  intros Hp. rewrite (shape hw Hp).
  assert (zero_without : Hardware.hasGPU hw = true ->
                         ~ (Hardware.getGPUMemory hw == 0)%Q).
  { unfold Hardware.getGPUMemory, Hardware.hasGPU.
    destruct (Hardware.gpu hw) as [g |]; [| discriminate].
    destruct (Qle_bool (Hardware.memory g) 0) eqn:L; [discriminate |].
    intros _ E.
    assert (L' : Qle_bool (Hardware.memory g) 0 = true)
      by (apply Qle_bool_iff; simpl in E; lra).
    congruence. }
  repeat split.
  - intros [H | H].
    + rewrite H. reflexivity.
    + destruct (Hardware.hasGPU hw) eqn:G; [| reflexivity].
      exfalso. exact (zero_without eq_refl H).
  - intros G [_ H4]. rewrite G. simpl.
    assert (L : Qle_bool (Hardware.getGPUMemory hw) 4 = true)
      by (apply Qle_bool_iff; exact H4).
    rewrite L. reflexivity.
  - intros G [H4 H8]. rewrite G. simpl.
    assert (L4 : Qle_bool (Hardware.getGPUMemory hw) 4 = false).
    { destruct (Qle_bool (Hardware.getGPUMemory hw) 4) eqn:L; [| reflexivity].
      apply Qle_bool_iff in L. lra. }
    assert (L8 : Qle_bool (Hardware.getGPUMemory hw) 8 = true)
      by (apply Qle_bool_iff; exact H8).
    rewrite L4, L8. reflexivity.
  - intros G H8. rewrite G. simpl.
    assert (L4 : Qle_bool (Hardware.getGPUMemory hw) 4 = false).
    { destruct (Qle_bool (Hardware.getGPUMemory hw) 4) eqn:L; [| reflexivity].
      apply Qle_bool_iff in L. lra. }
    assert (L8 : Qle_bool (Hardware.getGPUMemory hw) 8 = false).
    { destruct (Qle_bool (Hardware.getGPUMemory hw) 8) eqn:L; [| reflexivity].
      apply Qle_bool_iff in L. lra. }
    rewrite L4, L8. reflexivity.
  - intros hw' Hp' G M. rewrite (shape hw' Hp'), G.
    rewrite (stable _ _ 4%Q M), (stable _ _ 8%Q M). reflexivity.
Qed.

Lemma hardware_classification_witness :
  Spec.plausible (Spec.host_with_gpu 4)
  /\ Hardware.hasGPU (Spec.host_with_gpu 4) = true
  /\ Orchestrator.categorize (Spec.host_with_gpu 4)
     = Orchestrator.cat_gpu_4gb.
Proof.
  assert (Hp : Spec.plausible (Spec.host_with_gpu 4))
    by (vm_compute; discriminate).
  split; [exact Hp | split; [reflexivity |]].
  apply (proj1 (proj2 (hardware_classification (Spec.host_with_gpu 4) Hp))).
  - reflexivity.
  - split; vm_compute; [reflexivity | discriminate].
Defined.

(** The sample points of the specification. *)
Lemma categorize_sample_points :
  Orchestrator.categorize Scenario.cpu_host = Orchestrator.cat_cpu_only
  /\ Orchestrator.categorize (Spec.host_with_gpu 0) = Orchestrator.cat_cpu_only
  /\ Orchestrator.categorize (Spec.host_with_gpu 4) = Orchestrator.cat_gpu_4gb
  /\ Orchestrator.categorize (Spec.host_with_gpu 8) = Orchestrator.cat_gpu_8gb
  /\ Orchestrator.categorize (Spec.host_with_gpu (801 # 100))
     = Orchestrator.cat_gpu_16gb
  /\ Orchestrator.categorize (Spec.host_with_gpu 16) = Orchestrator.cat_gpu_16gb.
Proof. repeat split. Qed.

(** ** Model registry *)

Section Registry.

Import Orchestrator.

Variable now : Z.

Lemma has_name_refresh (n : string) (m : model_spec) (r : model_row) :
  has_name n (refresh m now r) = has_name n r.
Proof. reflexivity. Qed.

Lemma names_after_upsert (table : list model_row) (m : model_spec) :
  map m_name (upsert now table m)
  = if existsb (has_name (name m)) table then map m_name table
    else (map m_name table ++ [name m])%list.
Proof.
  unfold upsert. destruct (existsb (has_name (name m)) table).
  - rewrite map_map. apply map_ext. intros r.
    destruct (has_name (name m) r); reflexivity.
  - rewrite map_app. reflexivity.
Qed.

Lemma upsert_keeps_names_unique (table : list model_row) (m : model_spec) :
  Spec.unique_names table -> Spec.unique_names (upsert now table m).
Proof.
  unfold Spec.unique_names. intros Hnd. rewrite names_after_upsert.
  destruct (existsb (has_name (name m)) table) eqn:E; [exact Hnd |].
  apply NoDup_app; [exact Hnd | repeat constructor; intros [] |].
  intros n Hin [<- | []].
  apply in_map_iff in Hin. destruct Hin as [r [Hn Hr]].
  assert (existsb (has_name (name m)) table = true).
  { apply existsb_exists. exists r. split; [exact Hr |].
    unfold has_name. apply String.eqb_eq. exact Hn. }
  congruence.
Qed.

Lemma upsert_length (table : list model_row) (m : model_spec) :
  List.length (upsert now table m)
  = if existsb (has_name (name m)) table then List.length table
    else S (List.length table).
Proof.
  unfold upsert. destruct (existsb (has_name (name m)) table).
  - apply length_map.
  - rewrite length_app. simpl. lia.
Qed.

End Registry.

(** On a conflict the [DO UPDATE] list leaves the stored provider as it
    was: the look-up after upserting a name already stored under another
    provider returns the old provider. *)
Lemma upsert_keeps_stored_provider :
  Spec.unique_names [Scenario.stored_mixtral]
  /\ Orchestrator.provider Scenario.hosted_mixtral = "openai"
  /\ map Orchestrator.m_provider
       (Orchestrator.lookup
          (Orchestrator.upsert 2000 [Scenario.stored_mixtral]
             Scenario.hosted_mixtral)
          (Orchestrator.name Scenario.hosted_mixtral))
     = ["local"].
Proof.
  split.
  { unfold Spec.unique_names. simpl. repeat constructor. intros []. }
  split; reflexivity.
Qed.

(** *** Registration against the schema of the repository *)

Lemma query_needs_arbiter (c : Database.constraints) (now : Z)
    (table : list Orchestrator.model_row) (m : Orchestrator.model_spec) :
  Database.infers_arbiter c ["name"] = false ->
  exists e, Registration.query c now table m = inl e.
Proof.
  intros H. unfold Registration.query. rewrite H.
  destruct (Orchestrator.max_tokens m) as [z |]; [| eexists; reflexivity].
  destruct (Database.integer z); eexists; reflexivity.
Qed.

Lemma registerModels_needs_arbiter (c : Database.constraints) (now : Z)
    (table : list Orchestrator.model_row) (cfg : Orchestrator.modelConfig) :
  Database.infers_arbiter c ["name"] = false ->
  Orchestrator.collect cfg <> [] ->
  exists e, Registration.registerModels c now table cfg = (Some e, table).
Proof.
  intros H Hne. unfold Registration.registerModels.
  destruct (Orchestrator.collect cfg) as [| m rest]; [contradiction |].
  cbn [Registration.queries].
  destruct (query_needs_arbiter c now table m H) as [e ->].
  exists e. reflexivity.
Qed.

(** C8. [ai_models] as the schema of the repository creates it has a
    primary key on id and no unique constraint on name, so PostgreSQL finds
    no arbiter for [ON CONFLICT (name)]: every statement of [registerModels]
    is refused, whatever the table holds and whatever the model, and a
    registration with at least one configured model ends in an error with the
    table as it was.  Registering the built-in configuration on the empty
    table is refused with 42P10 and looking gpt-4 up afterwards finds no row.
    Had the table a [UNIQUE (name)], the same call would store the four
    configured models, gpt-4 under provider openai, tier high and cost
    0.00003. *)
Theorem registration_is_refused_by_the_schema :
  Database.infers_arbiter Database.ai_models ["name"] = false
  /\ (forall now table m,
        exists e, Registration.query Database.ai_models now table m = inl e)
  /\ (forall now table cfg,
        Orchestrator.collect cfg <> [] ->
        exists e,
          Registration.registerModels Database.ai_models now table cfg
          = (Some e, table))
  /\ Registration.registerModels Database.ai_models Scenario.boot_time []
       Orchestrator.getDefaultModelConfig
     = (Some Database.invalid_column_reference, [])
  /\ Orchestrator.lookup
       (snd (Registration.registerModels Database.ai_models
               Scenario.boot_time [] Orchestrator.getDefaultModelConfig))
       "gpt-4" = []
  /\ (let declared :=
        {| Database.primary_key := ["id"];
           Database.unique := [["name"]] |} in
      fst (Registration.registerModels declared Scenario.boot_time []
             Orchestrator.getDefaultModelConfig) = None
      /\ map Orchestrator.m_name
           (snd (Registration.registerModels declared Scenario.boot_time []
                   Orchestrator.getDefaultModelConfig))
         = ["gpt-4"; "gpt-3.5-turbo"; "llama2-7b"; "llama2-13b"]
      /\ map (fun r => (Orchestrator.m_provider r,
                        Orchestrator.m_performance_tier r,
                        Orchestrator.m_cost_per_token r))
           (Orchestrator.lookup
              (snd (Registration.registerModels declared Scenario.boot_time
                      [] Orchestrator.getDefaultModelConfig)) "gpt-4")
         = [("openai", Some "high", Some (3 # 100000)%Q)]).
Proof.
  split; [reflexivity |].
  split; [intros now table m; apply query_needs_arbiter; reflexivity |].
  split.
  { intros now table cfg. apply registerModels_needs_arbiter. reflexivity. }
  split; [reflexivity |]. split; [reflexivity |].
  split; [vm_compute; reflexivity |]. split; vm_compute; reflexivity.
Qed.

(** ** The request handlers *)

Section Handlers.

Import OpenAIProvider Routes.

Lemma resolve_skip (fs : list (list (string * Z))) (x : string) :
  resolve ([] :: fs) x = resolve fs x.
Proof. reflexivity. Qed.

Lemma resolve_hit (x : string) (v : Z) (f : list (string * Z))
    (fs : list (list (string * Z))) :
  resolve (((x, v) :: f) :: fs) x = Some v.
Proof. cbn [resolve JS.own]. rewrite String.eqb_refl. reflexivity. Qed.

(** Runs the statements of a handler in [H : result = run handler state],
    as far as they are determined. *)
Ltac step_in H :=
  lazy beta iota zeta delta
    [run try_catch block bind ret throw read declare Date_now draw_uuid
     insert_job update_job publish write end_response call_generateText
     call_generateTextStream invoked with_jobs with_frames
     process_attempt process_recover stream_attempt stream_recover
     ai_jobs published written ended calls clock drawn frames
     fst snd tl negb] in H;
  rewrite ?resolve_skip, ?resolve_hit in H.

Ltac run_in H := repeat step_in H.

(** Names the fields of the state a handler starts from. *)
Ltac open_state s :=
  destruct s as [jobs pub wr en cl ck dr fr];
  cbn [ai_jobs published written ended calls clock drawn frames] in *.

Ltac read_off E :=
  rewrite E;
  cbn [fst snd ai_jobs published written ended calls clock drawn frames].

(** [/process], invalid prompt: a 400 and nothing else. *)
Lemma process_rejects_invalid_prompt (a : app) (req : request) (s : state) :
  isLength 1 10000 (body_prompt req) = false ->
  fst (run (process a req) s)
  = Ok {| status := 400; json := ValidationFailed ["prompt"] |}
  /\ ai_jobs (snd (run (process a req) s)) = ai_jobs s
  /\ calls (snd (run (process a req) s)) = calls s
  /\ published (snd (run (process a req) s)) = published s.
Proof.
  intros Hlen. open_state s.
  remember (run (process a req) _) as result eqn:E.
  unfold process, validationErrors in E. rewrite Hlen in E. run_in E.
  read_off E. repeat split.
Qed.

Lemma prompt_out_of_bounds (prompt : string) :
  String.length prompt = 0%nat \/ (10000 < Z.of_nat (String.length prompt)) ->
  isLength 1 10000 prompt = false.
Proof.
  unfold isLength. intros [H | H].
  - rewrite H. reflexivity.
  - apply andb_false_iff. right. apply Z.leb_gt. exact H.
Qed.

(** [/process], model missing or inactive: the pending row is marked failed,
    the caller gets a 400, no provider is called. *)
Lemma process_model_unavailable (a : app) (req : request) (s : state) :
  validationErrors req = [] ->
  initialized a = true ->
  Orchestrator.lookup_active (ai_models a)
    (selectModel a (clock s) (body_model req)) = [] ->
  let jobId := uuidv4 a (drawn s) in
  let selected := shown (selectModel a (clock s) (body_model req)) in
  let mark := fun j =>
    if String.eqb (j_id j) jobId
    then set_failed ("Model " ++ selected ++ " not found or inactive") j
    else j in
  fst (run (process a req) s)
  = Ok {| status := 400;
          json := ModelNotAvailable
                    ("Model " ++ selected ++ " is not available") |}
  /\ ai_jobs (snd (run (process a req) s))
     = map mark (ai_jobs s ++ [pending_job jobId req])
  /\ calls (snd (run (process a req) s)) = calls s.
Proof.
  intros Hv Hi Hl. open_state s.
  remember (run (process a req) _) as result eqn:E.
  unfold process in E. rewrite Hv, Hi in E. run_in E.
  rewrite Hl in E. run_in E.
  read_off E. repeat split.
Qed.

(** [/process], the provider call raises: the inner [catch] fails on
    [startTime] before it updates or publishes anything. *)
Lemma process_when_provider_throws (a : app) (req : request) (s : state)
    (modelInfo : Orchestrator.model_row) (p : provider_object)
    (f : string -> options -> Z * outcome generation)
    (latency : Z) (e : js_error) :
  validationErrors req = [] ->
  Spec.resolves a (clock s) req modelInfo p ->
  Spec.no_outer_startTime s ->
  p_generateText p = Some f ->
  f (body_prompt req) (Spec.passed_options a (clock s) req)
  = (latency, Throw e) ->
  let jobId := uuidv4 a (drawn s) in
  let mark := fun j =>
    if String.eqb (j_id j) jobId
    then set_processing (Orchestrator.m_id modelInfo) j else j in
  fst (run (process a req) s)
  = Ok {| status := 500;
          json := ProcessingFailed "startTime is not defined" |}
  /\ ai_jobs (snd (run (process a req) s))
     = map mark (ai_jobs s ++ [pending_job jobId req])
  /\ published (snd (run (process a req) s)) = published s
  /\ calls (snd (run (process a req) s))
     = (calls s ++ [GenerateText (body_prompt req)
                      (Spec.passed_options a (clock s) req)])%list.
Proof.
  intros Hv (Hi & [rest Hl] & Hp) Hs Hf He.
  unfold Spec.passed_options in *. unfold Spec.no_outer_startTime in Hs.
  open_state s.
  remember (run (process a req) _) as result eqn:E.
  unfold process in E. rewrite Hv, Hi in E. run_in E.
  rewrite Hl, Hp in E. run_in E.
  rewrite Hf, He in E. run_in E.
  rewrite Hs in E. run_in E.
  read_off E. repeat split.
Qed.

(** [/process], the provider call returns: the job is completed with the
    output, the token count, the cost and the elapsed time, the completion is
    published and the caller gets the result. *)
Lemma process_when_provider_returns (a : app) (req : request) (s : state)
    (modelInfo : Orchestrator.model_row) (p : provider_object)
    (f : string -> options -> Z * outcome generation)
    (latency : Z) (g : generation) :
  validationErrors req = [] ->
  Spec.resolves a (clock s) req modelInfo p ->
  p_generateText p = Some f ->
  f (body_prompt req) (Spec.passed_options a (clock s) req)
  = (latency, Ok g) ->
  let jobId := uuidv4 a (drawn s) in
  let elapsed := clock s + latency - clock s in
  let mark := fun j =>
    if String.eqb (j_id j) jobId
    then set_completed g elapsed (clock s + latency) j else j in
  let begun := fun j =>
    if String.eqb (j_id j) jobId
    then set_processing (Orchestrator.m_id modelInfo) j else j in
  fst (run (process a req) s)
  = Ok {| status := 200;
          json := Success jobId (gen_response g)
                    (selectModel a (clock s) (body_model req))
                    (gen_provider g) (gen_usage g) (gen_cost g) elapsed |}
  /\ ai_jobs (snd (run (process a req) s))
     = map mark (map begun (ai_jobs s ++ [pending_job jobId req]))
  /\ published (snd (run (process a req) s))
     = (published s
        ++ [("ai_job_updates",
             JobCompleted jobId (gen_response g) (gen_usage g) elapsed)])%list
  /\ calls (snd (run (process a req) s))
     = (calls s ++ [GenerateText (body_prompt req)
                      (Spec.passed_options a (clock s) req)])%list.
Proof.
  intros Hv (Hi & [rest Hl] & Hp) Hf He.
  unfold Spec.passed_options in *.
  open_state s.
  remember (run (process a req) _) as result eqn:E.
  unfold process in E. rewrite Hv, Hi in E. run_in E.
  rewrite Hl, Hp in E. run_in E.
  rewrite Hf, He in E. run_in E.
  read_off E. repeat split.
Qed.

(** A chunk callback that only appends to the response leaves, after the
    whole delivery, one event per callback, in order. *)
Lemma deliver_appends (onChunk : chunk_note -> M unit)
    (ev : chunk_note -> sse_event) (notes : list chunk_note) (s : state) :
  (forall c s0,
      onChunk c s0
      = (Ok tt,
         {| ai_jobs := ai_jobs s0; published := published s0;
            written := written s0 ++ [ev c];
            ended := ended s0; calls := calls s0; clock := clock s0;
            drawn := drawn s0; frames := frames s0 |})) ->
  deliver onChunk notes s
  = (Ok tt,
     {| ai_jobs := ai_jobs s; published := published s;
        written := written s ++ map ev notes;
        ended := ended s; calls := calls s; clock := clock s;
        drawn := drawn s; frames := frames s |}).
Proof.
  intros Hk. revert s. induction notes as [| n notes IH]; intros s.
  - destruct s. simpl. rewrite app_nil_r. reflexivity.
  - cbn [deliver]. unfold bind. rewrite Hk, IH. simpl.
    rewrite <- app_assoc. reflexivity.
Qed.

(** [/stream], once model and provider are resolved: one [started] event,
    one chunk event per callback in the order of the callbacks, one closing
    event, and the job row finalized accordingly. *)
Lemma stream_events (a : app) (req : request) (s : state)
    (modelInfo : Orchestrator.model_row) (p : provider_object)
    (generate : string -> options -> Z * list chunk_note * outcome generation)
    (latency : Z) (notes : list chunk_note) (r : outcome generation) :
  Spec.resolves a (clock s) req modelInfo p ->
  p_generateTextStream p = Some generate ->
  generate (body_prompt req) (Spec.passed_options a (clock s) req)
  = (latency, notes, r) ->
  let jobId := uuidv4 a (drawn s) in
  let elapsed := clock s + latency - clock s in
  let closing :=
    match r with
    | Ok g => Complete jobId (gen_usage g) (gen_cost g) elapsed
    | Throw e => ErrorEvent jobId (err_message e)
    end in
  let mark := fun j =>
    if String.eqb (j_id j) jobId
    then match r with
         | Ok g => set_completed g elapsed (clock s + latency) j
         | Throw e =>
             set_failed_timed (err_message e) elapsed (clock s + latency) j
         end
    else j in
  fst (run (stream a req) s) = Ok EventStream
  /\ written (snd (run (stream a req) s))
     = (written s
        ++ Started jobId
           :: map (fun c => Chunk jobId (chunk c) (tokenCount c)) notes
        ++ [closing])%list
  /\ ended (snd (run (stream a req) s)) = true
  /\ ai_jobs (snd (run (stream a req) s))
     = map mark (ai_jobs s ++ [streaming_job jobId req modelInfo])
  /\ calls (snd (run (stream a req) s))
     = (calls s ++ [GenerateTextStream (body_prompt req)
                      (Spec.passed_options a (clock s) req)])%list.
Proof.
  intros (Hi & [rest Hl] & Hp) Hg He.
  unfold Spec.passed_options in *.
  open_state s.
  remember (run (stream a req) _) as result eqn:E.
  unfold stream in E. rewrite Hi in E. run_in E.
  rewrite Hl, Hp, Hg in E. run_in E.
  rewrite He in E.
  rewrite (deliver_appends _
             (fun c => Chunk (uuidv4 a dr) (chunk c) (tokenCount c)))
    in E by reflexivity.
  destruct r as [g | e]; run_in E; read_off E;
    rewrite <- !app_assoc; repeat split.
Qed.

(** [/stream], model missing or inactive: one error line, no job row, no
    provider call. *)
Lemma stream_model_unavailable (a : app) (req : request) (s : state) :
  initialized a = true ->
  Orchestrator.lookup_active (ai_models a)
    (selectModel a (clock s) (body_model req)) = [] ->
  fst (run (stream a req) s) = Ok EventStream
  /\ written (snd (run (stream a req) s))
     = (written s ++ [Failure "Model not available"])%list
  /\ ai_jobs (snd (run (stream a req) s)) = ai_jobs s
  /\ calls (snd (run (stream a req) s)) = calls s.
Proof.
  intros Hi Hl. open_state s.
  remember (run (stream a req) _) as result eqn:E.
  unfold stream in E. rewrite Hi in E. run_in E.
  rewrite Hl in E. run_in E.
  read_off E. repeat split.
Qed.

(** [/process] calls the provider it resolved exactly once, whatever the
    call gives. *)
Lemma process_invokes_provider (a : app) (req : request) (s : state)
    (modelInfo : Orchestrator.model_row) (p : provider_object)
    (f : string -> options -> Z * outcome generation) :
  validationErrors req = [] ->
  Spec.resolves a (clock s) req modelInfo p ->
  p_generateText p = Some f ->
  calls (snd (run (process a req) s))
  = (calls s ++ [GenerateText (body_prompt req)
                   (Spec.passed_options a (clock s) req)])%list.
Proof.
  intros Hv (Hi & [rest Hl] & Hp) Hf.
  unfold Spec.passed_options.
  open_state s.
  remember (run (process a req) _) as result eqn:E.
  unfold process in E. rewrite Hv, Hi in E. run_in E.
  rewrite Hl, Hp in E. run_in E.
  rewrite Hf in E.
  destruct (f (body_prompt req)
              (provider_options (selectModel a ck (body_model req))
                 (options_of req))) as [latency [g | e]];
    run_in E; [read_off E; reflexivity |].
  destruct (resolve fr "startTime"); run_in E; read_off E; reflexivity.
Qed.




(** An assignment list stored empty gives no model at all: the request is
    answered as for an unknown model. *)
Lemma empty_assignment_selects_nothing (a : app) (now : Z)
    (requested : option string) :
  or_null requested = None ->
  Redis.get (redis a) "assigned_models" now = Some [] ->
  selectModel a now requested = None.
Proof.
  intros Hr Hg. unfold selectModel, availableModels. rewrite Hr, Hg.
  reflexivity.
Qed.

(** *** Streaming through the OpenAI adapter *)

Lemma estimateTokens_is_ceiling (text : string) :
  estimateTokens text = (Z.of_nat (String.length text) + 3) / 4
  /\ 0 <= estimateTokens text.
Proof.
  unfold estimateTokens, JS.ceil_div.
  generalize (Nat2Z.is_nonneg (String.length text)).
  generalize (Z.of_nat (String.length text)). intros n Hn.
  Z.to_euclidean_division_equations. lia.
Qed.

Lemma estimate_sum_nonneg (texts : list string) : 0 <= Spec.estimate_sum texts.
Proof.
  induction texts as [| t texts IH]; simpl; [lia |].
  destruct (estimateTokens_is_ceiling t) as [_ H]. lia.
Qed.

(** The loop of [generateTextStream] against the fragments it is fed. *)
Lemma consume_fragments (jobId : string) (its : list (option string))
    (full : string) (sofar : Z) :
  map (fun c => Chunk jobId (chunk c) (tokenCount c))
      (fst (consume its full sofar))
  = Spec.chunk_events jobId sofar (Spec.fragments its)
  /\ snd (snd (consume its full sofar))
     = sofar + Spec.estimate_sum (Spec.fragments its).
Proof.
  revert full sofar. induction its as [| it its IH]; intros full sofar.
  - simpl. split; [reflexivity | lia].
  - unfold Spec.fragments in *. cbn [consume map filter].
    destruct (String.eqb (match it with Some s => s | None => "" end) "").
    + cbn [negb]. apply IH.
    + cbn [negb].
      specialize (IH (full ++ match it with Some s => s | None => "" end)
                     (sofar + estimateTokens
                                (match it with Some s => s | None => "" end))).
      destruct (consume its _ _) as [notes final].
      cbn [fst snd map chunk tokenCount Spec.chunk_events Spec.estimate_sum
           fold_right] in *.
      destruct IH as [IH1 IH2]. split; [f_equal; exact IH1 |].
      rewrite IH2. unfold Spec.estimate_sum. lia.
Qed.

Lemma chunk_events_shape (jobId : string) (texts : list string) (sofar : Z) :
  map Spec.carried (Spec.chunk_events jobId sofar texts) = map Some texts
  /\ forallb Spec.is_chunk (Spec.chunk_events jobId sofar texts) = true
  /\ forall j t n,
       In (Chunk j t n) (Spec.chunk_events jobId sofar texts) ->
       sofar <= n <= sofar + Spec.estimate_sum texts.
Proof.
  revert sofar. induction texts as [| t texts IH]; intros sofar.
  - simpl. repeat split; contradiction.
  - destruct (IH (sofar + estimateTokens t)) as (IH1 & IH2 & IH3).
    destruct (estimateTokens_is_ceiling t) as [_ Ht].
    pose proof (estimate_sum_nonneg texts) as Hs.
    cbn [Spec.chunk_events map forallb Spec.carried Spec.is_chunk andb].
    change (Spec.estimate_sum (t :: texts))
      with (estimateTokens t + Spec.estimate_sum texts).
    split; [f_equal; exact IH1 |]. split; [exact IH2 |].
    intros j t' n [E | Hin].
    + injection E as _ _ <-. lia.
    + specialize (IH3 j t' n Hin). lia.
Qed.

(** The counts the chunk events carry, fragment by fragment. *)
Lemma chunk_events_counts (jobId : string) (texts : list string) (sofar : Z) :
  map Spec.counted (Spec.chunk_events jobId sofar texts)
  = map Some (Spec.running_quarters sofar texts)
  /\ Spec.estimate_sum texts = Spec.quarter_sum texts.
Proof.
  revert sofar. induction texts as [| t texts IH]; intros sofar;
    [split; reflexivity |].
  destruct (IH (sofar + estimateTokens t)) as [IH1 IH2].
  destruct (estimateTokens_is_ceiling t) as [Ht _].
  cbn [Spec.chunk_events map Spec.counted Spec.running_quarters].
  change (Spec.estimate_sum (t :: texts))
    with (estimateTokens t + Spec.estimate_sum texts).
  change (Spec.quarter_sum (t :: texts))
    with (Spec.quarter_tokens t + Spec.quarter_sum texts).
  unfold Spec.quarter_tokens in *. rewrite <- Ht, IH1, IH2.
  split; reflexivity.
Qed.

(** C7. A streaming request served by the OpenAI adapter writes: one
    started event with the job id; then one chunk event per non-empty
    fragment, in the order the backend produced them; then exactly one
    closing event, complete or error, with nothing after it.  A fragment of
    n characters counts for (n + 3) / 4 tokens, that is n / 4 rounded up:
    each chunk event carries the sum of these over the fragments up to and
    including its own, and the total of the complete event is their sum over
    all fragments, so it is at least that sum and at least every running
    count a chunk event carried. *)
Theorem streaming_event_sequence (a : app) (req : request) (s : state)
    (modelInfo : Orchestrator.model_row) (c : client) :
  Spec.resolves a (clock s) req modelInfo (openai c) ->
  let jobId := uuidv4 a (drawn s) in
  let o := Spec.passed_options a (clock s) req in
  let source :=
    snd (create_stream c
           {| rq_model := model_of o; rq_content := body_prompt req;
              rq_max_tokens := maxTokens_of o; rq_stream := true |}) in
  let texts := Spec.fragments (items source) in
  let chunks := Spec.chunk_events jobId 0 texts in
  exists closing,
    written (snd (run (stream a req) s))
    = (written s ++ Started jobId :: chunks ++ [closing])%list
    /\ map Spec.carried chunks = map Some texts
    /\ map Spec.counted chunks = map Some (Spec.running_quarters 0 texts)
    /\ forallb Spec.is_chunk chunks = true
    /\ forallb (fun e => negb (Spec.is_terminal e)) (Started jobId :: chunks)
       = true
    /\ Spec.is_terminal closing = true
    /\ match failure source with
       | None =>
           exists u cost elapsed,
             closing = Complete jobId u cost elapsed
             /\ total_tokens u = Spec.quarter_sum texts
             /\ total_tokens u = Spec.estimate_sum texts
             /\ Spec.quarter_sum texts <= total_tokens u
             /\ Spec.estimate_sum texts <= total_tokens u
             /\ forall j t n, In (Chunk j t n) chunks -> n <= total_tokens u
       | Some e => closing = ErrorEvent jobId (err_message e)
       end.
Proof.
  intros Hres jobId o source texts chunks.
  destruct (generateTextStream c (body_prompt req) o)
    as [[latency notes] r] eqn:E.
  destruct (stream_events a req s modelInfo (openai c) (generateTextStream c)
              latency notes r Hres eq_refl E)
    as (_ & Hw & _).
  unfold generateTextStream in E. fold source in E.
  destruct (create_stream c _) as [latency' src] eqn:Ecs.
  cbn [snd] in source.
  pose proof (consume_fragments jobId (items src) "" 0) as [Hn Ht].
  destruct (consume (items src) "" 0) as [notes' [full total]].
  cbn [fst snd] in Hn, Ht.
  destruct (chunk_events_shape jobId texts 0) as (Hcar & Hchunk & Hbound).
  destruct (chunk_events_counts jobId texts 0) as (Hcount & Hsum).
  assert (Hquiet :
    forallb (fun e => negb (Spec.is_terminal e)) (Started jobId :: chunks)
    = true).
  { cbn [forallb Spec.is_terminal negb andb]. fold chunks in Hchunk.
    clear - Hchunk. induction chunks as [| e l IH]; [reflexivity |].
    cbn [forallb] in *. apply andb_true_iff in Hchunk as [He Hl].
    rewrite (IH Hl). destruct e; try discriminate. reflexivity. }
  fold jobId in Hw.
  destruct (failure src) as [err |] eqn:Ef;
    injection E as <- <- <-; rewrite Hn in Hw; fold texts chunks in Hw;
    eexists; (split; [exact Hw |]); repeat (split; [assumption |]);
    (split; [reflexivity |]); subst source; rewrite Ef.
  - reflexivity.
  - do 3 eexists. split; [reflexivity |]. cbn [gen_usage total_tokens].
    fold texts in Ht. rewrite Ht, <- Hsum.
    split; [lia |]. split; [lia |]. split; [lia |]. split; [lia |].
    intros j t n Hin. specialize (Hbound j t n Hin). lia.
Qed.

Lemma streaming_event_sequence_witness :
  Spec.resolves Cases.chatting 5000 (Scenario.ask "Explain X" None)
    Scenario.turbo_row (openai Cases.chatty)
  /\ exists u cost elapsed,
       written (snd (run (stream Cases.chatting
                           (Scenario.ask "Explain X" None)) Scenario.idle))
       = [ Started "job-0"; Chunk "job-0" "Hi" 1;
           Chunk "job-0" "Hello, world!" 5;
           Complete "job-0" u cost elapsed ]
       /\ total_tokens u = 5.
Proof.
  assert (Hres : Spec.resolves Cases.chatting (clock Scenario.idle)
                   (Scenario.ask "Explain X" None)
                   Scenario.turbo_row (openai Cases.chatty)).
  { split; [reflexivity |]. split; [exists []; reflexivity | reflexivity]. }
  split; [exact Hres |].
  destruct (streaming_event_sequence Cases.chatting
              (Scenario.ask "Explain X" None) Scenario.idle
              Scenario.turbo_row Cases.chatty Hres)
    as (closing & Hw & _ & _ & _ & _ & _ & Hcl).
  cbn [Cases.chatty create_stream snd failure] in Hcl.
  destruct Hcl as (u & cost & elapsed & -> & Htot & _).
  exists u, cost, elapsed. split; [rewrite Hw; reflexivity |].
  rewrite Htot. reflexivity.
Defined.

(** *** Where the handlers part from the specification *)

(** C1. A [/process] request for the registered, active gpt-4 whose
    provider call raises "upstream timeout": the provider was called, yet
    the job row stays in [processing] with no error message, elapsed time or
    completion timestamp, nothing is published on ai_job_updates, and the
    caller is told "startTime is not defined" instead of the provider's
    error. *)
Theorem process_failure_leaves_job_processing :
  let result :=
    run (process Scenario.deployment
           (Scenario.ask "Explain X" (Some "gpt-4"))) Scenario.idle in
  calls (snd result)
  = [ GenerateText "Explain X"
        {| opt_model := Some "gpt-4"; opt_maxTokens := None |} ]
  /\ generateText Scenario.backend "Explain X"
       {| opt_model := Some "gpt-4"; opt_maxTokens := None |}
     = (250, Throw Scenario.upstream_timeout)
  /\ fst result
     = Ok {| status := 500;
             json := ProcessingFailed "startTime is not defined" |}
  /\ map (fun j => (j_id j, j_status j, j_error_message j,
                    j_processing_time j, j_completed_at j))
         (ai_jobs (snd result))
     = [ ("job-0", processing, None, None, None) ]
  /\ forallb (fun j => terminal (j_status j)) (ai_jobs (snd result)) = false
  /\ published (snd result) = [].
Proof. vm_compute. repeat split. Qed.

(** C3. A request for a model the registry does not hold, or holds
    inactive.  [/process] leaves a failed job row with the reason and answers
    400 without calling a provider; [/stream] answers with an error line and
    calls no provider either, but leaves no job row at all. *)
Theorem stream_leaves_no_job_for_unavailable_model :
  let unknown := Scenario.ask "Explain X" (Some "no-such-model") in
  let retired := Scenario.ask "Explain X" (Some "gpt-4") in
  let sync := run (process Scenario.deployment unknown) Scenario.idle in
  let streamed := run (stream Scenario.deployment unknown) Scenario.idle in
  let streamed' := run (stream Scenario.without_gpt4 retired) Scenario.idle in
  Orchestrator.lookup (ai_models Scenario.deployment) "no-such-model" = []
  /\ map Orchestrator.m_is_active
       (Orchestrator.lookup (ai_models Scenario.without_gpt4) "gpt-4")
     = [false]
  /\ fst sync
     = Ok {| status := 400;
             json := ModelNotAvailable
                       "Model no-such-model is not available" |}
  /\ map (fun j => (j_id j, j_status j, j_error_message j))
         (ai_jobs (snd sync))
     = [ ("job-0", failed,
          Some "Model no-such-model not found or inactive") ]
  /\ calls (snd sync) = []
  /\ written (snd streamed) = [ Failure "Model not available" ]
  /\ calls (snd streamed) = []
  /\ ai_jobs (snd streamed) = []
  /\ written (snd streamed') = [ Failure "Model not available" ]
  /\ calls (snd streamed') = []
  /\ ai_jobs (snd streamed') = [].
Proof. vm_compute. repeat split. Qed.

(** C4. An empty prompt and a prompt of 10001 characters both fail the
    length check.  [/process] answers 400 before any job row exists;
    [/stream] does not look at the check, creates the job row, calls the
    provider and completes the job. *)
Theorem stream_accepts_invalid_prompt :
  let empty := Scenario.ask "" None in
  let long := Scenario.ask Scenario.long_prompt None in
  let sync := run (process Scenario.deployment empty) Scenario.idle in
  let streamed := run (stream Scenario.deployment empty) Scenario.idle in
  let streamed' := run (stream Scenario.deployment long) Scenario.idle in
  validationErrors empty = ["prompt"]
  /\ validationErrors long = ["prompt"]
  /\ fst sync = Ok {| status := 400; json := ValidationFailed ["prompt"] |}
  /\ ai_jobs (snd sync) = []
  /\ map (fun j => (j_id j, j_prompt j, j_status j)) (ai_jobs (snd streamed))
     = [ ("job-0", "", completed) ]
  /\ calls (snd streamed)
     = [ GenerateTextStream ""
           {| opt_model := Some "gpt-3.5-turbo"; opt_maxTokens := None |} ]
  /\ map (fun j => (j_id j, String.length (j_prompt j), j_status j))
         (ai_jobs (snd streamed'))
     = [ ("job-0", Z.to_nat 10001, completed) ]
  /\ List.length (calls (snd streamed')) = 1%nat.
Proof. vm_compute. repeat split. Qed.

End Handlers.

(* ================================================================== *)
(** * Further properties of the code *)

(** ** Quota guard and usage report *)

Section Quota.

Import Tenant.

(** What the guard decides, by the kind of limit it found. *)
Lemma guard_cases (f : feature) (plan : option string) (db : usage_rows) :
  match limit_of (planLimits plan) f with
  | Some l =>
      allowed (checkSubscriptionLimits f plan db)
      = (l =? -1) || (currentUsage f db <? l)
  | None => allowed (checkSubscriptionLimits f plan db) = true
  end.
Proof.
  destruct (limit_of (planLimits plan) f) as [l |] eqn:E.
  - apply guard_with_limit. exact E.
  - unfold checkSubscriptionLimits. rewrite E. reflexivity.
Qed.

(** X1. For one plan and feature, a request refused at some usage is
    refused at every higher usage: lowering the usage never turns an
    admission into a refusal. *)
Theorem quota_refusal_is_monotone (f : feature) (plan : option string)
    (db db' : usage_rows) :
  currentUsage f db <= currentUsage f db' ->
  allowed (checkSubscriptionLimits f plan db') = true ->
  allowed (checkSubscriptionLimits f plan db) = true.
Proof.
  intros Hle. pose proof (guard_cases f plan db) as H.
  pose proof (guard_cases f plan db') as H'.
  destruct (limit_of (planLimits plan) f) as [l |]; [| intros _; exact H].
  rewrite H, H'. intros Ha.
  apply orb_true_iff in Ha. apply orb_true_iff.
  destruct Ha as [Ha | Ha]; [left; exact Ha | right].
  apply Z.ltb_lt in Ha. apply Z.ltb_lt. lia.
Qed.

Lemma quota_refusal_is_monotone_witness :
  let db := {| ai_jobs_this_month := 40; team_member_count := 2;
               active_webhooks := 0; files_total_size := 0 |} in
  let db' := {| ai_jobs_this_month := 99; team_member_count := 2;
                active_webhooks := 0; files_total_size := 0 |} in
  currentUsage ai_requests_per_month db
  <= currentUsage ai_requests_per_month db'
  /\ allowed (checkSubscriptionLimits ai_requests_per_month (Some "free") db)
     = true.
Proof.
  split; [simpl; lia |].
  apply (quota_refusal_is_monotone ai_requests_per_month (Some "free")
           {| ai_jobs_this_month := 40; team_member_count := 2;
              active_webhooks := 0; files_total_size := 0 |}
           {| ai_jobs_this_month := 99; team_member_count := 2;
              active_webhooks := 0; files_total_size := 0 |});
    [simpl; lia | reflexivity].
Defined.

(** X2. Whenever the guard admits a request under a numeric limit, the
    [usageInfo] it attaches has [remaining = limit - current_usage], and
    that is at least 1. *)
Theorem admitted_request_has_quota_left (f : feature) (plan : option string)
    (db : usage_rows) (info : usage_info) (l : Z) :
  checkSubscriptionLimits f plan db = Next (Some info) ->
  ui_limit info = Some l ->
  ui_current_usage info = currentUsage f db
  /\ ui_remaining info = Some (l - currentUsage f db)
  /\ 1 <= l - currentUsage f db.
Proof.
  unfold checkSubscriptionLimits.
  destruct (limit_of (planLimits plan) f) as [l0 |].
  - assert (Hbody :
      (if reached (currentUsage f db) (Some l0)
       then Forbidden403
              {| le_error := "Subscription limit exceeded";
                 le_message := exceeded_message plan l0 f;
                 le_current_usage := currentUsage f db;
                 le_limit := l0;
                 le_upgrade_url := "/api/payments/upgrade" |}
       else Next (Some {| ui_feature := f;
                          ui_current_usage := currentUsage f db;
                          ui_limit := Some l0;
                          ui_remaining := Some (l0 - currentUsage f db) |}))
      = Next (Some info) ->
      ui_limit info = Some l ->
      ui_current_usage info = currentUsage f db
      /\ ui_remaining info = Some (l - currentUsage f db)
      /\ 1 <= l - currentUsage f db).
    { unfold reached.
      destruct (Z.leb_spec l0 (currentUsage f db)); [discriminate |].
      intros [= <-]. simpl. intros [= <-]. repeat split. lia. }
    destruct l0 as [| p | p]; try exact Hbody.
    destruct p; try exact Hbody. discriminate.
  - intros [= <-]. discriminate.
Qed.

Lemma admitted_request_has_quota_left_witness :
  let db := {| ai_jobs_this_month := 40; team_member_count := 2;
               active_webhooks := 0; files_total_size := 0 |} in
  1 <= 3 - currentUsage team_members db.
Proof.
  apply (admitted_request_has_quota_left team_members (Some "free")
           {| ai_jobs_this_month := 40; team_member_count := 2;
              active_webhooks := 0; files_total_size := 0 |}
           {| ui_feature := team_members; ui_current_usage := 2;
              ui_limit := Some 3; ui_remaining := Some 1 |} 3);
    reflexivity.
Defined.

Lemma started_gigabytes (size l : Z) :
  JS.ceil_div size GB < l <-> size <= (l - 1) * GB.
Proof.
  unfold JS.ceil_div, GB.
  change (1024 * 1024 * 1024) with 1073741824.
  Z.to_euclidean_division_equations. lia.
Qed.

(** X3. Storage is metered in started gigabytes: under a numeric limit of
    [l] GB the storage check passes exactly while the files total at most
    [l - 1] GB, so on the free plan (1 GB) it passes only with nothing
    stored. *)
Theorem storage_quota_counts_started_gigabytes :
  (forall (plan : option string) (db : usage_rows) (l : Z),
      limit_of (planLimits plan) storage_gb = Some l ->
      l <> -1 ->
      (allowed (checkSubscriptionLimits storage_gb plan db) = true
       <-> files_total_size db <= (l - 1) * GB))
  /\ (forall db,
        allowed (checkSubscriptionLimits storage_gb (Some "free") db) = true
        <-> files_total_size db <= 0).
Proof.
  assert (general : forall plan db l,
    limit_of (planLimits plan) storage_gb = Some l ->
    l <> -1 ->
    (allowed (checkSubscriptionLimits storage_gb plan db) = true
     <-> files_total_size db <= (l - 1) * GB)).
  { intros plan db l Hl Hne.
    rewrite (guard_with_limit storage_gb plan db l Hl).
    destruct (Z.eqb_spec l (-1)) as [E | _]; [contradiction |].
    cbn [orb currentUsage]. rewrite Z.ltb_lt. apply started_gigabytes. }
  split; [exact general |].
  intros db.
  apply (general (Some "free") db 1); [reflexivity | discriminate].
Qed.

Lemma storage_quota_counts_started_gigabytes_witness :
  let db := {| ai_jobs_this_month := 0; team_member_count := 0;
               active_webhooks := 0; files_total_size := 9 * GB + 1 |} in
  limit_of (planLimits (Some "basic")) storage_gb = Some 10
  /\ (allowed (checkSubscriptionLimits storage_gb (Some "basic") db) = true
      <-> files_total_size db <= (10 - 1) * GB).
Proof.
  split; [reflexivity |].
  apply (proj1 storage_quota_counts_started_gigabytes (Some "basic")
           {| ai_jobs_this_month := 0; team_member_count := 0;
              active_webhooks := 0; files_total_size := 9 * GB + 1 |} 10);
    [reflexivity | discriminate].
Defined.

(** X4. The four plans are nested: whatever the guard admits under free it
    admits under basic, whatever under basic under pro, and enterprise
    admits everything. *)
Theorem higher_plan_admits_more (f : feature) (db : usage_rows) :
  (allowed (checkSubscriptionLimits f (Some "free") db) = true ->
   allowed (checkSubscriptionLimits f (Some "basic") db) = true)
  /\ (allowed (checkSubscriptionLimits f (Some "basic") db) = true ->
      allowed (checkSubscriptionLimits f (Some "pro") db) = true)
  /\ allowed (checkSubscriptionLimits f (Some "enterprise") db) = true.
Proof.
  rewrite (guard_with_limit f (Some "free") db (row_limit free f) eq_refl).
  rewrite (guard_with_limit f (Some "basic") db (row_limit basic f) eq_refl).
  rewrite (guard_with_limit f (Some "pro") db (row_limit pro f) eq_refl).
  rewrite (guard_with_limit f (Some "enterprise") db
             (row_limit enterprise f) eq_refl).
  generalize (currentUsage f db). intros u.
  destruct f; cbn [row_limit free basic pro enterprise
                   lim_ai_requests_per_month lim_storage_gb lim_team_members
                   lim_webhooks];
    repeat split; try reflexivity;
    rewrite !orb_true_iff, !Z.ltb_lt; intros [H | H];
      try discriminate; right; lia.
Qed.

(** X5. [GET /usage] and the guard agree: for a limit of -1 the report says
    unlimited with remaining -1 and the guard admits; for a positive limit
    the report's remaining is [max(0, limit - current)], and it is 0
    exactly when the guard refuses. *)
Theorem usage_report_agrees_with_guard (f : feature) (plan : option string)
    (db : usage_rows) (l : Z) :
  limit_of (planLimits plan) f = Some l ->
  (l = -1 ->
   Tenancy.unlimited (Tenancy.usage_of f plan db) = true
   /\ Tenancy.remaining (Tenancy.usage_of f plan db) = Some (-1)
   /\ allowed (checkSubscriptionLimits f plan db) = true)
  /\ (0 < l ->
      Tenancy.unlimited (Tenancy.usage_of f plan db) = false
      /\ Tenancy.remaining (Tenancy.usage_of f plan db)
         = Some (Z.max 0 (l - currentUsage f db))
      /\ (Tenancy.remaining (Tenancy.usage_of f plan db) = Some 0
          <-> allowed (checkSubscriptionLimits f plan db) = false)).
Proof.
  intros Hl. rewrite (guard_with_limit f plan db l Hl).
  unfold Tenancy.usage_of. rewrite Hl.
  cbn [Tenancy.unlimited Tenancy.remaining].
  split.
  - intros ->. repeat split.
  - intros Hpos.
    destruct (Z.eqb_spec l (-1)) as [E | _]; [lia |].
    destruct (Z.ltb_spec 0 l) as [_ | H]; [| lia].
    cbn [negb andb orb]. repeat split.
    + intros [= H]. apply Z.ltb_ge. lia.
    + intros H. apply Z.ltb_ge in H. f_equal. lia.
Qed.

Lemma usage_report_agrees_with_guard_witness :
  let db := {| ai_jobs_this_month := 1000; team_member_count := 0;
               active_webhooks := 0; files_total_size := 0 |} in
  limit_of (planLimits (Some "basic")) ai_requests_per_month = Some 1000
  /\ Tenancy.remaining
       (Tenancy.usage_of ai_requests_per_month (Some "basic") db) = Some 0
  /\ allowed (checkSubscriptionLimits ai_requests_per_month (Some "basic") db)
     = false.
Proof.
  split; [reflexivity |].
  destruct (proj2 (usage_report_agrees_with_guard ai_requests_per_month
                     (Some "basic")
                     {| ai_jobs_this_month := 1000; team_member_count := 0;
                        active_webhooks := 0; files_total_size := 0 |}
                     1000 eq_refl) ltac:(lia)) as (_ & Hr & Hiff).
  split; [exact Hr |]. apply Hiff. exact Hr.
Defined.

End Quota.

(** ** Host capacity *)

Section HostCapacity.

Import Capacity.

Lemma Qle_bool_false (a b : Q) : Qle_bool a b = false <-> (b < a)%Q.
Proof.
  split.
  - intros H. apply Qnot_le_lt. intros Hle.
    apply Qle_bool_iff in Hle. congruence.
  - intros H. destruct (Qle_bool a b) eqn:E; [| reflexivity].
    apply Qle_bool_iff in E. lra.
Qed.

(** Turns the comparisons of a goal and its hypotheses into propositions. *)
Ltac compare_all :=
  repeat match goal with
         | |- context [Qle_bool ?a ?b] =>
             let E := fresh "E" in
             destruct (Qle_bool a b) eqn:E;
             [apply Qle_bool_iff in E | apply Qle_bool_false in E]
         end.

Lemma gpu_memory_of_host (hw : Hardware.hardware_info) :
  (0 <= Hardware.getGPUMemory hw)%Q
  /\ (Hardware.hasGPU hw = true <-> (0 < Hardware.getGPUMemory hw)%Q).
Proof.
  unfold Hardware.getGPUMemory, Hardware.hasGPU.
  destruct (Hardware.gpu hw) as [g |].
  - destruct (Qle_bool (Hardware.memory g) 0) eqn:E; cbn [negb].
    + split; [lra |]. split; [discriminate | lra].
    + apply Qle_bool_false in E. split; [lra |]. split; [intros _; exact E | reflexivity].
  - split; [lra |]. split; [discriminate | lra].
Qed.

(** X6. A host with at least as much memory, GPU memory and cores as
    another is never given a lower configuration: local models stay
    possible, the maximal model size does not shrink, GPU acceleration stays
    on, the parallel job capacity does not drop, and every requirement the
    lesser host meets is met. *)
Theorem more_hardware_never_lowers_configuration
    (hw hw' : Hardware.hardware_info) :
  no_less hw hw' ->
  let c := getOptimalModelConfiguration hw in
  let c' := getOptimalModelConfiguration hw' in
  (canRunLocalModels c = true -> canRunLocalModels c' = true)
  /\ size_rank (maxModelSize c) <= size_rank (maxModelSize c')
  /\ (gpuAcceleration c = true -> gpuAcceleration c' = true)
  /\ parallelJobs c <= parallelJobs c'
  /\ forall r, meetsRequirements hw r = true -> meetsRequirements hw' r = true.
Proof.
  intros (Hm & Hg & Hc).
  destruct (gpu_memory_of_host hw) as [Hn Hh].
  destruct (gpu_memory_of_host hw') as [Hn' Hh'].
  unfold getOptimalModelConfiguration, meetsRequirements, at_least, below.
  cbn [canRunLocalModels maxModelSize gpuAcceleration parallelJobs].
  set (g := Hardware.getGPUMemory hw) in *.
  set (g' := Hardware.getGPUMemory hw') in *.
  set (m := getTotalMemory hw) in *.
  set (m' := getTotalMemory hw') in *.
  clearbody g g' m m'.
  assert (Hgpu : Hardware.hasGPU hw = true -> Hardware.hasGPU hw' = true).
  { intros H. apply Hh'. apply Hh in H. lra. }
  repeat split.
  - compare_all; intros; try reflexivity; try discriminate; lra.
  - compare_all; cbn [orb size_rank]; try lia; lra.
  - destruct (Hardware.hasGPU hw); [| discriminate].
    rewrite (Hgpu eq_refl). cbn [andb].
    compare_all; intros; try reflexivity; try discriminate; lra.
  - assert (getCPUCores hw / 2 <= getCPUCores hw' / 2)
      by (apply Z.div_le_mono; lia).
    lia.
  - intros r.
    destruct (Hardware.hasGPU hw) eqn:G.
    + rewrite (Hgpu eq_refl).
      destruct (getCPUCores hw <? cores_required r) eqn:C1;
        destruct (getCPUCores hw' <? cores_required r) eqn:C2;
        try apply Z.ltb_lt in C2; try apply Z.ltb_ge in C1; try lia;
        rewrite ?andb_false_r;
        compare_all; cbn [negb andb]; intros; try reflexivity;
        try discriminate; lra.
    + destruct (Hardware.hasGPU hw');
        destruct (getCPUCores hw <? cores_required r) eqn:C1;
        destruct (getCPUCores hw' <? cores_required r) eqn:C2;
        try apply Z.ltb_lt in C2; try apply Z.ltb_ge in C1; try lia;
        destruct (requiresGPU r) as [[|] |];
        compare_all; cbn [negb andb]; intros; try reflexivity;
        try discriminate; lra.
Qed.

Lemma more_hardware_never_lowers_configuration_witness :
  no_less Scenario.cpu_host (Spec.host_with_gpu 8)
  /\ size_rank (maxModelSize (getOptimalModelConfiguration Scenario.cpu_host))
     <= size_rank (maxModelSize
                     (getOptimalModelConfiguration (Spec.host_with_gpu 8))).
Proof.
  assert (H : no_less Scenario.cpu_host (Spec.host_with_gpu 8)).
  { repeat split; vm_compute; discriminate. }
  split; [exact H |].
  apply (more_hardware_never_lowers_configuration Scenario.cpu_host
           (Spec.host_with_gpu 8) H).
Defined.

(** X7. The hardware score never exceeds 100, is not negative when cores
    and memory are not, and does not drop on a host that is at least as
    capable. *)
Theorem hardware_score_range (hw : Hardware.hardware_info) :
  (getHardwareScore hw <= 100)%Q
  /\ (0 <= getCPUCores hw -> (0 <= getTotalMemory hw)%Q ->
      (0 <= getHardwareScore hw)%Q)
  /\ (forall hw', no_less hw hw' ->
                  (getHardwareScore hw <= getHardwareScore hw')%Q).
Proof.
  destruct (gpu_memory_of_host hw) as [Hn Hh].
  unfold getHardwareScore, qmin.
  set (g := Hardware.getGPUMemory hw) in *.
  set (m := getTotalMemory hw) in *.
  repeat split.
  - clearbody g m. destruct (Hardware.hasGPU hw); compare_all; lra.
  - intros Hc Hm.
    assert (0 <= inject_Z (getCPUCores hw))%Q
      by (change 0%Q with (inject_Z 0); rewrite <- Zle_Qle; exact Hc).
    clearbody g m. destruct (Hardware.hasGPU hw); compare_all; lra.
  - intros hw' (Hm & Hg & Hc).
    destruct (gpu_memory_of_host hw') as [Hn' Hh'].
    fold g in Hg. fold m in Hm.
    set (g' := Hardware.getGPUMemory hw') in *.
    set (m' := getTotalMemory hw') in *.
    assert (Hq : (inject_Z (getCPUCores hw) <= inject_Z (getCPUCores hw'))%Q)
      by (rewrite <- Zle_Qle; exact Hc).
    assert (Hgpu : Hardware.hasGPU hw = true -> Hardware.hasGPU hw' = true).
    { intros H. apply Hh'. apply Hh in H. lra. }
    clearbody g g' m m'.
    destruct (Hardware.hasGPU hw).
    + rewrite (Hgpu eq_refl). compare_all; lra.
    + destruct (Hardware.hasGPU hw') eqn:G'.
      * assert (0 < g')%Q by (apply Hh'; reflexivity).
        compare_all; lra.
      * compare_all; lra.
Qed.

Lemma hardware_score_range_witness :
  (0 <= getHardwareScore Scenario.cpu_host)%Q
  /\ (getHardwareScore Scenario.cpu_host
      <= getHardwareScore (Spec.host_with_gpu 8))%Q.
Proof.
  split.
  - apply (proj1 (proj2 (hardware_score_range Scenario.cpu_host)));
      vm_compute; discriminate.
  - apply (proj2 (proj2 (hardware_score_range Scenario.cpu_host))).
    repeat split; vm_compute; discriminate.
Defined.

Lemma categorize_by_memory (hw : Hardware.hardware_info) :
  Spec.plausible hw ->
  Orchestrator.categorize hw
  = if negb (Hardware.hasGPU hw) then Orchestrator.cat_cpu_only
    else if Qle_bool (Hardware.getGPUMemory hw) 4
         then Orchestrator.cat_gpu_4gb
    else if Qle_bool (Hardware.getGPUMemory hw) 8
         then Orchestrator.cat_gpu_8gb
    else Orchestrator.cat_gpu_16gb.
Proof.
  unfold Spec.plausible, Orchestrator.categorize, Hardware.getGPUMemory,
    Hardware.hasGPU.
  destruct (Hardware.gpu hw) as [g |]; [| reflexivity].
  intros Hpos.
  destruct (Qeq_bool (Hardware.memory g) 0) eqn:E0.
  - apply Qeq_bool_iff in E0.
    assert (L : Qle_bool (Hardware.memory g) 0 = true)
      by (apply Qle_bool_iff; lra).
    rewrite L. reflexivity.
  - assert (L : Qle_bool (Hardware.memory g) 0 = false).
    { apply Qle_bool_false.
      destruct (Qlt_le_dec 0 (Hardware.memory g)) as [H | H]; [exact H |].
      assert (E : (Hardware.memory g == 0)%Q) by lra.
      apply Qeq_bool_iff in E. congruence. }
    rewrite L. reflexivity.
Qed.

(** X8. The configuration and the model assignment read the GPU alike: GPU
    acceleration is on for every host classified gpu_8gb or gpu_16gb and
    off for every host classified cpu_only, and a host classified gpu_4gb
    is accelerated only with exactly 4 GB. *)
Theorem acceleration_matches_category (hw : Hardware.hardware_info) :
  Spec.plausible hw ->
  let accelerated :=
    gpuAcceleration (getOptimalModelConfiguration hw) in
  (Orchestrator.categorize hw = Orchestrator.cat_cpu_only ->
   accelerated = false)
  /\ (Orchestrator.categorize hw = Orchestrator.cat_gpu_8gb
      \/ Orchestrator.categorize hw = Orchestrator.cat_gpu_16gb ->
      accelerated = true)
  /\ (Orchestrator.categorize hw = Orchestrator.cat_gpu_4gb ->
      (accelerated = true <-> (Hardware.getGPUMemory hw == 4)%Q)).
Proof.
  intros Hp. rewrite (categorize_by_memory hw Hp).
  destruct (gpu_memory_of_host hw) as [Hn Hh].
  unfold getOptimalModelConfiguration, at_least.
  cbn [gpuAcceleration].
  set (g := Hardware.getGPUMemory hw) in *. clearbody g.
  destruct (Hardware.hasGPU hw); cbn [negb andb].
  - repeat split;
      repeat match goal with
             | H : context [Qle_bool _ _] |- _ => revert H
             end;
      compare_all; intros; try discriminate; try reflexivity;
      repeat match goal with
             | H : _ \/ _ |- _ => destruct H; try discriminate
             end;
      lra.
  - repeat split; intros; try discriminate; try reflexivity.
    destruct H as [H | H]; discriminate.
Qed.

Lemma acceleration_matches_category_witness :
  Spec.plausible (Spec.host_with_gpu 8)
  /\ gpuAcceleration (getOptimalModelConfiguration (Spec.host_with_gpu 8))
     = true.
Proof.
  assert (Hp : Spec.plausible (Spec.host_with_gpu 8))
    by (vm_compute; discriminate).
  split; [exact Hp |].
  apply (proj1 (proj2 (acceleration_matches_category
                         (Spec.host_with_gpu 8) Hp))).
  left. reflexivity.
Defined.

End HostCapacity.

(** ** Housekeeping and job look-up *)

Section Upkeep.

Import OpenAIProvider Routes Housekeeping.

Lemma purged_spec (now : Z) (j : job_row) :
  purged now j = false
  <-> (terminal (j_status j) = false
       \/ j_completed_at j = None
       \/ exists t, j_completed_at j = Some t /\ now - retention <= t).
Proof.
  unfold purged. split.
  - destruct (terminal (j_status j)); [| left; reflexivity].
    destruct (j_completed_at j) as [t |]; [| right; left; reflexivity].
    cbn [andb]. intros H. apply Z.ltb_ge in H.
    right. right. exists t. split; [reflexivity | exact H].
  - intros [H | [H | [t [H Ht]]]]; rewrite H; [reflexivity | |].
    + apply andb_false_r.
    + apply andb_false_iff. right. apply Z.ltb_ge. exact Ht.
Qed.

Lemma partition_length {A : Type} (p : A -> bool) (l : list A) :
  (List.length (filter p l) + List.length (filter (fun x => negb (p x)) l)
   = List.length l)%nat.
Proof.
  induction l as [| x l IH]; simpl; [reflexivity |].
  destruct (p x); simpl; lia.
Qed.

(** X9. The hourly purge removes exactly the jobs that are completed or
    failed and whose completion lies more than 30 days back: a job that is
    pending, processing or streaming, or has no completion time, is always
    kept.  The row count it reports is the number removed, running it again
    at the same time removes nothing, and whatever survives a later run
    survived this one. *)
Theorem purge_removes_only_old_finished_jobs (now : Z) (jobs : list job_row) :
  let kept := fst (cleanupOldJobs now jobs) in
  (forall j,
      In j kept
      <-> In j jobs
          /\ (terminal (j_status j) = false
              \/ j_completed_at j = None
              \/ exists t, j_completed_at j = Some t /\ now - retention <= t))
  /\ snd (cleanupOldJobs now jobs) + Z.of_nat (List.length kept)
     = Z.of_nat (List.length jobs)
  /\ cleanupOldJobs now kept = (kept, 0)
  /\ (forall later j,
        now <= later -> In j (fst (cleanupOldJobs later jobs)) -> In j kept).
Proof.
  cbn [cleanupOldJobs fst snd]. split; [| split; [| split]].
  - intros j. rewrite filter_In, negb_true_iff, purged_spec. reflexivity.
  - rewrite <- Nat2Z.inj_add, partition_length. reflexivity.
  - unfold cleanupOldJobs. f_equal.
    + induction jobs as [| j jobs IH]; simpl; [reflexivity |].
      destruct (purged now j) eqn:E; simpl; [exact IH |].
      rewrite E. simpl. f_equal. exact IH.
    + induction jobs as [| j jobs IH]; simpl; [reflexivity |].
      destruct (purged now j) eqn:E; simpl; [exact IH |].
      rewrite E. exact IH.
  - intros later j Hle H. apply filter_In in H. destruct H as [Hin H].
    apply filter_In. split; [exact Hin |].
    apply negb_true_iff in H. apply negb_true_iff.
    apply purged_spec in H. apply purged_spec.
    destruct H as [H | [H | [t [H Ht]]]]; [left | right; left | right; right];
      try exact H.
    exists t. split; [exact H | lia].
Qed.

(** X10. The job row that [/process] leaves behind when the provider call
    raises is still in status [processing], and no purge, however late,
    ever removes it. *)
Theorem failed_process_job_is_never_purged (a : app) (req : request)
    (s : state) (modelInfo : Orchestrator.model_row) (p : provider_object)
    (f : string -> options -> Z * outcome generation)
    (latency : Z) (e : js_error) :
  validationErrors req = [] ->
  Spec.resolves a (clock s) req modelInfo p ->
  Spec.no_outer_startTime s ->
  p_generateText p = Some f ->
  f (body_prompt req) (Spec.passed_options a (clock s) req)
  = (latency, Throw e) ->
  forall later,
  exists j,
    In j (fst (cleanupOldJobs later (ai_jobs (snd (run (process a req) s)))))
    /\ j_id j = uuidv4 a (drawn s)
    /\ j_status j = processing.
Proof.
  intros Hv Hres Hs Hf He later.
  destruct (process_when_provider_throws a req s modelInfo p f latency e
              Hv Hres Hs Hf He) as (_ & Hjobs & _).
  rewrite Hjobs.
  exists (set_processing (Orchestrator.m_id modelInfo)
            (pending_job (uuidv4 a (drawn s)) req)).
  split; [| split; reflexivity].
  cbn [cleanupOldJobs fst]. apply filter_In. split; [| reflexivity].
  rewrite map_app. apply in_or_app. right. cbn [map pending_job j_id].
  rewrite String.eqb_refl. left. reflexivity.
Qed.

Lemma failed_process_job_is_never_purged_witness :
  exists j,
    In j (fst (cleanupOldJobs (5000 + 400 * retention)
                 (ai_jobs (snd (run (process Scenario.deployment
                                       (Scenario.ask "Explain X" (Some "gpt-4")))
                                  Scenario.idle)))))
    /\ j_id j = "job-0"
    /\ j_status j = processing.
Proof.
  apply (failed_process_job_is_never_purged Scenario.deployment
           (Scenario.ask "Explain X" (Some "gpt-4")) Scenario.idle
           (hd Scenario.stored_mixtral
               (Orchestrator.lookup Scenario.registry "gpt-4"))
           (openai Scenario.backend) (generateText Scenario.backend)
           250 Scenario.upstream_timeout);
    try reflexivity.
  split; [reflexivity |]. split; [exists []; reflexivity | reflexivity].
Defined.

End Upkeep.

(** ** Model availability *)

Section AvailabilityCache.

Import Orchestrator Housekeeping.

Lemma own_hDel_other (h : availability) (k k' : string) :
  k' <> k -> JS.own (hDel h k) k' = JS.own h k'.
Proof.
  intros Hne. induction h as [| [k0 v] h IH]; [reflexivity |].
  cbn [hDel JS.own].
  destruct (String.eqb_spec k0 k) as [-> | H0].
  - rewrite IH. destruct (String.eqb_spec k k') as [E | _];
      [symmetry in E; contradiction | reflexivity].
  - cbn [JS.own]. rewrite IH. reflexivity.
Qed.

Lemma hGet_hSet (h : availability) (k k' : string) (v : bool) :
  hGet (hSet h k v) k'
  = if String.eqb k k' then Some v else hGet h k'.
Proof.
  unfold hGet, hSet. cbn [JS.own].
  destruct (String.eqb_spec k k') as [E | Hne]; [reflexivity |].
  apply own_hDel_other. intros E. apply Hne. symmetry. exact E.
Qed.

Lemma update_follows_probes (probes : list (string * (string -> bool)))
    (rows : list model_row) :
  NoDup (map m_name rows) ->
  forall h h',
    updateModelAvailability probes rows h = (h', true) ->
    (forall m probe,
        In m rows ->
        JS.get probes (m_provider m) = JS.Own probe ->
        hGet h' (m_name m) = Some (probe (m_name m)))
    /\ (forall n,
          (forall m, In m rows -> m_name m = n ->
                     JS.get probes (m_provider m) = JS.Undefined) ->
          hGet h' n = hGet h n).
Proof.
  induction rows as [| m0 rows IH]; intros Hnd h h' Hrun.
  - injection Hrun as <-. split; [intros m probe [] | reflexivity].
  - cbn [map] in Hnd. inversion Hnd as [| ? ? Hfresh Hnd']; subst.
    cbn [updateModelAvailability] in Hrun.
    assert (Hnone : forall m, In m rows -> m_name m = m_name m0 ->
                      JS.get probes (m_provider m) = JS.Undefined).
    { intros m Hin E. exfalso. apply Hfresh. rewrite <- E.
      apply in_map. exact Hin. }
    destruct (JS.get probes (m_provider m0)) as [probe0 | |] eqn:E0.
    + destruct (IH Hnd' _ _ Hrun) as [IH1 IH2]. split.
      * intros m probe [<- | Hin] Hp.
        -- rewrite E0 in Hp. injection Hp as <-.
           rewrite (IH2 (m_name m0) Hnone), hGet_hSet, String.eqb_refl.
           reflexivity.
        -- apply IH1; assumption.
      * intros n Hall.
        rewrite (IH2 n), hGet_hSet.
        -- destruct (String.eqb_spec (m_name m0) n) as [E | _];
             [| reflexivity].
           specialize (Hall m0 (or_introl eq_refl) E). congruence.
        -- intros m Hin. apply Hall. right. exact Hin.
    + discriminate.
    + destruct (IH Hnd' _ _ Hrun) as [IH1 IH2]. split.
      * intros m probe [<- | Hin] Hp; [congruence |].
        apply IH1; assumption.
      * intros n Hall. apply IH2.
        intros m Hin. apply Hall. right. exact Hin.
Qed.

Lemma active_names_unique (table : list model_row) :
  Spec.unique_names table -> NoDup (map m_name (active_models table)).
Proof.
  unfold Spec.unique_names, active_models.
  induction table as [| r table IH]; intros Hnd; [constructor |].
  cbn [map] in Hnd. inversion Hnd as [| ? ? Hfresh Hnd']; subst.
  cbn [filter]. destruct (m_is_active r); [| apply IH; exact Hnd'].
  cbn [map]. constructor; [| apply IH; exact Hnd'].
  intros Hin. apply Hfresh. apply in_map_iff in Hin.
  destruct Hin as [x [Hx Hin]]. apply filter_In in Hin.
  rewrite <- Hx. apply in_map. tauto.
Qed.

(** X11. After a refresh that ran to its end, every active model whose
    provider is registered is reported with the result of that provider's
    probe; the entry of any other name is what it was before, and a name
    that never had an entry is reported available. *)
Theorem availability_follows_probes
    (probes : list (string * (string -> bool)))
    (table : list model_row) (h h' : availability) :
  Spec.unique_names table ->
  updateModelAvailability probes (active_models table) h = (h', true) ->
  (forall m probe,
      In m table -> m_is_active m = true ->
      JS.get probes (m_provider m) = JS.Own probe ->
      reported_available h' (m_name m) = probe (m_name m))
  /\ (forall n,
        (forall m, In m table -> m_is_active m = true -> m_name m = n ->
                   JS.get probes (m_provider m) = JS.Undefined) ->
        hGet h' n = hGet h n
        /\ (hGet h n = None -> reported_available h' n = true)).
Proof.
  intros Hnd Hrun.
  destruct (update_follows_probes probes (active_models table)
              (active_names_unique table Hnd) h h' Hrun) as [H1 H2].
  split.
  - intros m probe Hin Hact Hp. unfold reported_available.
    rewrite (H1 m probe); [reflexivity | | exact Hp].
    apply filter_In. split; assumption.
  - intros n Hall.
    assert (E : hGet h' n = hGet h n).
    { apply H2. intros m Hin. apply filter_In in Hin.
      destruct Hin as [Hin Hact]. apply Hall; assumption. }
    split; [exact E |]. intros Hnone. unfold reported_available.
    rewrite E, Hnone. reflexivity.
Qed.

Lemma availability_follows_probes_witness :
  let probes := [("openai", fun n => String.eqb n "gpt-4")] in
  exists h',
    updateModelAvailability probes (active_models Scenario.registry) []
    = (h', true)
    /\ reported_available h' "gpt-3.5-turbo" = false
    /\ reported_available h' "llama2-7b" = true.
Proof.
  assert (Hnd : Spec.unique_names Scenario.registry).
  { unfold Spec.unique_names. vm_compute.
    repeat constructor; simpl; intuition discriminate. }
  eexists. split; [reflexivity |].
  destruct (availability_follows_probes
              [("openai", fun n => String.eqb n "gpt-4")]
              Scenario.registry [] _ Hnd eq_refl) as [H1 H2].
  split.
  - apply (H1 Scenario.turbo_row (fun n => String.eqb n "gpt-4"));
      [right; left; reflexivity | reflexivity | reflexivity].
  - apply (H2 "llama2-7b"); [| reflexivity].
    intros m Hin Hact Hn.
    repeat (destruct Hin as [<- | Hin]; [try discriminate Hn; reflexivity |]).
    destruct Hin.
Defined.

End AvailabilityCache.

(** ** Model registration at start-up *)

Section RegistrationFold.

Import Orchestrator.

Variable now : Z.

Lemma lookup_upsert_other (table : list model_row) (m : model_spec)
    (n : string) :
  n <> name m -> lookup (upsert now table m) n = lookup table n.
Proof.
  intros Hne. unfold lookup, upsert.
  destruct (existsb (has_name (name m)) table).
  - induction table as [| r table IH]; [reflexivity |].
    cbn [map filter]. rewrite IH.
    destruct (has_name (name m) r) eqn:Hr; [| reflexivity].
    rewrite has_name_refresh.
    assert (E : has_name n r = false).
    { unfold has_name in *. apply String.eqb_eq in Hr.
      apply String.eqb_neq. congruence. }
    rewrite E. reflexivity.
  - rewrite filter_app. cbn [filter].
    assert (E : has_name n (fresh_row m now (List.length table)) = false).
    { unfold has_name. cbn [m_name fresh_row]. apply String.eqb_neq.
      intros E. apply Hne. symmetry. exact E. }
    rewrite E. apply app_nil_r.
Qed.

Lemma upsert_keeps_rows (table : list model_row) (m : model_spec)
    (r : model_row) :
  In r table ->
  exists r',
    In r' (upsert now table m)
    /\ m_id r' = m_id r /\ m_name r' = m_name r
    /\ m_provider r' = m_provider r /\ m_model_type r' = m_model_type r
    /\ m_is_active r' = m_is_active r.
Proof.
  intros Hin. unfold upsert.
  destruct (existsb (has_name (name m)) table).
  - exists (if has_name (name m) r then refresh m now r else r).
    split.
    + apply (in_map (fun r => if has_name (name m) r then refresh m now r
                              else r)). exact Hin.
    + destruct (has_name (name m) r); repeat split.
  - exists r. split; [apply in_or_app; left; exact Hin | repeat split].
Qed.

Lemma fold_keeps_names_unique (specs : list model_spec)
    (table : list model_row) :
  Spec.unique_names table ->
  Spec.unique_names (fold_left (upsert now) specs table).
Proof.
  revert table. induction specs as [| m specs IH]; intros table Hnd;
    [exact Hnd |].
  cbn [fold_left]. apply IH. apply upsert_keeps_names_unique. exact Hnd.
Qed.

Lemma fold_lookup_other (specs : list model_spec) (table : list model_row)
    (n : string) :
  ~ In n (map name specs) ->
  lookup (fold_left (upsert now) specs table) n = lookup table n.
Proof.
  revert table. induction specs as [| m specs IH]; intros table Hn;
    [reflexivity |].
  cbn [fold_left]. rewrite IH.
  - apply lookup_upsert_other. intros E. apply Hn. left. symmetry. exact E.
  - intros Hin. apply Hn. right. exact Hin.
Qed.

Lemma fold_keeps_rows (specs : list model_spec) (table : list model_row)
    (r : model_row) :
  In r table ->
  exists r',
    In r' (fold_left (upsert now) specs table)
    /\ m_id r' = m_id r /\ m_name r' = m_name r
    /\ m_provider r' = m_provider r /\ m_model_type r' = m_model_type r
    /\ m_is_active r' = m_is_active r.
Proof.
  revert table r. induction specs as [| m specs IH]; intros table r Hin.
  - exists r. repeat split. exact Hin.
  - cbn [fold_left].
    destruct (upsert_keeps_rows table m r Hin)
      as (r1 & Hin1 & Hid & Hn & Hp & Ht & Ha).
    destruct (IH _ r1 Hin1) as (r' & Hin' & Hid' & Hn' & Hp' & Ht' & Ha').
    exists r'. split; [exact Hin' |]. repeat split; congruence.
Qed.

Lemma fold_length (specs : list model_spec) (table : list model_row) :
  (List.length table <= List.length (fold_left (upsert now) specs table)
   <= List.length table + List.length specs)%nat.
Proof.
  revert table. induction specs as [| m specs IH]; intros table;
    cbn [fold_left List.length]; [lia |].
  specialize (IH (upsert now table m)). rewrite upsert_length in IH.
  destruct (existsb (has_name (name m)) table); lia.
Qed.

(** X12. Registering the configured models never removes a stored row and
    never changes the id, name, provider, type or active flag of one; it adds
    at most one row per configured model, keeps names unique, and leaves the
    rows of every name the configuration does not mention exactly as they
    were. *)
Theorem registration_preserves_stored_rows (table : list model_row)
    (cfg : modelConfig) :
  Spec.unique_names table ->
  let table' := registerModels now table cfg in
  Spec.unique_names table'
  /\ (forall n, ~ In n (map name (collect cfg)) ->
                lookup table' n = lookup table n)
  /\ (forall r, In r table ->
        exists r',
          In r' table'
          /\ m_id r' = m_id r /\ m_name r' = m_name r
          /\ m_provider r' = m_provider r /\ m_model_type r' = m_model_type r
          /\ m_is_active r' = m_is_active r)
  /\ (List.length table <= List.length table'
      <= List.length table + List.length (collect cfg))%nat.
Proof.
  intros Hnd table'. unfold table', registerModels.
  split; [apply fold_keeps_names_unique; exact Hnd |].
  split; [intros n; apply fold_lookup_other |].
  split; [intros r; apply fold_keeps_rows | apply fold_length].
Qed.

End RegistrationFold.

Lemma registration_preserves_stored_rows_witness :
  Spec.unique_names [Scenario.stored_mixtral]
  /\ Orchestrator.lookup
       (Orchestrator.registerModels 2000 [Scenario.stored_mixtral]
          Orchestrator.getDefaultModelConfig) "mixtral-8x7b"
     = [Scenario.stored_mixtral].
Proof.
  assert (Hnd : Spec.unique_names [Scenario.stored_mixtral]).
  { unfold Spec.unique_names. simpl. repeat constructor. intros []. }
  split; [exact Hnd |].
  destruct (registration_preserves_stored_rows 2000 [Scenario.stored_mixtral]
              Orchestrator.getDefaultModelConfig Hnd) as (_ & H & _).
  rewrite H; [reflexivity |].
  simpl. intuition discriminate.
Defined.

(** ** The handlers on their other paths *)

Section Serving.

Import OpenAIProvider Routes Housekeeping.

Ltac advance H :=
  lazy beta iota zeta delta
    [run try_catch block bind ret throw read declare Date_now draw_uuid
     insert_job update_job publish write end_response call_generateText
     call_generateTextStream invoked with_jobs with_frames
     process_attempt process_recover stream_attempt stream_recover
     ai_jobs published written ended calls clock drawn frames
     fst snd tl negb] in H;
  rewrite ?resolve_skip, ?resolve_hit in H.

Ltac execute H := repeat advance H.

Ltac fields s :=
  destruct s as [jobs pub wr en cl ck dr fr];
  cbn [ai_jobs published written ended calls clock drawn frames] in *.

Ltac conclude E :=
  rewrite E;
  cbn [fst snd ai_jobs published written ended calls clock drawn frames].

Lemma redis_get_expired (r : Redis.store) (k : string) (v : list string)
    (secs now t : Z) :
  secs <> 0 ->
  now + secs * 1000 <= t ->
  Redis.get (Redis.set r k v (Some secs) now) k t = None.
Proof.
  intros Hs Ht. unfold Redis.get, Redis.set. cbn [JS.own].
  rewrite String.eqb_refl. cbn [Redis.expires_at Redis.value].
  destruct (Z.eqb_spec secs 0) as [E | _]; [contradiction |].
  destruct (Z.leb_spec (now + secs * 1000) t); [reflexivity | lia].
Qed.

Lemma assignment_lapses_expiry
    (cfg : Orchestrator.modelConfig) (hw : Hardware.hardware_info)
    (t0 t : Z) (r r' : Redis.store) :
  Orchestrator.autoAssignModels cfg hw t0 r = Some r' ->
  t0 + 3600 * 1000 <= t ->
  Redis.get r' "assigned_models" t = None.
Proof.
  intros Hauto Ht. unfold Orchestrator.autoAssignModels in Hauto.
  destruct (Orchestrator.assignedModels cfg hw) as [l |]; [| discriminate].
  injection Hauto as <-. apply redis_get_expired; [discriminate | exact Ht].
Qed.

(** X14. The list [autoAssignModels] stores is gone one hour later: from
    then on a request that names no model is served gpt-3.5-turbo, whatever
    the list held. *)
Theorem assignment_lapses_after_an_hour
    (cfg : Orchestrator.modelConfig) (hw : Hardware.hardware_info)
    (t0 t : Z) (r : Redis.store) (a : app) (requested : option string) :
  Orchestrator.autoAssignModels cfg hw t0 r = Some (redis a) ->
  t0 + 3600 * 1000 <= t ->
  or_null requested = None ->
  Redis.get (redis a) "assigned_models" t = None
  /\ selectModel a t requested = Some "gpt-3.5-turbo".
Proof.
  intros Hauto Ht Hr.
  pose proof (assignment_lapses_expiry cfg hw t0 t r (redis a) Hauto Ht)
    as Hg.
  split; [exact Hg |].
  unfold selectModel, availableModels. rewrite Hr, Hg. reflexivity.
Qed.

Lemma assignment_lapses_after_an_hour_witness :
  selectModel
    {| initialized := true;
       providers := providers Scenario.deployment;
       ai_models := Scenario.registry;
       redis :=
         Redis.set [] "assigned_models" ["llama2-7b"; "llama2-13b"; "gpt-4"]
           (Some 3600) 1000;
       uuidv4 := uuidv4 Scenario.deployment |}
    3601000 None
  = Some "gpt-3.5-turbo".
Proof.
  apply (assignment_lapses_after_an_hour Orchestrator.getDefaultModelConfig
           (Spec.host_with_gpu 24) 1000 3601000 []
           {| initialized := true;
              providers := providers Scenario.deployment;
              ai_models := Scenario.registry;
              redis :=
                Redis.set [] "assigned_models"
                  ["llama2-7b"; "llama2-13b"; "gpt-4"] (Some 3600) 1000;
              uuidv4 := uuidv4 Scenario.deployment |} None);
    [reflexivity | lia | reflexivity].
Defined.

(** X15. [/process] for a model whose provider is not registered: the job
    row just inserted is marked failed with the provider's name in the
    message, the caller gets a 503, no provider is called and nothing is
    published. *)
Theorem process_provider_unavailable (a : app) (req : request) (s : state)
    (modelInfo : Orchestrator.model_row) (rest : list Orchestrator.model_row) :
  validationErrors req = [] ->
  initialized a = true ->
  Orchestrator.lookup_active (ai_models a)
    (selectModel a (clock s) (body_model req)) = modelInfo :: rest ->
  getProvider a (Orchestrator.m_provider modelInfo) = None ->
  let jobId := uuidv4 a (drawn s) in
  let name := Orchestrator.m_provider modelInfo in
  let mark := fun j =>
    if String.eqb (j_id j) jobId
    then set_failed ("Provider " ++ name ++ " not available") j else j in
  fst (run (process a req) s)
  = Ok {| status := 503;
          json := ProviderUnavailable
                    ("Provider " ++ name ++ " is not available") |}
  /\ ai_jobs (snd (run (process a req) s))
     = map mark (ai_jobs s ++ [pending_job jobId req])
  /\ calls (snd (run (process a req) s)) = calls s
  /\ published (snd (run (process a req) s)) = published s
  /\ get_job (ai_jobs (snd (run (process a req) s))) jobId <> JobNotFound.
Proof.
  intros Hv Hi Hl Hp. fields s.
  remember (run (process a req) _) as result eqn:E.
  unfold process in E. rewrite Hv, Hi in E. execute E.
  rewrite Hl, Hp in E. execute E.
  conclude E. split; [reflexivity |]. split; [reflexivity |].
  split; [reflexivity |]. split; [reflexivity |].
  unfold get_job. rewrite map_app, filter_app. cbn [map filter pending_job j_id].
  rewrite String.eqb_refl. cbn [set_failed j_id]. rewrite String.eqb_refl.
  destruct (filter _ (map _ jobs)); discriminate.
Qed.

Lemma process_provider_unavailable_witness :
  fst (run (process Scenario.deployment
              (Scenario.ask "Explain X" (Some "llama2-7b"))) Scenario.idle)
  = Ok {| status := 503;
          json := ProviderUnavailable "Provider local is not available" |}
  /\ map j_status
       (ai_jobs (snd (run (process Scenario.deployment
                             (Scenario.ask "Explain X" (Some "llama2-7b")))
                        Scenario.idle)))
     = [failed].
Proof.
  destruct (process_provider_unavailable Scenario.deployment
              (Scenario.ask "Explain X" (Some "llama2-7b")) Scenario.idle
              (hd Scenario.stored_mixtral
                 (Orchestrator.lookup Scenario.registry "llama2-7b")) []
              eq_refl eq_refl eq_refl eq_refl) as (H1 & H2 & _).
  split; [exact H1 |]. rewrite H2. reflexivity.
Defined.

(** X16. Before the orchestrator has finished initializing, a valid
    [/process] request is answered 503 and any [/stream] request is answered
    the same way; neither draws a job id, touches a table, publishes, writes
    an event or calls a provider. *)
Theorem uninitialized_service_changes_nothing (a : app) (req : request)
    (s : state) :
  initialized a = false ->
  (validationErrors req = [] ->
   run (process a req) s
   = (Ok {| status := 503; json := ServiceUnavailable |}, s))
  /\ run (stream a req) s = (Ok NotReady, s).
Proof.
  intros Hi. fields s. split.
  - intros Hv. remember (run (process a req) _) as result eqn:E.
    unfold process in E. rewrite Hv, Hi in E. execute E. exact E.
  - remember (run (stream a req) _) as result eqn:E.
    unfold stream in E. rewrite Hi in E. execute E. exact E.
Qed.

Lemma uninitialized_service_changes_nothing_witness :
  run (process Cases.starting (Scenario.ask "Explain X" None)) Scenario.idle
  = (Ok {| status := 503; json := ServiceUnavailable |}, Scenario.idle)
  /\ run (stream Cases.starting (Scenario.ask "Explain X" None)) Scenario.idle
     = (Ok NotReady, Scenario.idle).
Proof.
  destruct (uninitialized_service_changes_nothing Cases.starting
              (Scenario.ask "Explain X" None) Scenario.idle eq_refl)
    as [H1 H2].
  split; [apply H1; reflexivity | exact H2].
Defined.

(** X17. [/stream] for a model whose provider is not registered, or has no
    streaming method: the only event is the "not supported" failure, the
    response is ended, no job row is created although a job id was drawn, and
    no provider is called. *)
Theorem stream_without_streaming_support (a : app) (req : request) (s : state)
    (modelInfo : Orchestrator.model_row) (rest : list Orchestrator.model_row) :
  initialized a = true ->
  Orchestrator.lookup_active (ai_models a)
    (selectModel a (clock s) (body_model req)) = modelInfo :: rest ->
  match getProvider a (Orchestrator.m_provider modelInfo) with
  | Some p => p_generateTextStream p = None
  | None => True
  end ->
  fst (run (stream a req) s) = Ok EventStream
  /\ written (snd (run (stream a req) s))
     = (written s
        ++ [Failure "Streaming not supported for this provider"])%list
  /\ ended (snd (run (stream a req) s)) = true
  /\ ai_jobs (snd (run (stream a req) s)) = ai_jobs s
  /\ calls (snd (run (stream a req) s)) = calls s
  /\ drawn (snd (run (stream a req) s)) = S (drawn s).
Proof.
  intros Hi Hl Hp. fields s.
  remember (run (stream a req) _) as result eqn:E.
  unfold stream in E. rewrite Hi in E. execute E.
  rewrite Hl in E.
  destruct (getProvider a (Orchestrator.m_provider modelInfo)) as [p |];
    [rewrite Hp in E |]; execute E; conclude E; repeat split.
Qed.

Lemma stream_without_streaming_support_witness :
  written (snd (run (stream Scenario.deployment
                       (Scenario.ask "Explain X" (Some "llama2-7b")))
                  Scenario.idle))
  = [Failure "Streaming not supported for this provider"]
  /\ ai_jobs (snd (run (stream Scenario.deployment
                          (Scenario.ask "Explain X" (Some "llama2-7b")))
                     Scenario.idle)) = [].
Proof.
  destruct (stream_without_streaming_support Scenario.deployment
              (Scenario.ask "Explain X" (Some "llama2-7b")) Scenario.idle
              (hd Scenario.stored_mixtral
                 (Orchestrator.lookup Scenario.registry "llama2-7b")) []
              eq_refl eq_refl I) as (_ & H2 & _ & H4 & _).
  split; [exact H2 | exact H4].
Defined.

Lemma marked_rows (jobs : list job_row) (new : job_row) (id : string)
    (f : job_row -> job_row) :
  j_id new = id ->
  (forall x, terminal (j_status (f x)) = true) ->
  forall j,
    In j (map (fun j => if String.eqb (j_id j) id then f j else j)
            (jobs ++ [new])) ->
    In j jobs \/ terminal (j_status j) = true.
Proof.
  intros Hid Hf j Hin. apply in_map_iff in Hin. destruct Hin as [x [<- Hx]].
  destruct (String.eqb_spec (j_id x) id) as [_ | Hne]; [right; apply Hf |].
  apply in_app_or in Hx. destruct Hx as [Hx | [<- | []]];
    [left; exact Hx | contradiction].
Qed.

Lemma get_job_marked (jobs : list job_row) (new : job_row) (id : string)
    (f : job_row -> job_row) :
  (forall j, In j jobs -> j_id j <> id) ->
  j_id new = id ->
  j_id (f new) = id ->
  get_job (map (fun j => if String.eqb (j_id j) id then f j else j)
             (jobs ++ [new])) id
  = JobData (f new).
Proof.
  intros Hfresh Hnew Hf. unfold get_job. rewrite map_app, filter_app.
  assert (E : filter (fun j => String.eqb (j_id j) id)
                (map (fun j => if String.eqb (j_id j) id then f j else j) jobs)
              = []).
  { induction jobs as [| x jobs IH]; [reflexivity |].
    cbn [map filter].
    assert (Hx : String.eqb (j_id x) id = false)
      by (apply String.eqb_neq; apply Hfresh; left; reflexivity).
    rewrite Hx, Hx. apply IH. intros j Hin. apply Hfresh. right. exact Hin. }
  rewrite E. cbn [map filter List.app].
  assert (Hn : String.eqb (j_id new) id = true)
    by (apply String.eqb_eq; exact Hnew).
  rewrite Hn.
  assert (Hfn : String.eqb (j_id (f new)) id = true)
    by (apply String.eqb_eq; exact Hf).
  rewrite Hfn. reflexivity.
Qed.

Lemma get_job_others (jobs : list job_row) (new : job_row) (id id' : string)
    (f : job_row -> job_row) :
  id' <> id ->
  j_id new = id ->
  (forall x, j_id (f x) = j_id x) ->
  get_job (map (fun j => if String.eqb (j_id j) id then f j else j)
             (jobs ++ [new])) id'
  = get_job jobs id'.
Proof.
  intros Hne Hnew Hf. unfold get_job. rewrite map_app, filter_app.
  assert (Hid : String.eqb id id' = false).
  { apply String.eqb_neq. intros E. apply Hne. symmetry. exact E. }
  assert (E : filter (fun j => String.eqb (j_id j) id')
                (map (fun j => if String.eqb (j_id j) id then f j else j) jobs)
              = filter (fun j => String.eqb (j_id j) id') jobs).
  { induction jobs as [| x jobs IH]; [reflexivity |].
    cbn [map filter]. rewrite IH.
    destruct (String.eqb_spec (j_id x) id) as [Hx | _]; [| reflexivity].
    rewrite Hf, Hx, Hid. reflexivity. }
  rewrite E. cbn [map filter].
  assert (Hn : String.eqb (j_id new) id = true)
    by (apply String.eqb_eq; exact Hnew).
  rewrite Hn, Hf, Hnew, Hid. rewrite app_nil_r. reflexivity.
Qed.

(** X18. Whatever the request and whatever the provider does, [/stream]
    leaves behind no unfinished work: every row of [ai_jobs] afterwards was
    there before or is completed or failed; at most one row is added and none
    removed; nothing is published; and once the service is initialized the
    response is always ended. *)
Theorem stream_leaves_only_finished_rows (a : app) (req : request)
    (s : state) :
  (forall j, In j (ai_jobs (snd (run (stream a req) s))) ->
             In j (ai_jobs s) \/ terminal (j_status j) = true)
  /\ (List.length (ai_jobs s)
      <= List.length (ai_jobs (snd (run (stream a req) s)))
      <= S (List.length (ai_jobs s)))%nat
  /\ published (snd (run (stream a req) s)) = published s
  /\ (initialized a = true -> ended (snd (run (stream a req) s)) = true).
Proof.
  fields s.
  remember (run (stream a req) _) as result eqn:E.
  unfold stream in E.
  destruct (initialized a) eqn:Hi; execute E;
    [| conclude E; repeat split; try lia; try discriminate; tauto].
  destruct (Orchestrator.lookup_active (ai_models a)
              (selectModel a ck (body_model req))) as [| modelInfo rest];
    execute E; [conclude E; repeat split; try lia; tauto |].
  destruct (match getProvider a (Orchestrator.m_provider modelInfo) with
            | Some p => p_generateTextStream p
            | None => None
            end) as [generate |];
    execute E; [| conclude E; repeat split; try lia; tauto].
  destruct (generate (body_prompt req)
              (provider_options (selectModel a ck (body_model req))
                 (options_of req))) as [[latency notes] r].
  rewrite (deliver_appends _
             (fun c => Chunk (uuidv4 a dr) (chunk c) (tokenCount c)))
    in E by reflexivity.
  destruct r as [g | e]; execute E; conclude E;
    (split; [apply marked_rows; [reflexivity | reflexivity] |]);
    rewrite length_map, length_app; cbn [List.length];
    repeat split; lia.
Qed.

(** X19. The job a stream created can be fetched by its id afterwards: ids
    being fresh, [GET /jobs/:jobId] finds the streaming row, under the id of
    the resolved model and with prompt and metadata as inserted, finalized
    with the outcome of the provider call: completed with response, token
    count, elapsed time and completion time, or failed with the error
    message, elapsed time and completion time.  The answer for every other id
    is what it was before.  (The cost column is left out: it holds the cost
    rounded to six decimals.) *)
Theorem streamed_job_can_be_fetched (a : app) (req : request) (s : state)
    (modelInfo : Orchestrator.model_row) (p : provider_object)
    (generate : string -> options -> Z * list chunk_note * outcome generation)
    (latency : Z) (notes : list chunk_note) (r : outcome generation) :
  Spec.resolves a (clock s) req modelInfo p ->
  p_generateTextStream p = Some generate ->
  generate (body_prompt req) (Spec.passed_options a (clock s) req)
  = (latency, notes, r) ->
  (forall j, In j (ai_jobs s) -> j_id j <> uuidv4 a (drawn s)) ->
  let jobId := uuidv4 a (drawn s) in
  let elapsed := clock s + latency - clock s in
  let created := streaming_job jobId req modelInfo in
  (exists j,
     get_job (ai_jobs (snd (run (stream a req) s))) jobId = JobData j
     /\ j_id j = jobId
     /\ j_tenant_id j = j_tenant_id created
     /\ j_user_id j = j_user_id created
     /\ j_model_id j = Some (Orchestrator.m_id modelInfo)
     /\ j_prompt j = body_prompt req
     /\ j_metadata j = j_metadata created
     /\ j_processing_time j = Some elapsed
     /\ j_completed_at j = Some (clock s + latency)
     /\ match r with
        | Ok g =>
            j_status j = completed
            /\ j_response j = Some (gen_response g)
            /\ j_tokens_used j = Some (total_tokens (gen_usage g))
            /\ j_error_message j = None
        | Throw e =>
            j_status j = failed
            /\ j_error_message j = Some (err_message e)
            /\ j_response j = None
            /\ j_tokens_used j = None
        end)
  /\ (forall id, id <> jobId ->
        get_job (ai_jobs (snd (run (stream a req) s))) id
        = get_job (ai_jobs s) id).
Proof.
  intros Hres Hg He Hfresh jobId elapsed created.
  destruct (stream_events a req s modelInfo p generate latency notes r
              Hres Hg He) as (_ & _ & _ & Hjobs & _).
  fold jobId elapsed created in Hjobs. rewrite Hjobs. split.
  - eexists. split.
    + apply (get_job_marked (ai_jobs s) created jobId
               (fun j => match r with
                         | Ok g => set_completed g elapsed (clock s + latency) j
                         | Throw e =>
                             set_failed_timed (err_message e) elapsed
                               (clock s + latency) j
                         end));
        [exact Hfresh | reflexivity | destruct r; reflexivity].
    + destruct r; repeat split.
  - intros id Hid.
    apply (get_job_others (ai_jobs s) created jobId id
               (fun j => match r with
                         | Ok g => set_completed g elapsed (clock s + latency) j
                         | Throw e =>
                             set_failed_timed (err_message e) elapsed
                               (clock s + latency) j
                         end));
      [exact Hid | reflexivity | intros x; destruct r; reflexivity].
Qed.

Lemma streamed_job_can_be_fetched_witness :
  exists j,
    get_job (ai_jobs (snd (run (stream Scenario.deployment
                                  (Scenario.ask "Explain X" None))
                             Scenario.idle))) "job-0"
    = JobData j
    /\ j_status j = completed
    /\ j_response j = Some "Hello, world"
    /\ j_tokens_used j = Some 4
    /\ j_processing_time j = Some 40
    /\ j_completed_at j = Some 5040.
Proof.
  assert (Hres : Spec.resolves Scenario.deployment (clock Scenario.idle)
                   (Scenario.ask "Explain X" None)
                   Scenario.turbo_row (openai Scenario.backend)).
  { split; [reflexivity |]. split; [exists []; reflexivity | reflexivity]. }
  destruct (streamed_job_can_be_fetched Scenario.deployment
              (Scenario.ask "Explain X" None) Scenario.idle
              Scenario.turbo_row (openai Scenario.backend)
              (generateTextStream Scenario.backend) _ _ _
              Hres eq_refl eq_refl (fun j (H : In j []) => False_ind _ H))
    as [(j & H & _ & _ & _ & _ & _ & _ & Ht & Hc & Hs & Hr & Hu & _) _].
  exists j. split; [exact H |]. split; [exact Hs |]. split; [exact Hr |].
  split; [exact Hu |]. split; [exact Ht | exact Hc].
Defined.

(** X20. The job a successful [/process] call created can be fetched by
    its id afterwards: ids being fresh, [GET /jobs/:jobId] finds the row
    completed with the text and token count the caller was answered with,
    the elapsed time of the answer and the completion time, under the id of
    the resolved model and with prompt and metadata as inserted.  The answer
    for every other id is what it was before.  (The cost column is left out:
    it holds the cost rounded to six decimals, not the figure of the
    answer.) *)
Theorem processed_job_can_be_fetched (a : app) (req : request) (s : state)
    (modelInfo : Orchestrator.model_row) (p : provider_object)
    (f : string -> options -> Z * outcome generation)
    (latency : Z) (g : generation) :
  validationErrors req = [] ->
  Spec.resolves a (clock s) req modelInfo p ->
  p_generateText p = Some f ->
  f (body_prompt req) (Spec.passed_options a (clock s) req)
  = (latency, Ok g) ->
  (forall j, In j (ai_jobs s) -> j_id j <> uuidv4 a (drawn s)) ->
  let jobId := uuidv4 a (drawn s) in
  let elapsed := clock s + latency - clock s in
  let inserted := pending_job jobId req in
  fst (run (process a req) s)
  = Ok {| status := 200;
          json := Success jobId (gen_response g)
                    (selectModel a (clock s) (body_model req))
                    (gen_provider g) (gen_usage g) (gen_cost g) elapsed |}
  /\ (exists j,
        get_job (ai_jobs (snd (run (process a req) s))) jobId = JobData j
        /\ j_id j = jobId
        /\ j_tenant_id j = j_tenant_id inserted
        /\ j_user_id j = j_user_id inserted
        /\ j_model_id j = Some (Orchestrator.m_id modelInfo)
        /\ j_prompt j = body_prompt req
        /\ j_metadata j = j_metadata inserted
        /\ j_status j = completed
        /\ j_response j = Some (gen_response g)
        /\ j_tokens_used j = Some (total_tokens (gen_usage g))
        /\ j_error_message j = None
        /\ j_processing_time j = Some elapsed
        /\ j_completed_at j = Some (clock s + latency))
  /\ (forall id, id <> jobId ->
        get_job (ai_jobs (snd (run (process a req) s))) id
        = get_job (ai_jobs s) id).
Proof.
  intros Hv Hres Hf He Hfresh jobId elapsed inserted.
  destruct (process_when_provider_returns a req s modelInfo p f latency g
              Hv Hres Hf He) as (Hreply & Hjobs & _).
  fold jobId elapsed in Hreply, Hjobs.
  split; [exact Hreply |].
  rewrite Hjobs, map_map.
  rewrite (map_ext _
             (fun j => if String.eqb (j_id j) jobId
                       then set_completed g elapsed (clock s + latency)
                              (set_processing (Orchestrator.m_id modelInfo) j)
                       else j)).
  2:{ intros j. destruct (String.eqb (j_id j) jobId) eqn:Ej.
      - cbn [set_processing j_id]. rewrite Ej. reflexivity.
      - rewrite Ej. reflexivity. }
  split.
  { eexists. split.
    - apply (get_job_marked (ai_jobs s) inserted jobId
               (fun j => set_completed g elapsed (clock s + latency)
                           (set_processing (Orchestrator.m_id modelInfo) j)));
        [exact Hfresh | reflexivity | reflexivity].
    - repeat split. }
  intros id Hid.
  apply (get_job_others (ai_jobs s) inserted jobId id
           (fun j => set_completed g elapsed (clock s + latency)
                       (set_processing (Orchestrator.m_id modelInfo) j)));
    [exact Hid | reflexivity | reflexivity].
Qed.

Lemma processed_job_can_be_fetched_witness :
  exists j,
    get_job (ai_jobs (snd (run (process Cases.serving
                                  (Scenario.ask "Capital of France?" None))
                             Scenario.idle))) "job-0"
    = JobData j
    /\ j_status j = completed
    /\ j_response j = Some "Paris"
    /\ j_tokens_used j = Some 12
    /\ j_processing_time j = Some 120.
Proof.
  assert (Hres : Spec.resolves Cases.serving (clock Scenario.idle)
                   (Scenario.ask "Capital of France?" None)
                   Scenario.turbo_row (openai Cases.answering)).
  { split; [reflexivity |]. split; [exists []; reflexivity | reflexivity]. }
  destruct (processed_job_can_be_fetched Cases.serving
              (Scenario.ask "Capital of France?" None) Scenario.idle
              Scenario.turbo_row (openai Cases.answering)
              (generateText Cases.answering) _ _
              eq_refl Hres eq_refl eq_refl
              (fun j (H : In j []) => False_ind _ H))
    as (_ & (j & H & _ & _ & _ & _ & _ & _ & Hs & Hr & Hu & _ & Ht & _) & _).
  exists j. split; [exact H |]. split; [exact Hs |]. split; [exact Hr |].
  split; [exact Hu | exact Ht].
Defined.

(** X21. A model named inside [options] wins over the model the handler
    selected: both handlers look the selected model up and record its id on
    the job, yet the provider is called with the model of [options], and that
    is the model the OpenAI adapter asks its backend for. *)
Theorem options_model_overrides_selection (a : app) (req : request)
    (s : state) (modelInfo : Orchestrator.model_row) (p : provider_object)
    (m' : string) :
  opt_model (options_of req) = Some m' ->
  Spec.resolves a (clock s) req modelInfo p ->
  let passed :=
    {| opt_model := Some m';
       opt_maxTokens := opt_maxTokens (options_of req) |} in
  (forall f,
      validationErrors req = [] ->
      p_generateText p = Some f ->
      calls (snd (run (process a req) s))
      = (calls s ++ [GenerateText (body_prompt req) passed])%list)
  /\ (forall f,
        p_generateTextStream p = Some f ->
        calls (snd (run (stream a req) s))
        = (calls s ++ [GenerateTextStream (body_prompt req) passed])%list
        /\ last (map j_model_id (ai_jobs (snd (run (stream a req) s)))) None
           = Some (Orchestrator.m_id modelInfo))
  /\ model_of passed = m'.
Proof.
  intros Ho Hres passed.
  assert (Hpassed : Spec.passed_options a (clock s) req = passed).
  { unfold Spec.passed_options, provider_options. rewrite Ho. reflexivity. }
  split; [| split; [| reflexivity]].
  - intros f Hv Hf.
    rewrite (process_invokes_provider a req s modelInfo p f Hv Hres Hf).
    rewrite Hpassed. reflexivity.
  - intros f Hf.
    destruct (f (body_prompt req) (Spec.passed_options a (clock s) req))
      as [[latency notes] r] eqn:E.
    destruct (stream_events a req s modelInfo p f latency notes r Hres Hf E)
      as (_ & _ & _ & Hjobs & Hcalls).
    rewrite Hcalls, Hpassed. split; [reflexivity |].
    rewrite Hjobs, !map_app. cbn [map]. rewrite last_last.
    cbn [streaming_job j_id]. rewrite String.eqb_refl.
    destruct r; reflexivity.
Qed.

Lemma options_model_overrides_selection_witness :
  selectModel Cases.serving 5000 None = Some "gpt-3.5-turbo"
  /\ calls (snd (run (process Cases.serving
                        (Cases.ask_with "Capital of France?" None
                           {| opt_model := Some "gpt-4";
                              opt_maxTokens := None |}))
                   Scenario.idle))
     = [GenerateText "Capital of France?"
          {| opt_model := Some "gpt-4"; opt_maxTokens := None |}].
Proof.
  split; [reflexivity |].
  assert (Hres : Spec.resolves Cases.serving (clock Scenario.idle)
                   (Cases.ask_with "Capital of France?" None
                      {| opt_model := Some "gpt-4"; opt_maxTokens := None |})
                   Scenario.turbo_row (openai Cases.answering)).
  { split; [reflexivity |]. split; [exists []; reflexivity | reflexivity]. }
  apply (proj1 (options_model_overrides_selection Cases.serving
                  (Cases.ask_with "Capital of France?" None
                     {| opt_model := Some "gpt-4"; opt_maxTokens := None |})
                  Scenario.idle Scenario.turbo_row (openai Cases.answering)
                  "gpt-4" eq_refl Hres)
           (generateText Cases.answering) eq_refl eq_refl).
Defined.

End Serving.

(** ** The streamed text *)

Section StreamedText.

Import OpenAIProvider.

Lemma length_append (a b : string) :
  String.length (a ++ b) = (String.length a + String.length b)%nat.
Proof. induction a as [| ch a IH]; simpl; [reflexivity | rewrite IH; reflexivity]. Qed.

Lemma append_assoc (a b c : string) : ((a ++ b) ++ c = a ++ (b ++ c))%string.
Proof. induction a as [| ch a IH]; simpl; [reflexivity | rewrite IH; reflexivity]. Qed.

Lemma append_empty (a : string) : (a ++ "" = a)%string.
Proof. induction a as [| ch a IH]; simpl; [reflexivity | rewrite IH; reflexivity]. Qed.

Lemma estimateTokens_append (a b : string) :
  estimateTokens (a ++ b) <= estimateTokens a + estimateTokens b.
Proof.
  destruct (estimateTokens_is_ceiling (a ++ b)) as [Eab _].
  destruct (estimateTokens_is_ceiling a) as [Ea _].
  destruct (estimateTokens_is_ceiling b) as [Eb _].
  rewrite Eab, Ea, Eb, length_append, Nat2Z.inj_add.
  generalize (Nat2Z.is_nonneg (String.length a)).
  generalize (Nat2Z.is_nonneg (String.length b)).
  generalize (Z.of_nat (String.length a)) (Z.of_nat (String.length b)).
  intros x y Hy Hx. Z.to_euclidean_division_equations. lia.
Qed.

Lemma estimate_of_concat (texts : list string) :
  estimateTokens (String.concat "" texts) <= Spec.estimate_sum texts.
Proof.
  induction texts as [| t texts IH]; [vm_compute; discriminate |].
  change (Spec.estimate_sum (t :: texts))
    with (estimateTokens t + Spec.estimate_sum texts).
  destruct texts as [| t' texts].
  - cbn [String.concat Spec.estimate_sum fold_right]. lia.
  - change (String.concat "" (t :: t' :: texts))
      with (t ++ "" ++ String.concat "" (t' :: texts))%string.
    cbn [append].
    pose proof (estimateTokens_append t (String.concat "" (t' :: texts))).
    lia.
Qed.

Lemma concat_cons (t : string) (texts : list string) :
  String.concat "" (t :: texts) = (t ++ String.concat "" texts)%string.
Proof.
  destruct texts as [| t' texts]; [symmetry; apply append_empty | reflexivity].
Qed.

(** The loop of [generateTextStream] against the text it accumulates. *)
Lemma consume_text (its : list (option string)) (full : string) (sofar : Z) :
  map chunk (fst (consume its full sofar)) = Spec.fragments its
  /\ map fullResponse (fst (consume its full sofar))
     = Cases.running full (Spec.fragments its)
  /\ fst (snd (consume its full sofar))
     = (full ++ String.concat "" (Spec.fragments its))%string.
Proof.
  revert full sofar. induction its as [| it its IH]; intros full sofar.
  - cbn. repeat split. symmetry. apply append_empty.
  - unfold Spec.fragments in *. cbn [consume map filter].
    destruct (String.eqb (match it with Some s => s | None => "" end) "").
    + cbn [negb]. apply IH.
    + cbn [negb].
      specialize (IH (full ++ match it with Some s => s | None => "" end)%string
                     (sofar + estimateTokens
                                (match it with Some s => s | None => "" end))).
      destruct (consume its _ _) as [notes final].
      cbn [fst snd map chunk fullResponse Cases.running] in *.
      destruct IH as (IH1 & IH2 & IH3).
      split; [f_equal; exact IH1 |]. split; [f_equal; exact IH2 |].
      rewrite IH3, concat_cons, append_assoc. reflexivity.
Qed.

(** X22. What the OpenAI adapter returns for a stream: [onChunk] is called
    once per non-empty fragment, in order, with the text accumulated so far;
    the call fails exactly when the iteration does, with that error;
    otherwise the response is the fragments concatenated, for the model of the
    options or gpt-3.5-turbo, and the token count, the sum of the per-fragment
    estimates, is never below the estimate of the whole response. *)
Theorem streamed_response_is_concatenation (c : client) (prompt : string)
    (o : options) :
  let request :=
    {| rq_model := model_of o; rq_content := prompt;
       rq_max_tokens := maxTokens_of o; rq_stream := true |} in
  let source := snd (create_stream c request) in
  let texts := Spec.fragments (items source) in
  let notes := snd (fst (generateTextStream c prompt o)) in
  let r := snd (generateTextStream c prompt o) in
  fst (fst (generateTextStream c prompt o)) = fst (create_stream c request)
  /\ map chunk notes = texts
  /\ map fullResponse notes = Cases.running "" texts
  /\ (forall e, r = Throw e <-> failure source = Some e)
  /\ (forall g, r = Ok g ->
        gen_response g = String.concat "" texts
        /\ gen_model g = model_of o
        /\ prompt_tokens (gen_usage g) = None
        /\ total_tokens (gen_usage g) = Spec.estimate_sum texts
        /\ estimateTokens (gen_response g) <= total_tokens (gen_usage g)
        /\ gen_cost g = calculateCost (model_of o)
                          (number (Spec.estimate_sum texts))).
Proof.
  intros request source texts notes r.
  unfold notes, r, generateTextStream. fold request.
  subst texts source.
  destruct (create_stream c request) as [latency src]. cbn [snd fst].
  pose proof (consume_text (items src) "" 0) as (Hc & Hf & Ht).
  pose proof (consume_fragments "" (items src) "" 0) as [_ Hn].
  destruct (consume (items src) "" 0) as [notes' [full total]].
  cbn [fst snd] in Hc, Hf, Ht, Hn. cbn [append] in Ht.
  rewrite Z.add_0_l in Hn. subst full total.
  destruct (failure src) as [err |]; cbn [fst snd].
  - repeat split; try assumption; try congruence; discriminate.
  - repeat split; try assumption; try discriminate;
      match goal with
      | H : Ok _ = Ok _ |- _ => injection H as <-
      end; cbn [gen_response gen_model gen_usage gen_cost prompt_tokens
                total_tokens]; try reflexivity.
    apply estimate_of_concat.
Qed.

End StreamedText.

(** ** Tenant resolution *)

Section TenantResolution.

Import Tenancy.

Lemma or_null_some (h : option string) (id : string) :
  Routes.or_null h = Some id -> h = Some id /\ id <> "".
Proof.
  unfold Routes.or_null. destruct h as [v |]; [| discriminate].
  destruct (String.eqb_spec v ""); [discriminate |].
  intros E. injection E as <-. split; [reflexivity | assumption].
Qed.

Lemma subscription_check_next (t t' : tenant) :
  subscription_check t = Next t' -> t' = t /\ t_subscription_status t = Some "active".
Proof.
  unfold subscription_check. destruct (t_subscription_status t) as [status |];
    [| discriminate].
  destruct (String.eqb_spec status "active") as [-> | _]; [| discriminate].
  intros E. injection E as <-. split; reflexivity.
Qed.

Lemma cached_after_caching (c : cache) (id : string) (t : tenant)
    (now now' : Z) :
  now' < now + 3600 * 1000 ->
  getCachedTenant (cacheTenant c id t 3600 now) id now' = Some t.
Proof.
  intros Ht. unfold getCachedTenant, cacheTenant. cbn [JS.own].
  rewrite String.eqb_refl. cbn [c_expires_at c_value Z.eqb].
  destruct (Z.leb_spec (now + 3600 * 1000) now'); [lia | reflexivity].
Qed.

Lemma select_tenant_head (table : list tenant) (id : string) (t : tenant)
    (rest : list tenant) :
  select_tenant table id = t :: rest -> In t table /\ t_id t = id.
Proof.
  intros E.
  assert (Hin : In t (select_tenant table id)) by (rewrite E; left; reflexivity).
  apply filter_In in Hin. destruct Hin as [Hin Hid].
  split; [exact Hin | apply String.eqb_eq; exact Hid].
Qed.

(** X23. The middleware lets a request through only with a tenant id that
    is present and not empty, and only for a tenant whose subscription status
    is exactly "active"; the tenant comes from the cache, without a query, or
    else is the row of that id in [tenants], which is then cached and served
    from the cache during the following hour. *)
Theorem middleware_admits_only_active_tenants (table : list tenant)
    (c : cache) (now : Z) (tenantId : option string) (t : tenant) :
  answer (tenantMiddleware table c now tenantId) = Next t ->
  t_subscription_status t = Some "active"
  /\ exists id,
       tenantId = Some id /\ id <> ""
       /\ ((getCachedTenant c id now = Some t
            /\ queried (tenantMiddleware table c now tenantId) = false
            /\ cache_after (tenantMiddleware table c now tenantId) = c)
           \/ (getCachedTenant c id now = None
               /\ queried (tenantMiddleware table c now tenantId) = true
               /\ In t table /\ t_id t = id
               /\ forall now', now' < now + 3600 * 1000 ->
                    getCachedTenant
                      (cache_after (tenantMiddleware table c now tenantId))
                      id now' = Some t)).
Proof.
  unfold tenantMiddleware.
  destruct (Routes.or_null tenantId) as [id |] eqn:Hid; [| discriminate].
  destruct (or_null_some _ _ Hid) as [-> Hne].
  destruct (getCachedTenant c id now) as [t0 |] eqn:Hc.
  - cbn [answer queried cache_after]. intros Ha.
    destruct (subscription_check_next _ _ Ha) as [-> Hs].
    split; [exact Hs |]. exists id. repeat split; try assumption.
    left. repeat split. exact Hc.
  - destruct (select_tenant table id) as [| t0 rest] eqn:Hsel;
      [discriminate |].
    cbn [answer queried cache_after]. intros Ha.
    destruct (subscription_check_next _ _ Ha) as [-> Hs].
    destruct (select_tenant_head _ _ _ _ Hsel) as [Hin Ht].
    split; [exact Hs |]. exists id. repeat split; try assumption.
    right. repeat split; try assumption.
    intros now'. apply cached_after_caching.
Qed.

Lemma middleware_admits_only_active_tenants_witness :
  answer (tenantMiddleware [Cases.acme] [] 5000 (Some "tenant-1"))
  = Next Cases.acme
  /\ In Cases.acme [Cases.acme].
Proof.
  split; [reflexivity |].
  destruct (middleware_admits_only_active_tenants [Cases.acme] [] 5000
              (Some "tenant-1") Cases.acme eq_refl)
    as (_ & id & _ & _ & [(H & _) | (_ & _ & H & _)]);
    [discriminate H | exact H].
Defined.

(** X24. Once the middleware has cached a tenant it keeps admitting that
    tenant for the following hour without reading [tenants] again, whatever
    the table holds by then: a subscription suspended or a row deleted in the
    meantime has no effect until the entry expires. *)
Theorem cached_tenant_outlives_table_changes (table table' : list tenant)
    (c : cache) (now now' : Z) (tenantId : option string) (t : tenant) :
  answer (tenantMiddleware table c now tenantId) = Next t ->
  queried (tenantMiddleware table c now tenantId) = true ->
  now' < now + 3600 * 1000 ->
  tenantMiddleware table'
    (cache_after (tenantMiddleware table c now tenantId)) now' tenantId
  = {| answer := Next t;
       cache_after := cache_after (tenantMiddleware table c now tenantId);
       queried := false |}.
Proof.
  intros Ha Hq Ht.
  remember (tenantMiddleware table c now tenantId) as first eqn:E.
  unfold tenantMiddleware in E.
  destruct (Routes.or_null tenantId) as [id |] eqn:Hid;
    [| subst first; discriminate Ha].
  destruct (getCachedTenant c id now) as [t0 |] eqn:Hc;
    [subst first; discriminate Hq |].
  destruct (select_tenant table id) as [| t0 rest] eqn:Hsel;
    [subst first; discriminate Ha |].
  subst first. cbn [answer queried cache_after] in *.
  unfold tenantMiddleware.
  rewrite Hid, (cached_after_caching c id t0 now now' Ht), Ha. reflexivity.
Qed.

Lemma cached_tenant_outlives_table_changes_witness :
  answer
    (tenantMiddleware [Cases.acme_suspended]
       (cache_after (tenantMiddleware [Cases.acme] [] 5000 (Some "tenant-1")))
       3604999 (Some "tenant-1"))
  = Next Cases.acme
  /\ answer
       (tenantMiddleware [Cases.acme_suspended]
          (cache_after (tenantMiddleware [Cases.acme] [] 5000
                          (Some "tenant-1")))
          3605000 (Some "tenant-1"))
     = AccessDenied403.
Proof.
  split; [| reflexivity].
  rewrite (cached_tenant_outlives_table_changes [Cases.acme]
             [Cases.acme_suspended] [] 5000 3604999 (Some "tenant-1")
             Cases.acme eq_refl eq_refl eq_refl).
  reflexivity.
Defined.

Lemma own_without_key {A : Type} (o : list (string * A)) (k : string) :
  JS.own (filter (fun e => negb (String.eqb (fst e) k)) o) k = None.
Proof.
  induction o as [| [k0 v] o IH]; [reflexivity |].
  cbn [filter fst]. destruct (String.eqb k0 k) eqn:E; cbn [negb]; [exact IH |].
  cbn [JS.own]. rewrite E. exact IH.
Qed.

(** X25. After [invalidateTenantCache] the next request of that tenant is
    answered from [tenants]: the table is read, a missing row gives 404, and
    otherwise the decision is taken on the stored row, whatever the cache
    held before. *)
Theorem invalidation_forces_a_fresh_read (table : list tenant) (c : cache)
    (now : Z) (id : string) :
  id <> "" ->
  let r := tenantMiddleware table (invalidateTenantCache c id) now (Some id) in
  queried r = true
  /\ answer r = match select_tenant table id with
                | [] => NotFound404
                | t :: _ => subscription_check t
                end.
Proof.
  intros Hne r. unfold r, tenantMiddleware, getCachedTenant,
    invalidateTenantCache.
  cbn [Routes.or_null]. destruct (String.eqb_spec id ""); [contradiction |].
  rewrite own_without_key.
  destruct (select_tenant table id); split; reflexivity.
Qed.

Lemma invalidation_forces_a_fresh_read_witness :
  answer
    (tenantMiddleware [Cases.acme_suspended]
       (invalidateTenantCache
          (cache_after (tenantMiddleware [Cases.acme] [] 5000
                          (Some "tenant-1")))
          "tenant-1")
       6000 (Some "tenant-1"))
  = AccessDenied403.
Proof.
  rewrite (proj2 (invalidation_forces_a_fresh_read [Cases.acme_suspended]
                    (cache_after (tenantMiddleware [Cases.acme] [] 5000
                                    (Some "tenant-1")))
                    6000 "tenant-1" ltac:(discriminate))).
  reflexivity.
Defined.

End TenantResolution.

(** ** From detection to the default model *)

Section StartUp.

Import Detection.

Lemma round_bounds (x : Q) (lo hi : Z) :
  (inject_Z lo <= x + (1 # 2))%Q ->
  (x + (1 # 2) < inject_Z hi)%Q ->
  lo <= Hardware.round x < hi.
Proof.
  intros Hlo Hhi. unfold Hardware.round. split.
  - rewrite <- (Qfloor_Z lo). apply Qfloor_resp_le. exact Hlo.
  - rewrite Zlt_Qlt. eapply Qle_lt_trans; [apply Qfloor_le | exact Hhi].
Qed.

Lemma categorize_whole_gigabytes (cores : option Z) (total : option Q)
    (v m : string) (n : Z) (c : option Z) :
  Orchestrator.categorize
    {| Hardware.cpu_cores := cores;
       Hardware.memory_total := total;
       Hardware.gpu := Some {| Hardware.vendor := v; Hardware.model := m;
                               Hardware.memory := inject_Z n;
                               Hardware.cores := c |} |}
  = if n =? 0 then Orchestrator.cat_cpu_only
    else if n <=? 4 then Orchestrator.cat_gpu_4gb
    else if n <=? 8 then Orchestrator.cat_gpu_8gb
    else Orchestrator.cat_gpu_16gb.
Proof.
  unfold Orchestrator.categorize, Qeq_bool, Qle_bool.
  cbn [Hardware.gpu Hardware.memory inject_Z Qnum Qden].
  rewrite !Z.mul_1_r. reflexivity.
Qed.

Lemma hasGPU_whole_gigabytes (cores : option Z) (total : option Q)
    (v m : string) (n : Z) (c : option Z) :
  Hardware.hasGPU
    {| Hardware.cpu_cores := cores;
       Hardware.memory_total := total;
       Hardware.gpu := Some {| Hardware.vendor := v; Hardware.model := m;
                               Hardware.memory := inject_Z n;
                               Hardware.cores := c |} |}
  = (0 <? n).
Proof.
  unfold Hardware.hasGPU, Qle_bool.
  cbn [Hardware.gpu Hardware.memory inject_Z Qnum Qden].
  rewrite Z.mul_1_r. cbn [Z.mul]. rewrite Z.ltb_antisym. reflexivity.
Qed.

Lemma memory_of_vram_whole (v : Q) :
  (0 <= v)%Q ->
  Hardware.memory_of_vram (Some v)
  = inject_Z (Hardware.round (v / 1024)%Q)
  /\ 0 <= Hardware.round (v / 1024)%Q.
Proof.
  intros Hv.
  assert (Hn : 0 <= Hardware.round (v / 1024)%Q).
  { apply (round_bounds (v / 1024)%Q 0 (Hardware.round (v / 1024)%Q + 1)).
    - change (inject_Z 0) with 0%Q.
      assert (0 <= v / 1024)%Q
        by (apply Qle_shift_div_l; [reflexivity | rewrite Qmult_0_l; exact Hv]).
      lra.
    - unfold Hardware.round. apply Qlt_floor. }
  split; [| exact Hn].
  unfold Hardware.memory_of_vram.
  destruct (Qeq_bool v 0) eqn:E; [| reflexivity].
  apply Qeq_bool_eq in E.
  assert (H0 : Hardware.round (v / 1024)%Q = 0).
  { assert (0 <= Hardware.round (v / 1024)%Q < 1); [| lia].
    apply round_bounds.
    - change (inject_Z 0) with 0%Q. rewrite E. vm_compute. discriminate.
    - change (inject_Z 1) with 1%Q. rewrite E. vm_compute. reflexivity. }
  rewrite H0. reflexivity.
Qed.

(** X26. From the video memory the first graphics controller reports, in
    MB, to the category of the assignment: no controller list or an empty
    one, and a controller under 512 MB, give cpu_only with [hasGPU()] false;
    from 512 MB up the host has a GPU, and the category is gpu_4gb below
    4608 MB, gpu_8gb below 8704 MB, and gpu_16gb from there on, since the
    memory is rounded to whole gigabytes first.  Detected memory is never
    negative. *)
Theorem category_from_reported_video_memory (p : probe) :
  (match si_controllers p with Some (_ :: _) => False | _ => True end ->
   Hardware.hasGPU (detectHardware p) = false
   /\ Orchestrator.categorize (detectHardware p) = Orchestrator.cat_cpu_only)
  /\ (forall g rest v,
        si_controllers p = Some (g :: rest) ->
        vram g = Some v ->
        (0 <= v)%Q ->
        Spec.plausible (detectHardware p)
        /\ Hardware.hasGPU (detectHardware p) = Qle_bool 512 v
        /\ ((v < 512)%Q ->
            Orchestrator.categorize (detectHardware p)
            = Orchestrator.cat_cpu_only)
        /\ ((512 <= v)%Q -> (v < 4608)%Q ->
            Orchestrator.categorize (detectHardware p)
            = Orchestrator.cat_gpu_4gb)
        /\ ((4608 <= v)%Q -> (v < 8704)%Q ->
            Orchestrator.categorize (detectHardware p)
            = Orchestrator.cat_gpu_8gb)
        /\ ((8704 <= v)%Q ->
            Orchestrator.categorize (detectHardware p)
            = Orchestrator.cat_gpu_16gb)).
Proof.
  split.
  - unfold detectHardware, Hardware.hasGPU, Orchestrator.categorize.
    cbn [Hardware.gpu].
    destruct (si_controllers p) as [[| g rest] |]; intros H;
      [split; reflexivity | destruct H | split; reflexivity].
  - intros g rest v Hc Hvram Hv.
    destruct (memory_of_vram_whole v Hv) as [Hm Hn].
    assert (Hdiv : (v / 1024 * 1024 == v)%Q) by (field).
    set (n := Hardware.round (v / 1024)%Q) in *.
    assert (Hlow : (v < 512)%Q -> n = 0).
    { intros H. assert (0 <= n < 1); [| lia]. apply round_bounds.
      - change (inject_Z 0) with 0%Q.
        assert (0 <= v / 1024)%Q
          by (apply Qle_shift_div_l; [reflexivity | rewrite Qmult_0_l; exact Hv]).
        lra.
      - change (inject_Z 1) with 1%Q. lra. }
    assert (Hrange : forall lo hi : Z,
      (inject_Z lo * 1024 - 512 <= v)%Q ->
      (v < inject_Z hi * 1024 - 512)%Q -> lo <= n < hi).
    { intros lo hi H1 H2. apply round_bounds; lra. }
    assert (Hup : forall lo : Z, (inject_Z lo * 1024 - 512 <= v)%Q -> lo <= n).
    { intros lo H1.
      destruct (round_bounds (v / 1024)%Q lo (n + 1)) as [H _];
        [lra | apply Qlt_floor | exact H]. }
    unfold detectHardware, Spec.plausible. rewrite Hc, Hvram, Hm.
    cbn [Hardware.gpu Hardware.memory].
    rewrite categorize_whole_gigabytes, hasGPU_whole_gigabytes.
    split.
    { change 0%Q with (inject_Z 0). rewrite <- Zle_Qle. exact Hn. }
    split.
    { destruct (Qle_bool 512 v) eqn:E.
      - apply Qle_bool_iff in E. apply Z.ltb_lt.
        assert (1 <= n); [| lia].
        apply Hup. change (inject_Z 1) with 1%Q. lra.
      - apply Z.ltb_ge.
        assert (Hlt : (v < 512)%Q).
        { apply Qnot_le_lt. intros H. apply Qle_bool_iff in H. congruence. }
        rewrite (Hlow Hlt). lia. }
    split.
    { intros H. rewrite (Hlow H). reflexivity. }
    split.
    { intros H1 H2.
      assert (1 <= n < 5).
      { apply Hrange; [change (inject_Z 1) with 1%Q
                      | change (inject_Z 5) with 5%Q]; lra. }
      destruct (Z.eqb_spec n 0); [lia |].
      destruct (Z.leb_spec n 4); [reflexivity | lia]. }
    split.
    { intros H1 H2.
      assert (5 <= n < 9).
      { apply Hrange; [change (inject_Z 5) with 5%Q
                      | change (inject_Z 9) with 9%Q]; lra. }
      destruct (Z.eqb_spec n 0); [lia |].
      destruct (Z.leb_spec n 4); [lia |].
      destruct (Z.leb_spec n 8); [reflexivity | lia]. }
    intros H1.
    assert (9 <= n).
    { apply Hup. change (inject_Z 9) with 9%Q. lra. }
    destruct (Z.eqb_spec n 0); [lia |].
    destruct (Z.leb_spec n 4); [lia |].
    destruct (Z.leb_spec n 8); [lia | reflexivity].
Qed.

Lemma category_from_reported_video_memory_witness :
  Orchestrator.categorize
    (detectHardware
       {| si_cpu_cores := 8;
          si_mem_total := 17179869184;
          si_controllers :=
            Some [{| ctl_vendor := "NVIDIA"; ctl_model := "T4";
                     vram := Some 4608%Q; ctl_cores := None |}] |})
  = Orchestrator.cat_gpu_8gb.
Proof.
  destruct (proj2 (category_from_reported_video_memory
                     {| si_cpu_cores := 8;
                        si_mem_total := 17179869184;
                        si_controllers :=
                          Some [{| ctl_vendor := "NVIDIA"; ctl_model := "T4";
                                   vram := Some 4608%Q;
                                   ctl_cores := None |}] |})
              _ _ 4608%Q eq_refl eq_refl ltac:(vm_compute; discriminate))
    as (_ & _ & _ & _ & H & _).
  apply H; [vm_compute; discriminate | reflexivity].
Defined.

End StartUp.

